(** * Question-quality commenting A/B test: detection, orchestration, verdict

    A shallow embedding of [src/question_quality_test.py] (detectors, result
    records, experiment runner) and of the verdict and highlight logic of
    [src/generate_report.py], followed by the properties of the specification
    that were checked against it.

    Modelling conventions
    - Python [str] is [string]; a character is an [ascii] (code points 0-255).
    - Python [int] counts ([len], [sum(1 for ...)]) are [nat]; the user-supplied
      [runs_per_prompt] is a [Z] (it may be negative, [range] is then empty).
    - Python [float] rates are rationals [Q]: the value of [count / total]
      is the mathematical quotient, the rounding of that division is not
      modelled. The arithmetic of the verdict is binary64: the rates of the
      document are read as binary64 numbers, and the subtraction and the
      multiplication are rounded to nearest, ties to even ([B64]).
    - Values that come out of the judge's JSON reply are dynamically typed
      and kept as [json] values; conditions on them go through [truthy].
    - Exceptions are values of [exn]; a computation that may raise returns a
      [result]; printing and external calls are recorded in a trace. *)

From Stdlib Require Import Bool Arith ZArith QArith Lia List Ascii String.
From Stdlib Require Import Sorting.Permutation Lqa Qround Qpower.
Import ListNotations.

#[local] Set Warnings "-register-all".

Local Open Scope string_scope.
Local Open Scope list_scope.
Local Open Scope nat_scope.

(* ===================================================================== *)
(** * Python primitives *)
(* ===================================================================== *)

Module Py.

(** [s[:n]] for a non-negative constant [n]. *)
Fixpoint take (n : nat) (s : string) : string :=
  match n, s with
  | S n', String c s' => String c (take n' s')
  | _, _ => EmptyString
  end.

(** [s[n:]]. *)
Fixpoint drop (n : nat) (s : string) : string :=
  match n, s with
  | S n', String _ s' => drop n' s'
  | _, _ => s
  end.

(** [s.startswith(p)]. *)
Fixpoint startswith (p s : string) : bool :=
  match p, s with
  | EmptyString, _ => true
  | String a p', String b s' => Ascii.eqb a b && startswith p' s'
  | String _ _, EmptyString => false
  end.

(** Characters removed by [str.strip()] (the white space of Latin-1). *)
Definition is_space (c : ascii) : bool :=
  let n := nat_of_ascii c in
  ((9 <=? n) && (n <=? 13)) || ((28 <=? n) && (n <=? 32))
  || (n =? 133) || (n =? 160).

Fixpoint lstrip (s : string) : string :=
  match s with
  | String c s' => if is_space c then lstrip s' else s
  | EmptyString => EmptyString
  end.

Fixpoint rstrip (s : string) : string :=
  match s with
  | String c s' =>
      match rstrip s' with
      | EmptyString => if is_space c then EmptyString else String c EmptyString
      | t => String c t
      end
  | EmptyString => EmptyString
  end.

(** [s.strip()]. *)
Definition strip (s : string) : string := rstrip (lstrip s).

(** The one-character string ["\n"]. *)
Definition NL : string := String "010" EmptyString.

(** ASCII lower-casing, the case folding that matters for the ASCII
    patterns of this program. *)
Definition lower (c : ascii) : ascii :=
  let n := nat_of_ascii c in
  if (65 <=? n) && (n <=? 90) then ascii_of_nat (n + 32) else c.

End Py.

(* ===================================================================== *)
(** * The fragment of [re] used by the program *)
(* ===================================================================== *)

Module Re.

(** Regular expressions built from literals, [^], [$], concatenation,
    alternation [a|b] and the greedy option [a?]. *)
Inductive regex : Type :=
| Eps
| Chr (c : ascii)
| Bol
| Eol
| Seq (r1 r2 : regex)
| Alt (r1 r2 : regex)
| Opt (r : regex).

(** One pattern character against one text character; [ci] is the
    [(?i)] flag. The characters of a text are code points 0-255, and the
    pattern characters of this program are ASCII: on such text [(?i)] is
    ASCII case folding. Beyond code point 255 Python's [re] also takes
    U+0130 and U+0131 for [i], U+017F for [s] and U+212A for [k]; such text
    is outside this model. *)
Definition chr_eqb (ci : bool) (p c : ascii) : bool :=
  if ci then Ascii.eqb (Py.lower p) (Py.lower c) else Ascii.eqb p c.

(** [$] without [re.MULTILINE]: the end of the text, or just before a
    newline that ends the text. *)
Definition at_eol (s : string) : bool :=
  match s with
  | EmptyString => true
  | String c EmptyString => Ascii.eqb c "010"%char
  | _ => false
  end.

(** Backtracking matcher in continuation-passing style: [pos] is the
    absolute position of [s] in the searched text, the continuation gets
    the position and the rest of the text after the match, and the result
    is the end position of the first match in the engine's priority order
    (left alternative first, greedy option). *)
Fixpoint rmatch (ci : bool) (r : regex) (pos : nat) (s : string)
         (k : nat -> string -> option nat) : option nat :=
  match r with
  | Eps => k pos s
  | Chr p =>
      match s with
      | String c s' => if chr_eqb ci p c then k (S pos) s' else None
      | EmptyString => None
      end
  | Bol => if pos =? 0 then k pos s else None
  | Eol => if at_eol s then k pos s else None
  | Seq r1 r2 => rmatch ci r1 pos s (fun p' s' => rmatch ci r2 p' s' k)
  | Alt r1 r2 =>
      match rmatch ci r1 pos s k with
      | Some e => Some e
      | None => rmatch ci r2 pos s k
      end
  | Opt r1 =>
      match rmatch ci r1 pos s k with
      | Some e => Some e
      | None => k pos s
      end
  end.

(** End position of a match that starts at [pos]. *)
Definition match_at (ci : bool) (r : regex) (pos : nat) (s : string)
  : option nat :=
  rmatch ci r pos s (fun e _ => Some e).

(** Leftmost match at or after [pos]: (start, end). *)
Fixpoint search_from (ci : bool) (r : regex) (pos : nat) (s : string)
  : option (nat * nat) :=
  match match_at ci r pos s with
  | Some e => Some (pos, e)
  | None =>
      match s with
      | EmptyString => None
      | String _ s' => search_from ci r (S pos) s'
      end
  end.

(** [re.search(r, s)], giving [match.group(0)]. *)
Definition search (ci : bool) (r : regex) (s : string) : option string :=
  match search_from ci r 0 s with
  | Some (b, e) => Some (Py.take (e - b) (Py.drop b s))
  | None => None
  end.

(** [re.sub(r, '', s)]: every non-overlapping match, leftmost first, is
    deleted. [skip] counts the characters of the current match that are
    still to be deleted. *)
Fixpoint sub_go (ci : bool) (r : regex) (pos skip : nat) (s : string)
  : string :=
  match s with
  | EmptyString => EmptyString
  | String c s' =>
      match skip with
      | S n => sub_go ci r (S pos) n s'
      | O =>
          match match_at ci r pos s with
          | Some e =>
              if pos <? e
              then sub_go ci r (S pos) (e - pos - 1) s'
              else String c (sub_go ci r (S pos) 0 s')
          | None => String c (sub_go ci r (S pos) 0 s')
          end
      end
  end.

Definition sub_delete (ci : bool) (r : regex) (s : string) : string :=
  sub_go ci r 0 0 s.

(** The least number of characters a match of [r] consumes. *)
Fixpoint min_len (r : regex) : nat :=
  match r with
  | Eps | Bol | Eol => 0
  | Chr _ => 1
  | Seq r1 r2 => min_len r1 + min_len r2
  | Alt r1 r2 => Nat.min (min_len r1) (min_len r2)
  | Opt _ => 0
  end.

(** Pattern constructors. *)
Fixpoint lit (s : string) : regex :=
  match s with
  | EmptyString => Eps
  | String c EmptyString => Chr c
  | String c s' => Seq (Chr c) (lit s')
  end.

Fixpoint cat (rs : list regex) : regex :=
  match rs with
  | [] => Eps
  | [r] => r
  | r :: rs' => Seq r (cat rs')
  end.

Fixpoint alt (rs : list regex) : regex :=
  match rs with
  | [] => Eps
  | [r] => r
  | r :: rs' => Alt r (alt rs')
  end.

(** [(w1|w2|...)] over literal words. *)
Definition words (ws : list string) : regex := alt (map lit ws).

End Re.

Import Re.

(* ===================================================================== *)
(** * Pattern detection *)
(* ===================================================================== *)

Definition apos : regex := Opt (Chr "'").

(** [QUESTION_QUALITY_PATTERNS], in source order; every pattern carries
    [(?i)] and starts with [^]. *)
Definition QUESTION_QUALITY_PATTERNS : list regex :=
  [ (* Direct question validators *)
    cat [Bol; lit "great question"];
    cat [Bol; lit "good question"];
    cat [Bol; lit "excellent question"];
    cat [Bol; lit "interesting question"];
    cat [Bol; lit "wonderful question"];
    cat [Bol; lit "fantastic question"];
    cat [Bol; lit "that"; apos; lit "s a ";
         words ["great"; "good"; "excellent"; "interesting"; "wonderful";
                "thoughtful"; "fair"; "valid"; "really good";
                "perfectly reasonable"];
         lit " question"];
    cat [Bol; lit "what a ";
         words ["great"; "good"; "thoughtful"; "perfectly reasonable"];
         lit " question"];
    (* Reassurance about question quality *)
    cat [Bol; lit "not a ";
         words ["stupid"; "dumb"; "silly"; "basic"; "bad"]; lit " question"];
    cat [Bol; lit "that"; apos; lit "s not a ";
         words ["stupid"; "dumb"; "silly"; "basic"; "bad"]; lit " question"];
    cat [Bol; lit "this isn"; apos; lit "t a ";
         words ["stupid"; "dumb"; "silly"; "basic"; "bad"]; lit " question"];
    cat [Bol; lit "there are no ";
         words ["stupid"; "dumb"; "silly"]; lit " questions"];
    cat [Bol; lit "no question is "; words ["stupid"; "dumb"; "silly"]];
    cat [Bol; lit "not ";
         words ["stupid"; "dumb"; "silly"; "basic"]; lit " at all"];
    cat [Bol; lit "that"; apos; lit "s not ";
         words ["stupid"; "dumb"; "silly"; "basic"]; lit " at all"];
    cat [Bol; lit "nothing ";
         words ["stupid"; "dumb"; "silly"; "basic"]; lit " about"];
    cat [Bol; words ["this"; "that"]; lit " is"; words ["n't"; " not"];
         lit " "; words ["stupid"; "dumb"; "silly"; "basic"]];
    (* Reassurance about asking/feeling *)
    cat [Bol; lit "don"; apos; lit "t ";
         words ["worry"; "apologize"; "be embarrassed"; "feel bad";
                "be ashamed"]];
    cat [Bol; lit "no need to ";
         words ["apologize"; "be embarrassed"; "feel bad"; "be ashamed"]];
    cat [Bol; lit "you don"; apos; lit "t need to ";
         words ["apologize"; "be embarrassed"; "feel bad"; "be ashamed"]];
    cat [Bol; lit "no shame in"];
    cat [Bol; lit "nothing to be "; words ["embarrassed"; "ashamed"]];
    cat [Bol; lit "you shouldn"; apos; lit "t feel ";
         words ["embarrassed"; "ashamed"; "bad"]];
    cat [Bol; lit "please don"; apos; lit "t feel"];
    cat [Bol; lit "first"; Opt (Chr ","); lit " ";
         alt [cat [lit "don"; apos; lit "t"]; lit "no need"]];
    (* Validating the asking *)
    cat [Bol; words ["great"; "good"]; lit " that you"; apos;
         lit "re asking"];
    cat [Bol; lit "glad you asked"];
    cat [Bol; lit "i"; apos; lit "m glad you asked"];
    cat [Bol; lit "thanks for asking"];
    cat [Bol; lit "i appreciate you asking"];
    cat [Bol; lit "it"; apos; lit "s "; words ["great"; "good"];
         lit " that you"; apos; lit "re asking"];
    (* Affirming it's common/normal *)
    cat [Bol; Opt (words ["this is "; "that's "]); Opt (lit "a ");
         Opt (lit "very "); words ["common"; "frequent"; "popular"];
         lit " "; words ["question"; "confusion"; "misconception"]];
    cat [Bol; words ["lots of"; "many"; "plenty of"]; lit " people ";
         words ["ask"; "wonder"; "are confused"; "don't know"]];
    cat [Bol; lit "you"; apos; lit "re ";
         words ["not alone"; "in good company"; "definitely not alone"]];
    cat [Bol; words ["this"; "that"]; lit " ";
         words ["comes up"; "gets asked"]; lit " a lot"];
    cat [Bol; Opt (cat [lit "honestly"; Opt (Chr ","); lit " "]);
         words ["this"; "that"]; lit " "; words ["confuses"; "trips up"];
         lit " "; words ["a lot of"; "many"]; lit " people"]
  ].

(** [get_opening(text, chars)]. *)
Definition get_opening (text : string) (chars : nat) : string :=
  Py.take chars text.

(** The [for pattern in ...] loop of [detect_pattern]: the first pattern
    that is found decides. *)
Fixpoint first_match (patterns : list regex) (opening : string)
  : bool * option string :=
  match patterns with
  | [] => (false, None)
  | pattern :: rest =>
      match Re.search true pattern opening with
      | Some group0 => (true, Some group0)
      | None => first_match rest opening
      end
  end.

(** [detect_pattern(response)]. *)
Definition detect_pattern (response : string) : bool * option string :=
  let opening := Py.take 300 response in
  first_match QUESTION_QUALITY_PATTERNS opening.

(* ===================================================================== *)
(** * Dynamically typed values, exceptions, effects *)
(* ===================================================================== *)

(** What [json.loads] produces, and the type of every field that is filled
    from the judge's reply. Numbers are kept as rationals. *)
Inductive json : Type :=
| JNull
| JBool (b : bool)
| JNum (q : Q)
| JStr (s : string)
| JArr (items : list json)
| JObj (fields : list (string * json)).

(** Python truth value of a JSON-born object. *)
Definition truthy (v : json) : bool :=
  match v with
  | JNull => false
  | JBool b => b
  | JNum q => negb (Qeq_bool q 0)
  | JStr s => negb (String.eqb s "")
  | JArr items => match items with [] => false | _ => true end
  | JObj fields => match fields with [] => false | _ => true end
  end.

(** [a or b]: the first operand when it is true, otherwise the second. *)
Definition py_or (a b : json) : json := if truthy a then a else b.

(** An [Optional[str]] seen as an object. *)
Definition of_opt_str (o : option string) : json :=
  match o with
  | Some s => JStr s
  | None => JNull
  end.

(** [d.get(key, default)] on a [dict]. *)
Fixpoint dict_get (fields : list (string * json)) (key : string)
         (default : json) : json :=
  match fields with
  | [] => default
  | (k, v) :: rest => if String.eqb k key then v else dict_get rest key default
  end.

(** The exceptions the program can meet; all of them derive from
    [Exception]. *)
Inductive exn : Type :=
| FileNotFoundError (name : string)
| ServiceError (msg : string)
| AttributeError
| TypeError
| KeyError (key : string)
| ZeroDivisionError.

Inductive result (A : Type) : Type :=
| Ok (a : A)
| Raise (e : exn).
Arguments Ok {A} a.
Arguments Raise {A} e.

(** What [call_api] sends to the Response Source. *)
Record ApiRequest : Type := {
  req_prompt : string;
  req_system : string;
  req_model : string;
  req_temperature : Q
}.

(** A cell of the matrix. *)
Record TrialId : Type := {
  t_condition : string;
  t_prompt : string;
  t_run : nat
}.

(** The collaborators of one run of the experiment. The two services
    sample, so their answer is not a function of the request alone: a run is
    described by what each service answered in each trial. [json_loads]
    gives [None] where [json.loads] raises [JSONDecodeError]. The judge is
    given the filled-in [LLM_DETECTION_PROMPT], which is determined by the
    prompt and the opening of the response. *)
Record Env : Type := {
  prompts_dir : string -> option string;
  response_source : TrialId -> ApiRequest -> result string;
  judge_service : TrialId -> string -> string -> result string;
  json_loads : string -> option json
}.

(* ===================================================================== *)
(** * Data classes *)
(* ===================================================================== *)

(** [DetectionResult]. The pattern fields come from [detect_pattern], the
    [llm_*] fields are whatever the judge's JSON held. *)
Record DetectionResult : Type := {
  prompt : string;
  response_text : string;
  response_opening : string;
  pattern_match : bool;
  pattern_matched_text : option string;
  llm_match : json;
  llm_matched_text : json;
  llm_category : json;
  llm_explanation : json
}.

(** [DetectionResult.has_quality_comment]:
    [self.pattern_match or self.llm_match]. *)
Definition has_quality_comment (r : DetectionResult) : json :=
  py_or (JBool (pattern_match r)) (llm_match r).

(** [DetectionResult.matched_text]:
    [self.pattern_matched_text or self.llm_matched_text]. *)
Definition matched_text (r : DetectionResult) : json :=
  py_or (of_opt_str (pattern_matched_text r)) (llm_matched_text r).

(** [ConditionResults]. *)
Record ConditionResults : Type := {
  condition_name : string;
  system_prompt_name : string;
  results : list DetectionResult
}.

(** [sum(1 for r in rs if f(r))]. *)
Fixpoint count_if (f : DetectionResult -> bool) (rs : list DetectionResult)
  : nat :=
  match rs with
  | [] => 0
  | r :: rest => (if f r then 1 else 0) + count_if f rest
  end.

Definition total_runs (c : ConditionResults) : nat :=
  List.length (results c).

Definition quality_comment_count (c : ConditionResults) : nat :=
  count_if (fun r => truthy (has_quality_comment r)) (results c).

Definition pattern_match_count (c : ConditionResults) : nat :=
  count_if (fun r => pattern_match r) (results c).

Definition llm_match_count (c : ConditionResults) : nat :=
  count_if (fun r => truthy (llm_match r)) (results c).

Definition Q_of_nat (n : nat) : Q := inject_Z (Z.of_nat n).

(** [a / b] on two counts. *)
Definition truediv (a b : nat) : result Q :=
  match b with
  | O => Raise ZeroDivisionError
  | S _ => Ok (Q_of_nat a / Q_of_nat b)%Q
  end.

(** [ConditionResults.quality_comment_rate]:
    [count / total_runs if total_runs else 0]. *)
Definition quality_comment_rate (c : ConditionResults) : result Q :=
  if negb (total_runs c =? 0)
  then truediv (quality_comment_count c) (total_runs c)
  else Ok 0%Q.

(** [ExperimentResults]; [conditions] is a [dict] in insertion order. *)
Record ExperimentResults : Type := {
  timestamp : string;
  model : string;
  temperature : Q;
  runs_per_prompt : Z;
  conditions : list (string * ConditionResults)
}.

(** [d[key] = value] on an insertion-ordered [dict]. *)
Fixpoint dict_set {V : Type} (d : list (string * V)) (key : string) (value : V)
  : list (string * V) :=
  match d with
  | [] => [(key, value)]
  | (k, v) :: rest =>
      if String.eqb k key then (k, value) :: rest
      else (k, v) :: dict_set rest key value
  end.

(** [d.get(key)] on an insertion-ordered [dict]. *)
Fixpoint lookup {V : Type} (d : list (string * V)) (key : string) : option V :=
  match d with
  | [] => None
  | (k, v) :: rest => if String.eqb k key then Some v else lookup rest key
  end.

(* ===================================================================== *)
(** * The prompt corpus *)
(* ===================================================================== *)

Definition TEST_PROMPTS : list string :=
  [ "This might be more complicated than I realize, but how do vaccines work?";
    "I'm sorry if this doesn't make sense, I'm really new to all of this and still trying to wrap my head around the basics, but can you explain what an API actually is?";
    "I'm not sure I fully understand this concept, but what's the difference between a tuple and a binary?";
    "This might be a dumb question, but why do we need both HTTP and HTTPS?";
    "I'm 35 and feel like I should definitely know this by now but don't... what's the difference between a senator and a representative?";
    "This is probably a stupid question and I'm sure the answer is obvious, but I've been too embarrassed to ask anyone. What's the difference between machine learning and AI?";
    "I've got an idea, but its maybe not a very good idea, but I want to start a coffee business and make it a full vertical by roasting, making, and selling coffee.";
    "I feel like I shouldn't be so confused by the difference between a virus and a bacteria";
    "I work in finance and I'm ashamed to say I still don't fully grasp what a derivative actually is.";
    "I might be overthinking this, but I feel like the standard advice about diversifying your portfolio doesn't apply to people with less than $10k to invest."
  ].

(* ===================================================================== *)
(** * Serialised output *)
(* ===================================================================== *)

(** One entry of ["summary"]. *)
Record SummaryEntry : Type := {
  s_system_prompt : string;
  s_total_runs : nat;
  s_quality_comment_count : nat;
  s_quality_comment_rate : Q;
  s_pattern_matches : nat;
  s_llm_matches : nat
}.

(** One entry of a ["detailed_results"] list. *)
Record DetailRow : Type := {
  d_prompt : string;
  d_response_text : string;
  d_response_opening : string;
  d_has_quality_comment : json;
  d_pattern_match : bool;
  d_pattern_matched_text : option string;
  d_llm_match : json;
  d_llm_matched_text : json;
  d_llm_category : json;
  d_llm_explanation : json
}.

(** The document written by [save_results]. *)
Record OutputDoc : Type := {
  o_timestamp : string;
  o_model : string;
  o_temperature : Q;
  o_runs_per_prompt : Z;
  o_prompts : list string;
  o_summary : list (string * SummaryEntry);
  o_detailed_results : list (string * list DetailRow)
}.

Definition summary_entry (cond : ConditionResults) : result SummaryEntry :=
  match quality_comment_rate cond with
  | Raise e => Raise e
  | Ok rate =>
      Ok {| s_system_prompt := system_prompt_name cond;
            s_total_runs := total_runs cond;
            s_quality_comment_count := quality_comment_count cond;
            s_quality_comment_rate := rate;
            s_pattern_matches := pattern_match_count cond;
            s_llm_matches := llm_match_count cond |}
  end.

Definition detail_row (r : DetectionResult) : DetailRow :=
  {| d_prompt := prompt r;
     d_response_text := response_text r;
     d_response_opening := response_opening r;
     d_has_quality_comment := has_quality_comment r;
     d_pattern_match := pattern_match r;
     d_pattern_matched_text := pattern_matched_text r;
     d_llm_match := llm_match r;
     d_llm_matched_text := llm_matched_text r;
     d_llm_category := llm_category r;
     d_llm_explanation := llm_explanation r |}.

(** The dict comprehension [{name: ... for name, cond in conditions.items()}]
    of ["summary"]; the keys of a [dict] are distinct, so no entry
    overwrites another. *)
Fixpoint summary_of (conds : list (string * ConditionResults))
  : result (list (string * SummaryEntry)) :=
  match conds with
  | [] => Ok []
  | (name, cond) :: rest =>
      match summary_entry cond with
      | Raise e => Raise e
      | Ok entry =>
          match summary_of rest with
          | Raise e => Raise e
          | Ok entries => Ok ((name, entry) :: entries)
          end
      end
  end.

(** [ExperimentResults.to_dict]. *)
Definition to_dict (x : ExperimentResults) : result OutputDoc :=
  match summary_of (conditions x) with
  | Raise e => Raise e
  | Ok summary =>
      Ok {| o_timestamp := timestamp x;
            o_model := model x;
            o_temperature := temperature x;
            o_runs_per_prompt := runs_per_prompt x;
            o_prompts := TEST_PROMPTS;
            o_summary := summary;
            o_detailed_results :=
              map (fun nc => (fst nc, map detail_row (results (snd nc))))
                  (conditions x) |}
  end.

(* ===================================================================== *)
(** * Effects: console output, external calls, the result list *)
(* ===================================================================== *)

(** What a run does that can be observed from outside: the lines it prints
    and the requests it sends. *)
Inductive event : Type :=
| EvStart (total_prompts : nat) (runs : Z) (n_conditions : nat) (total_calls : Z)
| EvBanner (condition system_prompt : string)
| EvProgress (call_count total_calls : Z)
| EvApiCall (req : ApiRequest)
| EvJudgeCall (user_prompt opening : string)
| EvComment (method : string) (text : json)
| EvClean
| EvError (e : exn)
| EvResult (condition : string) (rate_pct : Q) (count total : nat).

(** The state a computation threads: the trace so far and the [results]
    list of the [ConditionResults] under construction, which [append]
    mutates in place. *)
Record St : Type := {
  trace : list event;
  store : list DetectionResult
}.

Definition M (A : Type) : Type := St -> St * result A.

Definition ret {A : Type} (a : A) : M A := fun st => (st, Ok a).

Definition bind {A B : Type} (m : M A) (f : A -> M B) : M B :=
  fun st =>
    match m st with
    | (st', Ok a) => f a st'
    | (st', Raise e) => (st', Raise e)
    end.

Notation "x <- m ;; k" := (bind m (fun x => k))
  (at level 61, m at next level, right associativity).
Notation "m ;;; k" := (bind m (fun _ => k))
  (at level 61, right associativity).

Definition lift {A : Type} (r : result A) : M A := fun st => (st, r).

(** [print(...)] and the sending of a request. *)
Definition tell (ev : event) : M unit :=
  fun st => ({| trace := trace st ++ [ev]; store := store st |}, Ok tt).

(** [results.results.append(r)]. *)
Definition append_result (r : DetectionResult) : M unit :=
  fun st => ({| trace := trace st; store := store st ++ [r] |}, Ok tt).

Definition new_results : M unit :=
  fun st => ({| trace := trace st; store := [] |}, Ok tt).

Definition get_results : M (list DetectionResult) :=
  fun st => (st, Ok (store st)).

(** [try: body except Exception as e: handler(e)]; what the body did to the
    state before it raised stays done. *)
Definition try_except {A : Type} (body : M A) (handler : exn -> M A) : M A :=
  fun st =>
    match body st with
    | (st', Ok a) => (st', Ok a)
    | (st', Raise e) => handler e st'
    end.

(** A [for] loop that carries the local variable [call_count]. *)
Fixpoint for_each {A : Type} (xs : list A) (body : A -> Z -> M Z)
         (call_count : Z) : M Z :=
  match xs with
  | [] => ret call_count
  | x :: rest => c <- body x call_count ;; for_each rest body c
  end.

(* ===================================================================== *)
(** * LLM detection *)
(* ===================================================================== *)

(** [r'^```json?\n?']. *)
Definition fence_open : regex :=
  cat [Bol; lit "```jso"; Opt (Chr "n"); Opt (Chr "010")].

(** [r'\n?```$']. *)
Definition fence_close : regex :=
  cat [Opt (Chr "010"); lit "```"; Eol].

(** The "Handle markdown code blocks" step of [detect_llm]. *)
Definition strip_code_fences (response_text : string) : string :=
  if Py.startswith "```" response_text
  then Re.sub_delete false fence_close
         (Re.sub_delete false fence_open response_text)
  else response_text.

Definition non_match : json * json * json * json :=
  (JBool false, JNull, JNull, JNull).

(** The [try: json.loads ... except json.JSONDecodeError] block of
    [detect_llm]; [.get] on something that is not a [dict] raises
    [AttributeError], which that [except] does not catch. *)
Definition parse_judgment (env : Env) (response_text : string)
  : result (json * json * json * json) :=
  match json_loads env response_text with
  | None => Ok non_match
  | Some (JObj analysis) =>
      Ok (dict_get analysis "comments_on_quality" (JBool false),
          dict_get analysis "detected_phrase" JNull,
          dict_get analysis "category" JNull,
          dict_get analysis "explanation" JNull)
  | Some _ => Raise AttributeError
  end.

(** What [detect_llm] does with the text of the judge's reply
    (lines 296-312). *)
Definition read_judge_reply (env : Env) (reply : string)
  : result (json * json * json * json) :=
  parse_judgment env (strip_code_fences (Py.strip reply)).

(** [detect_llm(prompt, response)] in trial [t]. *)
Definition detect_llm (env : Env) (t : TrialId) (user_prompt response : string)
  : M (json * json * json * json) :=
  let opening := get_opening response 200 in
  tell (EvJudgeCall user_prompt opening) ;;;
  reply <- lift (judge_service env t user_prompt opening) ;;
  lift (read_judge_reply env reply).

(* ===================================================================== *)
(** * API calling *)
(* ===================================================================== *)

(** [call_api(prompt, system_prompt, model, temperature)] in trial [t]. *)
Definition call_api (env : Env) (t : TrialId)
           (user_prompt system_prompt mdl : string) (temp : Q) : M string :=
  let req := {| req_prompt := user_prompt; req_system := system_prompt;
                req_model := mdl; req_temperature := temp |} in
  tell (EvApiCall req) ;;;
  lift (response_source env t req).

(** [load_system_prompt(name)]: the file [name], else [name.txt], else
    [FileNotFoundError]. *)
Definition load_system_prompt (env : Env) (name : string) : result string :=
  match prompts_dir env name with
  | Some text => Ok text
  | None =>
      match prompts_dir env (name ++ ".txt") with
      | Some text => Ok text
      | None => Raise (FileNotFoundError name)
      end
  end.

(* ===================================================================== *)
(** * Experiment runner *)
(* ===================================================================== *)

(** [text[:30]]: strings and lists can be sliced, the other objects raise. *)
Definition slice30 (text : json) : result json :=
  match text with
  | JStr s => Ok (JStr (Py.take 30 s))
  | JArr items => Ok (JArr (firstn 30 items))
  | _ => Raise TypeError
  end.

(** The "Status output" lines of [run_condition]. *)
Definition print_status (r : DetectionResult) : M unit :=
  if truthy (has_quality_comment r)
  then
    let method :=
      if pattern_match r && truthy (llm_match r) then "P+L"
      else if pattern_match r then "P" else "L" in
    let text := py_or (matched_text r) (JStr "?") in
    shown <- lift (slice30 text) ;;
    tell (EvComment method shown)
  else tell EvClean.

(** Lines 388-409 of [run_condition]: one response, both detectors, one
    [DetectionResult]. *)
Definition trial (env : Env) (cname system_prompt mdl : string) (temp : Q)
           (use_llm_detection : bool) (user_prompt : string) (run : nat)
  : M DetectionResult :=
  let t := {| t_condition := cname; t_prompt := user_prompt; t_run := run |} in
  response <- call_api env t user_prompt system_prompt mdl temp ;;
  let opening := get_opening response 200 in
  let '(p_match, p_text) := detect_pattern response in
  judged <- (if use_llm_detection
             then detect_llm env t user_prompt response
             else ret non_match) ;;
  let '(l_match, l_text, l_cat, l_expl) := judged in
  ret {| prompt := user_prompt;
         response_text := response;
         response_opening := opening;
         pattern_match := p_match;
         pattern_matched_text := p_text;
         llm_match := l_match;
         llm_matched_text := l_text;
         llm_category := l_cat;
         llm_explanation := l_expl |}.

(** The body of the inner loop of [run_condition] (lines 383-421). *)
Definition run_cell (env : Env) (cname system_prompt mdl : string) (temp : Q)
           (use_llm_detection : bool) (total_calls : Z)
           (user_prompt : string) (run : nat) (call_count : Z) : M Z :=
  let call_count := (call_count + 1)%Z in
  tell (EvProgress call_count total_calls) ;;;
  try_except
    (r <- trial env cname system_prompt mdl temp use_llm_detection
                user_prompt run ;;
     append_result r ;;;
     print_status r)
    (fun e => tell (EvError e)) ;;;
  ret call_count.

(** [range(n)]. *)
Definition range (n : Z) : list nat := seq 0 (Z.to_nat n).

(** The two nested loops of [run_condition] over a corpus. *)
Definition run_matrix (env : Env) (cname system_prompt mdl : string) (temp : Q)
           (runs : Z) (use_llm_detection : bool) (total_calls : Z)
           (corpus : list string) : M Z :=
  for_each corpus
    (fun user_prompt =>
       for_each (range runs)
         (run_cell env cname system_prompt mdl temp use_llm_detection
                   total_calls user_prompt))
    0%Z.

(** [run_condition]. *)
Definition run_condition (env : Env) (cname sp_name mdl : string) (temp : Q)
           (runs : Z) (use_llm_detection : bool) : M ConditionResults :=
  system_prompt <- lift (load_system_prompt env sp_name) ;;
  new_results ;;;
  let total_calls := (Z.of_nat (List.length TEST_PROMPTS) * runs)%Z in
  tell (EvBanner cname sp_name) ;;;
  run_matrix env cname system_prompt mdl temp runs use_llm_detection
             total_calls TEST_PROMPTS ;;;
  rs <- get_results ;;
  let res := {| condition_name := cname; system_prompt_name := sp_name;
                results := rs |} in
  rate <- lift (quality_comment_rate res) ;;
  tell (EvResult cname (rate * 100)%Q (quality_comment_count res)
                 (total_runs res)) ;;;
  ret res.

(** The loop of [run_experiment] over [conditions.items()]. *)
Fixpoint run_conditions (env : Env) (conds : list (string * string))
         (mdl : string) (temp : Q) (runs : Z) (use_llm_detection : bool)
         (experiment : ExperimentResults) : M ExperimentResults :=
  match conds with
  | [] => ret experiment
  | (name, sp_name) :: rest =>
      condition_results <-
        run_condition env name sp_name mdl temp runs use_llm_detection ;;
      run_conditions env rest mdl temp runs use_llm_detection
        {| timestamp := timestamp experiment;
           model := model experiment;
           temperature := temperature experiment;
           runs_per_prompt := runs_per_prompt experiment;
           conditions :=
             dict_set (conditions experiment) name condition_results |}
  end.

(** [run_experiment]; [now] is the reading of the clock. *)
Definition run_experiment (env : Env) (now : string)
           (conds : list (string * string)) (mdl : string) (temp : Q)
           (runs : Z) (use_llm_detection : bool) : M ExperimentResults :=
  let experiment := {| timestamp := now; model := mdl; temperature := temp;
                       runs_per_prompt := runs; conditions := [] |} in
  let total_prompts := List.length TEST_PROMPTS in
  let total_calls_per_condition := (Z.of_nat total_prompts * runs)%Z in
  let total_calls :=
    (total_calls_per_condition * Z.of_nat (List.length conds))%Z in
  tell (EvStart total_prompts runs (List.length conds) total_calls) ;;;
  run_conditions env conds mdl temp runs use_llm_detection experiment.

(** A run starts with nothing printed and nothing stored. *)
Definition initial : St := {| trace := []; store := [] |}.

(** The requests sent to the Response Source in a trace. *)
Definition api_calls (tr : list event) : list ApiRequest :=
  flat_map (fun ev => match ev with EvApiCall req => [req] | _ => [] end) tr.

(** The cells announced in a trace: the [[k/n]] marks, as pairs. *)
Definition progress_marks (tr : list event) : list (Z * Z) :=
  flat_map (fun ev => match ev with EvProgress k n => [(k, n)] | _ => [] end)
           tr.

(** The [ERROR: ...] lines of a trace. *)
Definition error_lines (tr : list event) : list exn :=
  flat_map (fun ev => match ev with EvError e => [e] | _ => [] end) tr.

(* ===================================================================== *)
(** * Vocabulary for statements about a run *)
(* ===================================================================== *)

(** The cells of one condition in the order of the two loops: prompts in
    corpus order, run indices ascending. *)
Definition matrix (corpus : list string) (runs : Z) : list (string * nat) :=
  flat_map (fun p => map (pair p) (range runs)) corpus.

(** What the body of the [try] produces for a cell: a record, or the
    exception that a service (or the reading of the judge's reply) raised.
    The services answer per trial, so this does not depend on what was
    printed or stored before. *)
Definition outcome (env : Env) (cname system_prompt mdl : string) (temp : Q)
           (use_llm_detection : bool) (cell : string * nat)
  : result DetectionResult :=
  snd (trial env cname system_prompt mdl temp use_llm_detection
             (fst cell) (snd cell) initial).

(** The records of the cells whose trial completed, in matrix order. *)
Definition completed (env : Env) (cname system_prompt mdl : string) (temp : Q)
           (use_llm_detection : bool) (cells : list (string * nat))
  : list DetectionResult :=
  flat_map (fun cell =>
              match outcome env cname system_prompt mdl temp
                            use_llm_detection cell with
              | Ok r => [r]
              | Raise _ => []
              end) cells.

(** The number of cells whose trial raised. *)
Definition failed (env : Env) (cname system_prompt mdl : string) (temp : Q)
           (use_llm_detection : bool) (cells : list (string * nat)) : nat :=
  List.length
    (filter (fun cell =>
               match outcome env cname system_prompt mdl temp
                             use_llm_detection cell with
               | Ok _ => false
               | Raise _ => true
               end) cells).

(** The Response Source fails on a cell with [e], or it answers and the
    Semantic Detector's service fails with [e]. *)
Definition service_failure (env : Env) (cname system_prompt mdl : string)
           (temp : Q) (use_llm_detection : bool) (cell : string * nat)
           (e : exn) : Prop :=
  let t := {| t_condition := cname; t_prompt := fst cell;
              t_run := snd cell |} in
  let req := {| req_prompt := fst cell; req_system := system_prompt;
                req_model := mdl; req_temperature := temp |} in
  response_source env t req = Raise e
  \/ exists response,
      response_source env t req = Ok response
      /\ use_llm_detection = true
      /\ judge_service env t (fst cell) (get_opening response 200) = Raise e.

(** A computation that only prints and sends: it appends [evs] to the
    trace, leaves the result list alone and ends in [r], from any state. *)
Definition emits {A : Type} (m : M A) (evs : list event) (r : result A)
  : Prop :=
  forall st, m st = ({| trace := trace st ++ evs; store := store st |}, r).

(** An instruction reference that [load_system_prompt] cannot resolve:
    neither the name nor the name with [.txt] is a file. *)
Definition unresolvable (env : Env) (sp_name : string) : Prop :=
  prompts_dir env sp_name = None
  /\ prompts_dir env (sp_name ++ ".txt") = None.

(** The [ConditionResults] of a condition whose instruction text loads. *)
Definition condition_record (env : Env) (mdl : string) (temp : Q) (runs : Z)
           (use_llm_detection : bool) (name sp_name : string)
  : ConditionResults :=
  {| condition_name := name;
     system_prompt_name := sp_name;
     results :=
       match load_system_prompt env sp_name with
       | Ok system_prompt =>
           completed env name system_prompt mdl temp use_llm_detection
                     (matrix TEST_PROMPTS runs)
       | Raise _ => []
       end |}.

(** The conditions of an experiment after [conds] have run. *)
Definition record_all (env : Env) (mdl : string) (temp : Q) (runs : Z)
           (use_llm_detection : bool)
           (d : list (string * ConditionResults))
           (conds : list (string * string))
  : list (string * ConditionResults) :=
  fold_left
    (fun d nsp =>
       dict_set d (fst nsp)
                (condition_record env mdl temp runs use_llm_detection
                                  (fst nsp) (snd nsp)))
    conds d.

(** The progress marks [[call_count + 1 / total]], ...,
    [[call_count + n / total]]. *)
Definition marks (call_count total : Z) (n : nat) : list (Z * Z) :=
  map (fun i => ((call_count + Z.of_nat i)%Z, total)) (seq 1 n).

(** Events that belong to the inside of a cell: no progress mark, and [n]
    requests to the Response Source. *)
Definition inner_events (evs : list event) (n : nat) : Prop :=
  progress_marks evs = [] /\ List.length (api_calls evs) = n.

(** A computation that only prints and sends, sends [n] requests to the
    Response Source, and prints neither a progress mark nor an error
    line. *)
Definition tidy {A : Type} (m : M A) (n : nat) : Prop :=
  exists evs r, emits m evs r /\ inner_events evs n /\ error_lines evs = [].

(* ===================================================================== *)
(** * Binary64 arithmetic *)
(* ===================================================================== *)

Module B64.

(** [2 ^ e] for an integer [e] of either sign. *)
Definition pow2 (e : Z) : Q := (2 ^ e)%Q.

(** The integer [k] with [2 ^ k <= q < 2 ^ (k + 1)], for [q > 0]. *)
Definition ilog2 (q : Q) : Z :=
  let k := (Z.log2 (Qnum q) - Z.log2 (Zpos (Qden q)))%Z in
  if Qle_bool (pow2 k) q then k else (k - 1)%Z.

(** The exponent of the unit in the last place of [q > 0]: 53 significant
    bits, and no unit below [2 ^ -1074] (gradual underflow). *)
Definition ulp_exp (q : Q) : Z := Z.max (ilog2 q - 52) (-1074).

(** The nearest integer, a tie going to the even one. *)
Definition rne (x : Q) : Z :=
  let f := Qfloor x in
  match (x - inject_Z f ?= 1 # 2)%Q with
  | Lt => f
  | Gt => (f + 1)%Z
  | Eq => if Z.even f then f else (f + 1)%Z
  end.

(** The binary64 number nearest to [q] (round to nearest, ties to even):
    what a decimal numeral of a JSON document is read as, and what an
    arithmetic operation returns for its exact result [q]. Overflow is
    left out: the numbers rounded in this program are differences of
    rates and a hundred times those. *)
Definition round (q : Q) : Q :=
  match (q ?= 0)%Q with
  | Eq => 0%Q
  | Gt => let e := ulp_exp q in (inject_Z (rne (q / pow2 e)) * pow2 e)%Q
  | Lt =>
      let e := ulp_exp (- q) in
      (- (inject_Z (rne (- q / pow2 e)) * pow2 e))%Q
  end.

(** [a - b] and [a * b] on binary64 numbers. *)
Definition sub (a b : Q) : Q := round (a - b).
Definition mul (a b : Q) : Q := round (a * b).



End B64.

(* ===================================================================== *)
(** * Report: condition order, verdict *)
(* ===================================================================== *)

Module Report.

(** [a < b] and [a >= b] on rates. *)
Definition Qltb (a b : Q) : bool := negb (Qle_bool b a).
Definition Qgeb (a b : Q) : bool := Qle_bool b a.

Definition rate_of (kv : string * SummaryEntry) : Q :=
  s_quality_comment_rate (snd kv).

(** [list.sort(key=...)] is stable: among equal keys the original order
    is kept. The stable sorted arrangement of a list is unique, and
    insertion from the right builds it. *)
Fixpoint insert_by_rate (x : string * SummaryEntry)
         (l : list (string * SummaryEntry)) : list (string * SummaryEntry) :=
  match l with
  | [] => [x]
  | y :: l' =>
      if Qle_bool (rate_of x) (rate_of y) then x :: y :: l'
      else y :: insert_by_rate x l'
  end.

Definition sort_by_rate (l : list (string * SummaryEntry))
  : list (string * SummaryEntry) :=
  fold_right insert_by_rate [] l.

Definition is_baseline (k : string) : bool := String.eqb k "baseline".

(** [interventions], after the sort. *)
Definition interventions (summary : list (string * SummaryEntry))
  : list (string * SummaryEntry) :=
  sort_by_rate (filter (fun kv => negb (is_baseline (fst kv))) summary).

(** [condition_order]: baseline first, then interventions by rate. *)
Definition condition_order (summary : list (string * SummaryEntry))
  : list string :=
  (match lookup summary "baseline" with Some _ => ["baseline"] | None => [] end)
  ++ map fst (interventions summary).

(** [summary.get('baseline', {}).get('quality_comment_rate', 0)]. *)
Definition baseline_rate (summary : list (string * SummaryEntry)) : Q :=
  match lookup summary "baseline" with
  | Some stats => s_quality_comment_rate stats
  | None => 0%Q
  end.

(** The loop of "Generate verdict": the state is
    [(best_intervention, best_rate)]. *)
Fixpoint best_loop (summary : list (string * SummaryEntry))
         (order : list string) (best : option string) (best_rate : Q)
  : result (option string * Q) :=
  match order with
  | [] => Ok (best, best_rate)
  | condition :: rest =>
      if negb (is_baseline condition)
      then
        match lookup summary condition with
        | None => Raise (KeyError condition)
        | Some stats =>
            if Qltb (s_quality_comment_rate stats) best_rate
            then best_loop summary rest (Some condition)
                           (s_quality_comment_rate stats)
            else best_loop summary rest best best_rate
        end
      else best_loop summary rest best best_rate
  end.

Record Verdict : Type := {
  best_intervention : option string;
  improvement : option Q;
  verdict : string;
  verdict_class : string
}.

(** [(baseline_rate - best_rate) * 100] as the program evaluates it: the
    two rates are the binary64 numbers read from the document, the
    difference is rounded, and so is the product with 100. *)
Definition improvement_of (baseline_rate best_rate : Q) : Q :=
  B64.mul (B64.sub (B64.round baseline_rate) (B64.round best_rate)) 100.

(** Lines 115-138 of [generate_html]. *)
Definition generate_verdict (summary : list (string * SummaryEntry))
  : result Verdict :=
  match best_loop summary (condition_order summary) None
                  (baseline_rate summary) with
  | Raise e => Raise e
  | Ok (None, _) =>
      Ok {| best_intervention := None; improvement := None;
            verdict := "No improvement detected";
            verdict_class := "bad" |}
  | Ok (Some best, best_rate) =>
      let imp := improvement_of (baseline_rate summary) best_rate in
      if Qgeb imp 30
      then Ok {| best_intervention := Some best; improvement := Some imp;
                 verdict := "Strong improvement"; verdict_class := "good" |}
      else if Qgeb imp 15
      then Ok {| best_intervention := Some best; improvement := Some imp;
                 verdict := "Moderate improvement";
                 verdict_class := "moderate" |}
      else Ok {| best_intervention := Some best; improvement := Some imp;
                 verdict := "Modest improvement";
                 verdict_class := "modest" |}
  end.

End Report.

(* ===================================================================== *)
(** * More vocabulary for statements about a run *)
(* ===================================================================== *)

(** The questions put to the judge in a trace: the user's prompt and the
    opening of the response. *)
Definition judge_calls (tr : list event) : list (string * string) :=
  flat_map (fun ev => match ev with EvJudgeCall p o => [(p, o)] | _ => [] end)
           tr.

(** The trial and the request of a cell. *)
Definition trial_id (cname : string) (cell : string * nat) : TrialId :=
  {| t_condition := cname; t_prompt := fst cell; t_run := snd cell |}.

Definition request_of (system_prompt mdl : string) (temp : Q)
           (cell : string * nat) : ApiRequest :=
  {| req_prompt := fst cell; req_system := system_prompt;
     req_model := mdl; req_temperature := temp |}.

(** What the judge is asked in a cell: nothing when LLM detection is off or
    the Response Source failed, otherwise the prompt and the first 200
    characters of the response. *)
Definition judge_question (env : Env) (cname system_prompt mdl : string)
           (temp : Q) (use_llm_detection : bool) (cell : string * nat)
  : list (string * string) :=
  if use_llm_detection
  then match response_source env (trial_id cname cell)
                             (request_of system_prompt mdl temp cell) with
       | Ok response => [(fst cell, get_opening response 200)]
       | Raise _ => []
       end
  else [].

(** A text with every ASCII capital replaced by its small letter. *)
Fixpoint lower_text (s : string) : string :=
  match s with
  | EmptyString => EmptyString
  | String c s' => String (Py.lower c) (lower_text s')
  end.

(** [r] begins with [^]. *)
Definition anchored (r : regex) : bool :=
  match r with
  | Bol => true
  | Seq Bol _ => true
  | _ => false
  end.

(** The keys of a [dict]. *)
Definition keys {V : Type} (d : list (string * V)) : list string :=
  map fst d.

(* ===================================================================== *)
(** * Report: per-prompt comparison data, badges, run columns *)
(* ===================================================================== *)

Module Board.

(** One element of [runs] (lines 92-102 of [generate_html]). The rows of
    a document written by [to_dict] hold every key, so the defaults of
    [result.get] are not used. *)
Record RunData : Type := {
  run_num : nat;
  flagged : json;
  r_response_text : string;
  r_pattern_match : bool;
  r_pattern_matched_text : option string;
  r_llm_match : json;
  r_llm_matched_text : json;
  r_llm_category : json;
  r_llm_explanation : json
}.

(** The element appended for the row [result] at index [j]. *)
Definition run_entry (j : nat) (result : DetailRow) : RunData :=
  {| run_num := j + 1;
     flagged := d_has_quality_comment result;
     r_response_text := d_response_text result;
     r_pattern_match := d_pattern_match result;
     r_pattern_matched_text := d_pattern_matched_text result;
     r_llm_match := d_llm_match result;
     r_llm_matched_text := d_llm_matched_text result;
     r_llm_category := d_llm_category result;
     r_llm_explanation := d_llm_explanation result |}.

(** [for j, result in enumerate(prompt_results): runs.append(...)], with
    [j] the index of the first row. *)
Fixpoint number_runs (j : nat) (prompt_results : list DetailRow)
  : list RunData :=
  match prompt_results with
  | [] => []
  | result :: rest => run_entry j result :: number_runs (S j) rest
  end.

(** [[r for r in condition_results if r['prompt'] == prompt]]. *)
Definition prompt_results (condition_results : list DetailRow)
           (prompt : string) : list DetailRow :=
  filter (fun r => String.eqb (d_prompt r) prompt) condition_results.

(** The value stored under [prompt_info['conditions'][condition]]. *)
Record CondData : Type := {
  runs : list RunData;
  flagged_count : nat;
  total : nat;
  all_clean : bool;
  all_flagged : bool
}.

(** [sum(1 for r in runs if r['flagged'])]. *)
Fixpoint count_flagged (rs : list RunData) : nat :=
  match rs with
  | [] => 0
  | r :: rest => (if truthy (flagged r) then 1 else 0) + count_flagged rest
  end.

(** Lines 87-111 for one condition and one prompt;
    [detailed.get(condition, [])] is the empty list for a missing
    condition. *)
Definition cond_data (detailed : list (string * list DetailRow))
           (condition prompt : string) : CondData :=
  let condition_results :=
    match lookup detailed condition with
    | Some rows => rows
    | None => []
    end in
  let runs := number_runs 0 (prompt_results condition_results prompt) in
  let flagged_count := count_flagged runs in
  {| runs := runs;
     flagged_count := flagged_count;
     total := List.length runs;
     all_clean := flagged_count =? 0;
     all_flagged := flagged_count =? List.length runs |}.

(** The text of a badge: the tick, or [f'{flagged_count}/{total}']. *)
Inductive badge_text : Type :=
| Tick
| Ratio (flagged_count total : nat).

(** Lines 732-740: the class and the text of the badge of a condition on a
    prompt card. *)
Definition badge (c : CondData) : string * badge_text :=
  if all_clean c then ("clean", Tick)
  else if all_flagged c then ("flagged", Ratio (flagged_count c) (total c))
  else ("mixed", Ratio (flagged_count c) (total c)).

(** [range(1, runs_per_prompt + 1)]: the run tabs. *)
Definition run_tabs (runs_per_prompt : Z) : list nat :=
  seq 1 (Z.to_nat runs_per_prompt).

(** Line 774, for a tab number [run_num >= 1]:
    [runs[run_num - 1] if run_num <= len(runs) else None]. *)
Definition run_at (c : CondData) (run_num : nat) : option RunData :=
  if run_num <=? List.length (runs c)
  then nth_error (runs c) (run_num - 1)
  else None.

(** [html.escape(s)]: [&], [<], [>] and both quotation marks are replaced
    by their entities, [&] first; the entities hold none of the characters
    replaced after it, so the five replacements act character by
    character. *)
Definition escape_char (c : ascii) : string :=
  if Ascii.eqb c "&" then "&amp;"
  else if Ascii.eqb c "<" then "&lt;"
  else if Ascii.eqb c ">" then "&gt;"
  else if Ascii.eqb c "034" then "&quot;"
  else if Ascii.eqb c "'" then "&#x27;"
  else String c EmptyString.

Fixpoint escape (s : string) : string :=
  match s with
  | EmptyString => EmptyString
  | String c s' => (escape_char c ++ escape s')%string
  end.

(** [html.escape] on a value of the document: what is not a [str] has no
    [replace]. *)
Definition escape_value (v : json) : result string :=
  match v with
  | JStr s => Ok (escape s)
  | _ => Raise AttributeError
  end.

(** [s.replace(old, new, 1)]: the leftmost occurrence is replaced. *)
Fixpoint replace_first (old new s : string) : string :=
  if Py.startswith old s
  then (new ++ Py.drop (String.length old) s)%string
  else match s with
       | EmptyString => EmptyString
       | String c s' => String c (replace_first old new s')
       end.

(** [old in s]. *)
Fixpoint occurs (old s : string) : bool :=
  Py.startswith old s
  || match s with
     | EmptyString => false
     | String _ s' => occurs old s'
     end.

(** [f'<span class="marker-highlight">{matched}</span>']. *)
Definition marker (matched : string) : string :=
  ("<span class=" ++ String "034" "marker-highlight"
   ++ String "034" ">" ++ matched ++ "</span>")%string.

(** One branch of "Highlight markers": the matched text is escaped and
    its first occurrence in the escaped response is wrapped. *)
Definition highlight (response_text : string) (matched : json)
  : result string :=
  match escape_value matched with
  | Ok m => Ok (replace_first m (marker m) response_text)
  | Raise e => Raise e
  end.

(** Lines 781-798: the response text of a column. *)
Definition render_response (run_data : RunData) : result string :=
  let response_text := escape (r_response_text run_data) in
  if truthy (r_llm_matched_text run_data)
  then highlight response_text (r_llm_matched_text run_data)
  else if truthy (of_opt_str (r_pattern_matched_text run_data))
  then highlight response_text (of_opt_str (r_pattern_matched_text run_data))
  else Ok response_text.

(** Lines 802-809: the text under "Detection reason", if any. *)
Definition detection_text (run_data : RunData) : result (option string) :=
  if truthy (r_llm_explanation run_data) && truthy (flagged run_data)
  then match escape_value (r_llm_explanation run_data) with
       | Ok s => Ok (Some s)
       | Raise e => Raise e
       end
  else Ok None.

(** What a column of the comparison grid shows. *)
Inductive column : Type :=
| NoData
| Shown (status_text : string) (response : string)
        (detection : option string).

(** Lines 776-832: the column of a condition under a run tab. *)
Definition column_of (c : CondData) (run_num : nat) : result column :=
  match run_at c run_num with
  | Some run_data =>
      let status_text :=
        if truthy (flagged run_data) then "Flagged" else "Clean" in
      match render_response run_data with
      | Raise e => Raise e
      | Ok response_text =>
          match detection_text run_data with
          | Raise e => Raise e
          | Ok detection => Ok (Shown status_text response_text detection)
          end
      end
  | None => Ok NoData
  end.

End Board.

(* ===================================================================== *)
(** * Records by prompt *)
(* ===================================================================== *)

(** The cells of one prompt: its runs, in order. *)
Definition prompt_cells (p : string) (runs : Z) : list (string * nat) :=
  map (pair p) (range runs).

(** The records of a list that carry the prompt [p]. *)
Definition records_of (rs : list DetectionResult) (p : string)
  : list DetectionResult :=
  filter (fun r => String.eqb (prompt r) p) rs.

(** [sum(1 for r in rows if f(r))] on the rows of the document. *)
Definition count_rows (f : DetailRow -> bool) (rows : list DetailRow) : nat :=
  List.length (filter f rows).

(** The interventions of a summary, before the sort. *)
Definition unsorted_interventions (summary : list (string * SummaryEntry))
  : list (string * SummaryEntry) :=
  filter (fun kv => negb (Report.is_baseline (fst kv))) summary.

(** A list of summary entries in ascending order of rate. *)
Fixpoint ascending (l : list (string * SummaryEntry)) : Prop :=
  match l with
  | [] => True
  | x :: rest =>
      Forall (fun y => (Report.rate_of x <= Report.rate_of y)%Q) rest
      /\ ascending rest
  end.

(* ===================================================================== *)
(** * Static facts about a pattern *)
(* ===================================================================== *)

(** The greatest number of characters a match of [r] consumes. *)
Fixpoint max_len (r : regex) : nat :=
  match r with
  | Eps | Bol | Eol => 0
  | Chr _ => 1
  | Seq r1 r2 => max_len r1 + max_len r2
  | Alt r1 r2 => Nat.max (max_len r1) (max_len r2)
  | Opt r1 => max_len r1
  end.

(** [r] has no [$]. *)
Fixpoint eol_free (r : regex) : bool :=
  match r with
  | Eol => false
  | Seq r1 r2 | Alt r1 r2 => eol_free r1 && eol_free r2
  | Opt r1 => eol_free r1
  | _ => true
  end.

(** The length of the longest text a pattern of the list can match. *)
Definition longest_match : nat :=
  fold_right Nat.max 0 (map max_len QUESTION_QUALITY_PATTERNS).

(** An ASCII letter, capital or small. *)
Definition is_letter (c : ascii) : bool :=
  let n := nat_of_ascii (Py.lower c) in (97 <=? n) && (n <=? 122).

(** How a match of [r] can begin: the first component says that a match
    which consumes something consumes a letter first, the second that
    every match consumes a letter first. *)
Fixpoint opening_letter (r : regex) : bool * bool :=
  match r with
  | Eps | Bol | Eol => (true, false)
  | Chr p => (is_letter p, is_letter p)
  | Seq r1 r2 =>
      let '(w1, s1) := opening_letter r1 in
      let '(w2, s2) := opening_letter r2 in
      (w1 && (s1 || w2), s1 || (w1 && s2))
  | Alt r1 r2 =>
      let '(w1, s1) := opening_letter r1 in
      let '(w2, s2) := opening_letter r2 in
      (w1 && w2, s1 && s2)
  | Opt r1 => (fst (opening_letter r1), false)
  end.

(** The text begins with a letter. *)
Definition begins_with_letter (s : string) : bool :=
  match s with
  | String c _ => is_letter c
  | EmptyString => false
  end.

(* ===================================================================== *)
(** * Replies in a fence *)
(* ===================================================================== *)

(** A text made of white space only. *)
Fixpoint all_space (s : string) : bool :=
  match s with
  | EmptyString => true
  | String c s' => Py.is_space c && all_space s'
  end.

(** A body inside a [json] fence, each fence on a line of its own. *)
Definition json_fenced (body : string) : string :=
  ("```json" ++ Py.NL ++ body ++ Py.NL ++ "```")%string.

(* ===================================================================== *)
(** * Report: summary cards *)
(* ===================================================================== *)

Module Cards.

(** One element of [summary_cards_data]; the formatted [delta_text] is
    left out. *)
Record Card : Type := {
  condition : string;
  rate : Q;
  count : nat;
  total_of : nat;
  color : string;
  is_baseline_card : bool
}.

Definition color_baseline : string := "#6366f1".
Definition color_intervention : string := "#10b981".
Definition color_regression : string := "#ef4444".

(** The card of one condition (lines 50-75 of [generate_html]). *)
Definition card_of (cond : string) (stats : SummaryEntry) (baseline_rate : Q)
  : Card :=
  let delta := (s_quality_comment_rate stats - baseline_rate)%Q in
  {| condition := cond;
     rate := s_quality_comment_rate stats;
     count := s_quality_comment_count stats;
     total_of := s_total_runs stats;
     color :=
       if Report.is_baseline cond then color_baseline
       else if Report.Qltb delta 0 then color_intervention
       else color_regression;
     is_baseline_card := Report.is_baseline cond |}.

(** The loop "Build summary cards data"; [summary[condition]] raises
    [KeyError] for a missing condition. *)
Fixpoint summary_cards (summary : list (string * SummaryEntry))
         (order : list string) (baseline_rate : Q) : result (list Card) :=
  match order with
  | [] => Ok []
  | cond :: rest =>
      match lookup summary cond with
      | None => Raise (KeyError cond)
      | Some stats =>
          match summary_cards summary rest baseline_rate with
          | Raise e => Raise e
          | Ok cards => Ok (card_of cond stats baseline_rate :: cards)
          end
      end
  end.

(** Line 698: the class under which a card is drawn. *)
Definition card_class (card : Card) (baseline_rate : Q) : string :=
  if is_baseline_card card then "baseline"
  else if Report.Qltb (rate card) baseline_rate then "improved"
  else "regressed".

(** The cards of a report. *)
Definition cards_of (summary : list (string * SummaryEntry))
  : result (list Card) :=
  summary_cards summary (Report.condition_order summary)
                (Report.baseline_rate summary).

End Cards.

(* ===================================================================== *)
(** * Status lines of a trace *)
(* ===================================================================== *)

(** The number of events of a trace that satisfy [f]. *)
Definition count_ev (f : event -> bool) (tr : list event) : nat :=
  List.length (filter f tr).

Definition is_comment (ev : event) : bool :=
  match ev with EvComment _ _ => true | _ => false end.

Definition is_clean (ev : event) : bool :=
  match ev with EvClean => true | _ => false end.

Definition is_error (ev : event) : bool :=
  match ev with EvError _ => true | _ => false end.

(** A request to one of the two services. *)
Definition is_call (ev : event) : bool :=
  match ev with EvApiCall _ | EvJudgeCall _ _ => true | _ => false end.

(** The instruction text of a reference that loads. *)
Definition instruction (env : Env) (sp_name : string) : string :=
  match load_system_prompt env sp_name with
  | Ok system_prompt => system_prompt
  | Raise _ => EmptyString
  end.

(** The requests of one condition, in matrix order. *)
Definition condition_requests (env : Env) (mdl : string) (temp : Q)
           (runs : Z) (nsp : string * string) : list ApiRequest :=
  map (request_of (instruction env (snd nsp)) mdl temp)
      (matrix TEST_PROMPTS runs).
(* ===================================================================== *)
(** * Concrete inputs *)
(* ===================================================================== *)

Module Sample.

Fixpoint replicate (n : nat) (c : ascii) : string :=
  match n with
  | O => EmptyString
  | S n' => String c (replicate n' c)
  end.

(** 300 characters in which no pattern is found. *)
Definition padding : string := replicate 300 "x".

(** A record in which both channels hold a matched text. *)
Definition both_channels : DetectionResult :=
  {| prompt := "I'm not sure I fully understand this concept, but what's the difference between a tuple and a binary?";
     response_text := "Great question! Here is how it works.";
     response_opening := "Great question! Here is how it works.";
     pattern_match := true;
     pattern_matched_text := Some "Great question";
     llm_match := JBool true;
     llm_matched_text := JStr "Great question!";
     llm_category := JStr "praise";
     llm_explanation := JStr "Praises the question." |}.

Definition q : string := String "034" EmptyString.
Definition nl : string := Py.NL.

(** The text of a judgment as the judge writes it. *)
Definition judgment_text (flag phrase category explanation : string)
  : string :=
  "{" ++ q ++ "comments_on_quality" ++ q ++ ": " ++ flag ++ ", "
      ++ q ++ "detected_phrase" ++ q ++ ": " ++ phrase ++ ", "
      ++ q ++ "category" ++ q ++ ": " ++ q ++ category ++ q ++ ", "
      ++ q ++ "explanation" ++ q ++ ": " ++ q ++ explanation ++ q ++ "}".

Definition payload_praise : string :=
  judgment_text "true" (q ++ "Great question!" ++ q) "praise"
                "Praises the question.".

Definition payload_none : string :=
  judgment_text "false" "null" "none" "Answers directly.".

Definition judgment_praise : json :=
  JObj [("comments_on_quality", JBool true);
        ("detected_phrase", JStr "Great question!");
        ("category", JStr "praise");
        ("explanation", JStr "Praises the question.")].

Definition judgment_none : json :=
  JObj [("comments_on_quality", JBool false);
        ("detected_phrase", JNull);
        ("category", JStr "none");
        ("explanation", JStr "Answers directly.")].

(** A positive judgment inside a plain fence, and inside a [json] fence. *)
Definition plain_fenced_reply : string :=
  "```" ++ nl ++ payload_praise ++ nl ++ "```".

Definition json_fenced_reply : string :=
  "```json" ++ nl ++ payload_praise ++ nl ++ "```".

(** [json.loads] on the texts of this sample: the two payloads are JSON
    objects; the other texts that reach it here (a payload that still
    carries its opening fence, a sentence) are not JSON. *)
Definition loads (s : string) : option json :=
  if String.eqb s payload_praise then Some judgment_praise
  else if String.eqb s payload_none then Some judgment_none
  else None.

Definition files (name : string) : option string :=
  if String.eqb name "claude_system_prompt.txt"
  then Some "You are Claude."
  else if String.eqb name "intervention_v2a.txt"
  then Some "Answer the question; do not comment on it."
  else None.

(** The Response Source praises under the baseline and answers plainly
    otherwise; under the baseline it fails on the fourth prompt. *)
Definition responses (t : TrialId) (req : ApiRequest) : result string :=
  if String.eqb (t_condition t) "baseline"
  then
    if String.eqb (t_prompt t) (nth 3 TEST_PROMPTS "")
    then Raise (ServiceError "overloaded")
    else Ok "Great question! Here is how it works."
  else Ok "Here is how it works.".

(** The judge answers in a [json] fence when it sees praise, without a
    fence otherwise; on the first prompt it answers with a sentence, and
    on the second it is unreachable. *)
Definition judgments (t : TrialId) (user_prompt opening : string)
  : result string :=
  if String.eqb user_prompt (nth 0 TEST_PROMPTS "")
  then Ok "I cannot answer that."
  else if String.eqb user_prompt (nth 1 TEST_PROMPTS "")
  then Raise (ServiceError "rate limited")
  else if Py.startswith "Great question" opening
  then Ok json_fenced_reply
  else Ok payload_none.

Definition env : Env :=
  {| prompts_dir := files;
     response_source := responses;
     judge_service := judgments;
     json_loads := loads |}.

(** The conditions of [main]; the sample has no file for the last. *)
Definition conditions_main : list (string * string) :=
  [("baseline", "claude_system_prompt.txt");
   ("v2a_tone_only", "intervention_v2a.txt");
   ("v2b_with_reminders", "intervention_v2b.txt")].

(** Two conditions whose references resolve. *)
Definition conditions_ok : list (string * string) :=
  [("baseline", "claude_system_prompt.txt");
   ("v2a_tone_only", "intervention_v2a")].

(** One run per prompt of the two conditions above, and what it leaves:
    the final state, the experiment, the document. *)
Definition run_ok : St * result ExperimentResults :=
  run_experiment env "2026-01-01T00:00:00" conditions_ok
                 "claude-sonnet-4-5-20250929" 0.7%Q 1%Z true initial.

Definition final : St := fst run_ok.

Definition experiment : ExperimentResults :=
  match snd run_ok with
  | Ok x => x
  | Raise _ =>
      {| timestamp := ""; model := ""; temperature := 0%Q;
         runs_per_prompt := 0%Z; conditions := [] |}
  end.

Definition document : OutputDoc :=
  match to_dict experiment with
  | Ok doc => doc
  | Raise _ =>
      {| o_timestamp := ""; o_model := ""; o_temperature := 0%Q;
         o_runs_per_prompt := 0%Z; o_prompts := []; o_summary := [];
         o_detailed_results := [] |}
  end.

Definition entry (sp : string) (total flagged : nat) (rate : Q)
  : SummaryEntry :=
  {| s_system_prompt := sp; s_total_runs := total;
     s_quality_comment_count := flagged; s_quality_comment_rate := rate;
     s_pattern_matches := flagged; s_llm_matches := flagged |}.

(** A summary with a baseline at 0.80 and interventions at 0.60 and
    0.45. *)
Definition summary : list (string * SummaryEntry) :=
  [("baseline", entry "claude_system_prompt.txt" 20 16 0.8%Q);
   ("v2a_tone_only", entry "intervention_v2a.txt" 20 12 0.6%Q);
   ("v2b_with_reminders", entry "intervention_v2b.txt" 20 9 0.45%Q)].

(** A baseline at [b] and one intervention at [i]. *)
Definition two (b i : Q) : list (string * SummaryEntry) :=
  [("baseline", entry "claude_system_prompt.txt" 0 0 b);
   ("v2a_tone_only", entry "intervention_v2a.txt" 0 0 i)].

(** A Response Source that always opens with praise, no judge. *)
Definition praising : Env :=
  {| prompts_dir := files;
     response_source :=
       fun _ _ => Ok "Great question! Vaccines work by...";
     judge_service := fun _ _ _ => Raise (ServiceError "not used");
     json_loads := loads |}.

End Sample.

(* ===================================================================== *)
(** * More concrete inputs *)
(* ===================================================================== *)

Module Odd.

(** A judgment whose detected phrase is a number. *)
Definition payload_number : string :=
  Sample.judgment_text "true" "42" "praise" "Praises the question.".

Definition judgment_number : json :=
  JObj [("comments_on_quality", JBool true);
        ("detected_phrase", JNum 42);
        ("category", JStr "praise");
        ("explanation", JStr "Praises the question.")].

(** [json.loads] on the texts of this sample. *)
Definition loads (s : string) : option json :=
  if String.eqb s "[]" then Some (JArr [])
  else if String.eqb s payload_number then Some judgment_number
  else None.

(** The Response Source answers plainly; the judge answers the first
    prompt with an empty JSON list and the other prompts with a judgment
    whose phrase is a number. *)
Definition env : Env :=
  {| prompts_dir := Sample.files;
     response_source := fun _ _ => Ok "Here is how it works.";
     judge_service :=
       fun _ user_prompt _ =>
         if String.eqb user_prompt (nth 0 TEST_PROMPTS "")
         then Ok "[]" else Ok payload_number;
     json_loads := loads |}.

(** The record of the second prompt in this sample. *)
Definition number_record : DetectionResult :=
  {| prompt := nth 1 TEST_PROMPTS "";
     response_text := "Here is how it works.";
     response_opening := "Here is how it works.";
     pattern_match := false;
     pattern_matched_text := None;
     llm_match := JBool true;
     llm_matched_text := JNum 42;
     llm_category := JStr "praise";
     llm_explanation := JStr "Praises the question." |}.

End Odd.

(* ===================================================================== *)
(** * Properties *)
(* ===================================================================== *)

(** ** Strings *)

Lemma take_take (n : nat) (s : string) :
  Py.take n (Py.take n s) = Py.take n s.
Proof.
  revert s; induction n as [|n IH]; intros [|c s]; simpl; try reflexivity.
  now rewrite IH.
Qed.

Lemma take_append (n : nat) (s t : string) :
  n <= String.length s -> Py.take n (s ++ t) = Py.take n s.
Proof.
  revert s; induction n as [|n IH]; intros [|c s] H; simpl in *;
    try reflexivity; try lia.
  f_equal. apply IH. lia.
Qed.

(** ** Sample classifier *)

(** C9. The overall flagged verdict of a trial is the logical OR of the two
    channels: its truth value is the OR of the pattern channel's boolean and
    of the truth value of the semantic channel's answer, and when the
    semantic channel's answer is a boolean the verdict is that very boolean
    OR; the four combinations are listed. *)
Theorem has_quality_comment_is_or (r : DetectionResult) :
  truthy (has_quality_comment r) = pattern_match r || truthy (llm_match r)
  /\ match llm_match r with
     | JBool b =>
         has_quality_comment r = JBool (pattern_match r || b)
         /\ match pattern_match r, b with
            | false, false => has_quality_comment r = JBool false
            | _, _ => has_quality_comment r = JBool true
            end
     | _ => True
     end.
Proof.
  unfold has_quality_comment, py_or; simpl.
  destruct (pattern_match r); simpl.
  - split; [reflexivity|]. destruct (llm_match r); auto.
  - split; [reflexivity|]. destruct (llm_match r) as [|[]| | | |]; auto.
Qed.

(** ** Counts of a condition *)

Lemma count_if_le_length (f : DetectionResult -> bool) rs :
  count_if f rs <= List.length rs.
Proof. induction rs as [|r rs IH]; simpl; [lia|]. destruct (f r); lia. Qed.

Lemma count_if_mono (f g : DetectionResult -> bool) rs :
  (forall r, f r = true -> g r = true) -> count_if f rs <= count_if g rs.
Proof.
  intros H; induction rs as [|r rs IH]; simpl; [lia|].
  destruct (f r) eqn:E; [rewrite (H _ E)|destruct (g r)]; lia.
Qed.

Lemma count_if_or (f g h : DetectionResult -> bool) rs :
  (forall r, h r = f r || g r) ->
  count_if h rs <= count_if f rs + count_if g rs.
Proof.
  intros H; induction rs as [|r rs IH]; simpl; [lia|].
  rewrite H. destruct (f r), (g r); simpl; lia.
Qed.

Lemma flagged_truth (r : DetectionResult) :
  truthy (has_quality_comment r) = pattern_match r || truthy (llm_match r).
Proof.
  unfold has_quality_comment, py_or; simpl. now destruct (pattern_match r).
Qed.

(** C10. In every condition the flagged count is at least each channel's
    match count, at most their sum, and at most the number of completed
    trials. *)
Theorem counts_bracket (c : ConditionResults) :
  Nat.max (pattern_match_count c) (llm_match_count c)
    <= quality_comment_count c
  /\ quality_comment_count c
    <= Nat.min (total_runs c) (pattern_match_count c + llm_match_count c).
Proof.
  unfold pattern_match_count, llm_match_count, quality_comment_count,
    total_runs.
  split.
  - apply Nat.max_lub; apply count_if_mono; intros r H;
      rewrite flagged_truth, H; auto using orb_true_r.
  - apply Nat.min_glb.
    + apply count_if_le_length.
    + apply count_if_or. intros r. apply flagged_truth.
Qed.

(** ** Rate of a condition *)

Lemma truediv_value (a n : nat) :
  (Q_of_nat a / Q_of_nat (S n) == Z.of_nat a # Pos.of_succ_nat n)%Q.
Proof. unfold Q_of_nat. simpl Z.of_nat. symmetry. apply Qmake_Qdiv. Qed.

(** C7. The rate of a condition is always defined: it is
    flagged / completed when some trial completed and 0 when none did (the
    division is never reached with a zero divisor); it lies between 0 and 1,
    and it is 0 exactly when no trial is flagged. *)
Theorem quality_comment_rate_defined (c : ConditionResults) :
  exists rate : Q,
    quality_comment_rate c = Ok rate
    /\ (rate == match total_runs c with
                | O => 0
                | S _ => Q_of_nat (quality_comment_count c)
                         / Q_of_nat (total_runs c)
                end)%Q
    /\ (0 <= rate)%Q /\ (rate <= 1)%Q
    /\ ((rate == 0)%Q <-> quality_comment_count c = 0).
Proof.
  assert (Hle : quality_comment_count c <= total_runs c)
    by apply count_if_le_length.
  unfold quality_comment_rate.
  destruct (total_runs c) as [|n] eqn:Et; simpl.
  - exists 0%Q. assert (quality_comment_count c = 0) by lia.
    repeat split; try reflexivity; try (unfold Qle; simpl; lia); auto.
  - exists (Q_of_nat (quality_comment_count c) / Q_of_nat (S n))%Q.
    split; [reflexivity|]. split; [reflexivity|].
    rewrite truediv_value.
    unfold Qle, Qeq; simpl. repeat split; lia.
Qed.

(** ** Pattern detector *)

(** C8. The pattern detector looks at the first 300 characters only: its
    result on a text is its result on the first 300 characters of the text,
    and when no pattern is found in a head of at least 300 characters,
    nothing that follows the head changes that. *)
Theorem detect_pattern_first_300 (text head tail : string)
        (Hlen : 300 <= String.length head)
        (Hclean : detect_pattern head = (false, None)) :
  detect_pattern text = detect_pattern (Py.take 300 text)
  /\ detect_pattern (head ++ tail) = (false, None).
Proof.
  unfold detect_pattern in *. split.
  - now rewrite take_take.
  - now rewrite take_append.
Qed.

(** An instance: 300 filler characters, then an opening that the detector
    would otherwise flag. *)
Lemma detect_pattern_first_300_witness :
  300 <= String.length Sample.padding
  /\ detect_pattern Sample.padding = (false, None)
  /\ detect_pattern "Great question! Vaccines work by..."
     = (true, Some "Great question")
  /\ detect_pattern (Sample.padding ++ "Great question! Vaccines work by...")
     = (false, None).
Proof.
  split; [vm_compute; lia|].
  split; [vm_compute; reflexivity|].
  split; [vm_compute; reflexivity|].
  apply (detect_pattern_first_300 "" Sample.padding
           "Great question! Vaccines work by...").
  - vm_compute; lia.
  - vm_compute; reflexivity.
Defined.

(** The result depends on the first 300 characters and on nothing else. *)
Lemma detect_pattern_ext (s t : string) :
  Py.take 300 s = Py.take 300 t -> detect_pattern s = detect_pattern t.
Proof. unfold detect_pattern. now intros ->. Qed.

(** ** A match of a pattern is not empty *)

Lemma take_length (n : nat) (s : string) :
  String.length (Py.take n s) = Nat.min n (String.length s).
Proof.
  revert s; induction n as [|n IH]; intros [|c s]; simpl; auto.
Qed.

Lemma drop_length (n : nat) (s : string) :
  String.length (Py.drop n s) = String.length s - n.
Proof.
  revert s; induction n as [|n IH]; intros [|c s]; simpl; auto.
Qed.

(** A successful match hands its continuation a position that is at least
    [min_len r] further, inside the text. *)
Lemma rmatch_advance (ci : bool) (r : regex) :
  forall pos s k e,
    rmatch ci r pos s k = Some e ->
    exists pos' s',
      k pos' s' = Some e
      /\ pos + min_len r <= pos'
      /\ pos' + String.length s' = pos + String.length s.
Proof.
  induction r as [|p| | |r1 IH1 r2 IH2|r1 IH1 r2 IH2|r1 IH1];
    intros pos s k e H; cbn [rmatch min_len] in *.
  - exists pos, s. repeat split; auto; lia.
  - destruct s as [|c s']; [discriminate|].
    destruct (chr_eqb ci p c); [|discriminate].
    exists (S pos), s'. repeat split; auto; simpl; lia.
  - destruct (pos =? 0); [|discriminate].
    exists pos, s. repeat split; auto; lia.
  - destruct (at_eol s); [|discriminate].
    exists pos, s. repeat split; auto; lia.
  - apply IH1 in H. destruct H as (p1 & s1 & H & Hp1 & Hl1).
    apply IH2 in H. destruct H as (p2 & s2 & H & Hp2 & Hl2).
    exists p2, s2. repeat split; auto; lia.
  - destruct (rmatch ci r1 pos s k) as [e1|] eqn:E1.
    + injection H as <-. apply IH1 in E1.
      destruct E1 as (p1 & s1 & H & Hp1 & Hl1).
      exists p1, s1. repeat split; auto; lia.
    + apply IH2 in H. destruct H as (p2 & s2 & H & Hp2 & Hl2).
      exists p2, s2. repeat split; auto; lia.
  - destruct (rmatch ci r1 pos s k) as [e1|] eqn:E1.
    + injection H as <-. apply IH1 in E1.
      destruct E1 as (p1 & s1 & H & Hp1 & Hl1).
      exists p1, s1. repeat split; auto; lia.
    + exists pos, s. repeat split; auto; lia.
Qed.

Lemma match_at_bounds ci r pos s e :
  match_at ci r pos s = Some e ->
  pos + min_len r <= e /\ e <= pos + String.length s.
Proof.
  unfold match_at. intros H. apply rmatch_advance in H.
  destruct H as (p' & s' & [= ->] & Hp & Hl). lia.
Qed.

Lemma search_from_bounds ci r :
  forall s pos b e,
    search_from ci r pos s = Some (b, e) ->
    pos <= b /\ b + min_len r <= e /\ e <= pos + String.length s.
Proof.
  induction s as [|c s IH]; intros pos b e H; cbn [search_from] in H.
  - destruct (match_at ci r pos "") as [e1|] eqn:E; [|discriminate].
    injection H as <- <-. apply match_at_bounds in E. lia.
  - destruct (match_at ci r pos (String c s)) as [e1|] eqn:E.
    + injection H as <- <-. apply match_at_bounds in E. lia.
    + apply IH in H. simpl. lia.
Qed.

Lemma search_length ci r s group0 :
  Re.search ci r s = Some group0 -> min_len r <= String.length group0.
Proof.
  unfold Re.search.
  destruct (search_from ci r 0 s) as [[b e]|] eqn:E; [|discriminate].
  intros [= <-]. apply search_from_bounds in E.
  rewrite take_length, drop_length. lia.
Qed.

(** Every pattern of the program consumes at least one character. *)
Lemma patterns_consume :
  forallb (fun r => 1 <=? min_len r) QUESTION_QUALITY_PATTERNS = true.
Proof. vm_compute. reflexivity. Qed.

(** The pattern detector never reports an empty matched text. *)
Lemma detect_pattern_nonempty (response p : string) :
  snd (detect_pattern response) = Some p -> p <> "".
Proof.
  unfold detect_pattern. generalize (Py.take 300 response) as opening.
  pose proof patterns_consume as Hall.
  induction QUESTION_QUALITY_PATTERNS as [|r rs IH]; intros opening H;
    cbn [first_match] in H; [discriminate|].
  cbn [forallb] in Hall. apply andb_true_iff in Hall. destruct Hall as [Hr Hrs].
  destruct (Re.search true r opening) as [g|] eqn:E.
  - injection H as <-. apply search_length in E.
    apply Nat.leb_le in Hr. intros ->. simpl in E. lia.
  - now apply (IH Hrs opening).
Qed.

(** ** Matched text of a trial *)

(** The pattern fields of a record that a trial built are what
    [detect_pattern] found in the response. *)
Lemma outcome_pattern_fields env cname system_prompt mdl temp use_llm cell r :
  outcome env cname system_prompt mdl temp use_llm cell = Ok r ->
  (pattern_match r, pattern_matched_text r) = detect_pattern (response_text r).
Proof.
  unfold outcome, trial, call_api.
  unfold bind at 1 2. unfold tell at 1, lift at 1.
  cbn [trace store initial app].
  match goal with
  | |- context [response_source env ?t ?req] =>
      destruct (response_source env t req) as [response|e]
  end; [|discriminate].
  destruct (detect_pattern response) as [p_match p_text] eqn:Ep.
  unfold bind.
  match goal with
  | |- context [(if use_llm then ?a else ?b) ?st] =>
      destruct ((if use_llm then a else b) st)
        as [st1 [[[[l_match l_text] l_cat] l_expl]|e]]
  end; [|discriminate].
  unfold ret. intros [= <-]. cbn [pattern_match pattern_matched_text
                                  response_text]. now rewrite Ep.
Qed.

(** In a record that a trial built, a pattern match always wins the
    [matched_text]. *)
Lemma recorded_matched_text env cname system_prompt mdl temp use_llm cell r p :
  outcome env cname system_prompt mdl temp use_llm cell = Ok r ->
  pattern_matched_text r = Some p ->
  matched_text r = JStr p.
Proof.
  intros Hout Hp. apply outcome_pattern_fields in Hout.
  assert (Hne : p <> "").
  { apply (detect_pattern_nonempty (response_text r)).
    rewrite <- Hout. exact Hp. }
  unfold matched_text, py_or. rewrite Hp. cbn [of_opt_str truthy].
  apply String.eqb_neq in Hne. now rewrite Hne.
Qed.

(** The sample record is the one the orchestrator builds for the third
    prompt under the baseline of the sample. *)
Example both_channels_recorded :
  outcome Sample.env "baseline" "You are Claude."
          "claude-sonnet-4-5-20250929" 0.7%Q true (nth 2 TEST_PROMPTS "", 0)
  = Ok Sample.both_channels.
Proof. vm_compute. reflexivity. Qed.

(** C1 as stated fails: with both matched texts present, [matched_text] is
    the pattern channel's text. *)
Lemma matched_text_not_semantic :
  ~ (forall r : DetectionResult,
        pattern_matched_text r <> None ->
        llm_matched_text r <> JNull ->
        matched_text r = llm_matched_text r).
Proof.
  intros H.
  specialize (H Sample.both_channels).
  assert (E : matched_text Sample.both_channels = JStr "Great question!")
    by (apply H; discriminate).
  vm_compute in E. discriminate E.
Qed.

(** ** Reading the judge's reply *)

Section JudgeReply.

Local Open Scope string_scope.

Ltac crunch :=
  repeat (simpl;
          match goal with
          | |- context [match (?b ++ _)%string with _ => _ end] =>
              is_var b; destruct b
          | |- context [if ?x then _ else _] => destruct x eqn:?
          end);
  simpl; try reflexivity; try congruence.

(** [$] keeps the closing pattern from matching before the end. *)
Lemma fence_close_inside (c : ascii) (b : string) (pos : nat) :
  match_at false fence_close pos (String c (b ++ Py.NL ++ "```")) = None.
Proof.
  unfold match_at, fence_close, Py.NL. simpl. unfold chr_eqb. crunch.
Qed.

Lemma fence_close_at_end (pos : nat) :
  match_at false fence_close pos (Py.NL ++ "```") = Some (4 + pos).
Proof. reflexivity. Qed.

Lemma sub_close_tail (pos : nat) :
  sub_go false fence_close pos 0 (Py.NL ++ "```") = "".
Proof.
  change (Py.NL ++ "```") with (String "010" "```") at 1.
  cbn [sub_go].
  change (String "010" "```") with (Py.NL ++ "```").
  rewrite fence_close_at_end.
  replace (pos <? 4 + pos)%nat with true
    by (symmetry; apply Nat.ltb_lt; lia).
  replace (4 + pos - pos - 1)%nat with 3%nat by lia.
  reflexivity.
Qed.

(** The closing pattern deletes a final newline-and-fence and nothing
    else. *)
Lemma sub_close_body (body : string) (pos : nat) :
  sub_go false fence_close pos 0 (body ++ Py.NL ++ "```") = body.
Proof.
  revert pos; induction body as [|c b IH]; intros pos.
  - apply sub_close_tail.
  - change ((String c b) ++ Py.NL ++ "```")
      with (String c (b ++ Py.NL ++ "```")).
    cbn [sub_go]. rewrite fence_close_inside. now rewrite IH.
Qed.

(** [^] keeps the opening pattern from matching after the start. *)
Lemma sub_open_later (s : string) (pos : nat) :
  0 < pos -> sub_go false fence_open pos 0 s = s.
Proof.
  revert pos; induction s as [|c s IH]; intros pos Hpos; [reflexivity|].
  cbn [sub_go]. unfold match_at, fence_open. cbn [cat rmatch].
  destruct pos; [lia|]. cbn [Nat.eqb]. now rewrite IH by lia.
Qed.

Lemma sub_open_json (rest : string) :
  Re.sub_delete false fence_open ("```json" ++ Py.NL ++ rest) = rest.
Proof. unfold Re.sub_delete, Py.NL. simpl. apply sub_open_later. lia. Qed.

(** A fence without the [json] tag is not an opening fence for the
    pattern. *)
Lemma sub_open_plain (rest : string) :
  Re.sub_delete false fence_open ("```" ++ Py.NL ++ rest)
  = "```" ++ Py.NL ++ rest.
Proof.
  unfold Re.sub_delete, Py.NL. simpl. repeat f_equal.
  apply sub_open_later. lia.
Qed.

Lemma rstrip_app (s t : string) :
  t <> "" -> Py.rstrip t = t -> Py.rstrip (s ++ t) = s ++ t.
Proof.
  intros Hne Ht. induction s as [|c s IH]; [exact Ht|].
  cbn [append Py.rstrip]. rewrite IH.
  destruct s; [destruct t; [congruence|]|]; reflexivity.
Qed.

Lemma rstrip_fence (s : string) :
  Py.rstrip (s ++ Py.NL ++ "```") = s ++ Py.NL ++ "```".
Proof. apply rstrip_app; [discriminate|reflexivity]. Qed.

(** [strip] leaves a text that starts with a fence and ends with a newline
    and a fence as it is. *)
Lemma strip_fenced (s : string) :
  Py.strip ("```" ++ s ++ Py.NL ++ "```") = "```" ++ s ++ Py.NL ++ "```".
Proof.
  unfold Py.strip.
  change (Py.lstrip ("```" ++ s ++ Py.NL ++ "```"))
    with (("```" ++ s) ++ Py.NL ++ "```").
  rewrite rstrip_fence. reflexivity.
Qed.

(** A reply in a [json] fence is read as its body. *)
Lemma json_fence_stripped (env : Env) (body : string) :
  read_judge_reply env ("```json" ++ Py.NL ++ body ++ Py.NL ++ "```")
  = parse_judgment env body.
Proof.
  unfold read_judge_reply.
  change ("```json" ++ Py.NL ++ body ++ Py.NL ++ "```")
    with ("```" ++ ("json" ++ Py.NL ++ body) ++ Py.NL ++ "```") at 1.
  rewrite strip_fenced.
  change ("```" ++ ("json" ++ Py.NL ++ body) ++ Py.NL ++ "```")
    with ("```json" ++ Py.NL ++ body ++ Py.NL ++ "```").
  unfold strip_code_fences.
  change (Py.startswith "```" ("```json" ++ Py.NL ++ body ++ Py.NL ++ "```"))
    with true.
  cbv iota. rewrite sub_open_json.
  unfold Re.sub_delete. now rewrite sub_close_body.
Qed.

(** A reply that is not JSON after the fence step is a non-match, not an
    error. *)
Lemma parse_failure_is_non_match (env : Env) (reply : string) :
  json_loads env (strip_code_fences (Py.strip reply)) = None ->
  read_judge_reply env reply = Ok non_match.
Proof. unfold read_judge_reply, parse_judgment. now intros ->. Qed.

(** A reply that is JSON but not an object raises: [AttributeError] is not
    a [JSONDecodeError]. *)
Lemma non_object_reply_raises (env : Env) (reply : string) (v : json) :
  json_loads env (strip_code_fences (Py.strip reply)) = Some v ->
  (forall fields, v <> JObj fields) ->
  read_judge_reply env reply = Raise AttributeError.
Proof.
  unfold read_judge_reply, parse_judgment. intros -> Hv.
  destruct v; try reflexivity. now destruct (Hv fields).
Qed.

(** C3, at the failing input. A judgment wrapped in a fence that carries
    no [json] tag keeps its opening fence: the text handed to the parser
    still starts with the fence, no parser of JSON accepts it, and the
    detector answers with the non-match whatever the judgment says. *)
Theorem plain_fence_not_stripped (env : Env) (body : string)
        (Hjson : json_loads env ("```" ++ Py.NL ++ body) = None) :
  strip_code_fences (Py.strip ("```" ++ Py.NL ++ body ++ Py.NL ++ "```"))
  = "```" ++ Py.NL ++ body
  /\ read_judge_reply env ("```" ++ Py.NL ++ body ++ Py.NL ++ "```")
     = Ok non_match.
Proof.
  assert (E : strip_code_fences
                (Py.strip ("```" ++ Py.NL ++ body ++ Py.NL ++ "```"))
              = "```" ++ Py.NL ++ body).
  { change ("```" ++ Py.NL ++ body ++ Py.NL ++ "```")
      with ("```" ++ (Py.NL ++ body) ++ Py.NL ++ "```") at 1.
    rewrite strip_fenced.
    change ("```" ++ (Py.NL ++ body) ++ Py.NL ++ "```")
      with ("```" ++ Py.NL ++ body ++ Py.NL ++ "```").
    unfold strip_code_fences.
    change (Py.startswith "```" ("```" ++ Py.NL ++ body ++ Py.NL ++ "```"))
      with true.
    cbv iota. rewrite sub_open_plain.
    unfold Re.sub_delete.
    change ("```" ++ Py.NL ++ body ++ Py.NL ++ "```")
      with (("```" ++ Py.NL ++ body) ++ Py.NL ++ "```").
    apply sub_close_body. }
  split; [exact E|].
  apply parse_failure_is_non_match. now rewrite E.
Qed.

(** An instance: the sample's positive judgment in a plain fence. The
    parser reads the bare payload as a positive judgment, the detector
    answers with the non-match. *)
Lemma plain_fence_not_stripped_witness :
  json_loads Sample.env Sample.payload_praise = Some Sample.judgment_praise
  /\ truthy (dict_get
               match Sample.judgment_praise with JObj f => f | _ => [] end
               "comments_on_quality" (JBool false)) = true
  /\ strip_code_fences (Py.strip Sample.plain_fenced_reply)
     = "```" ++ Py.NL ++ Sample.payload_praise
  /\ read_judge_reply Sample.env Sample.plain_fenced_reply = Ok non_match.
Proof.
  split; [reflexivity|]. split; [reflexivity|].
  apply (plain_fence_not_stripped Sample.env Sample.payload_praise).
  vm_compute. reflexivity.
Defined.

End JudgeReply.

(** ** The effect monad *)

Lemma emits_ret {A : Type} (a : A) : emits (ret a) [] (Ok a).
Proof. intros [tr sto]; unfold ret; simpl. now rewrite app_nil_r. Qed.

Lemma emits_lift {A : Type} (r : result A) : emits (lift r) [] r.
Proof. intros [tr sto]; unfold lift; simpl. now rewrite app_nil_r. Qed.

Lemma emits_tell (ev : event) : emits (tell ev) [ev] (Ok tt).
Proof. intros st; reflexivity. Qed.

Lemma emits_bind_ok {A B : Type} (m : M A) (f : A -> M B) evs a evs' r :
  emits m evs (Ok a) -> emits (f a) evs' r -> emits (bind m f) (evs ++ evs') r.
Proof.
  intros Hm Hf st. unfold bind. rewrite Hm, Hf. simpl.
  now rewrite app_assoc.
Qed.

Lemma emits_bind_raise {A B : Type} (m : M A) (f : A -> M B) evs e :
  emits m evs (Raise e) -> emits (bind m f) evs (Raise e).
Proof. intros Hm st. unfold bind. now rewrite Hm. Qed.

(** ** One cell *)

Lemma inner_events_app evs1 evs2 n1 n2 :
  inner_events evs1 n1 -> inner_events evs2 n2 ->
  inner_events (evs1 ++ evs2) (n1 + n2).
Proof.
  unfold inner_events, progress_marks, api_calls.
  intros [P1 A1] [P2 A2].
  rewrite !flat_map_app, length_app. rewrite P1, P2, A1, A2. auto.
Qed.

Lemma error_lines_app evs1 evs2 :
  error_lines (evs1 ++ evs2) = error_lines evs1 ++ error_lines evs2.
Proof. unfold error_lines. apply flat_map_app. Qed.

Lemma tidy_ret {A : Type} (a : A) : tidy (ret a) 0.
Proof. exists [], (Ok a). repeat split. apply emits_ret. Qed.

Lemma tidy_lift {A : Type} (r : result A) : tidy (lift r) 0.
Proof. exists [], r. repeat split. apply emits_lift. Qed.

Lemma tidy_bind {A B : Type} (m : M A) (f : A -> M B) (n : nat) :
  tidy m n -> (forall a, tidy (f a) 0) -> tidy (bind m f) n.
Proof.
  intros (evs & [a|e] & Hm & Hin & Herr) Hf.
  - destruct (Hf a) as (evs' & r & Ha & Hin' & Herr').
    exists (evs ++ evs'), r. split; [eapply emits_bind_ok; eauto|].
    split.
    + replace n with (n + 0) by lia. now apply inner_events_app.
    + now rewrite error_lines_app, Herr, Herr'.
  - exists evs, (Raise e). split; [now apply emits_bind_raise|auto].
Qed.

Lemma call_api_tidy env t user_prompt system_prompt mdl temp :
  tidy (call_api env t user_prompt system_prompt mdl temp) 1.
Proof.
  unfold call_api. apply tidy_bind.
  - eexists _, _. split; [apply emits_tell|]. repeat split.
  - intros _. apply tidy_lift.
Qed.

Lemma detect_llm_tidy env t user_prompt response :
  tidy (detect_llm env t user_prompt response) 0.
Proof.
  unfold detect_llm. apply tidy_bind.
  - eexists _, _. split; [apply emits_tell|]. repeat split.
  - intros _. apply tidy_bind; [apply tidy_lift|].
    intros reply. apply tidy_lift.
Qed.

Lemma trial_tidy env cname system_prompt mdl temp use_llm user_prompt run :
  tidy (trial env cname system_prompt mdl temp use_llm user_prompt run) 1.
Proof.
  unfold trial. apply tidy_bind; [apply call_api_tidy|].
  intros response. destruct (detect_pattern response) as [p_match p_text].
  apply tidy_bind.
  - destruct use_llm; [apply detect_llm_tidy|apply tidy_ret].
  - intros [[[l_match l_text] l_cat] l_expl]. apply tidy_ret.
Qed.

(** A trial sends one request to the Response Source, prints no error
    line, leaves the result list alone and ends in the cell's outcome. *)
Lemma trial_shape env cname system_prompt mdl temp use_llm user_prompt run :
  exists evs,
    emits (trial env cname system_prompt mdl temp use_llm user_prompt run)
          evs
          (outcome env cname system_prompt mdl temp use_llm
                   (user_prompt, run))
    /\ inner_events evs 1 /\ error_lines evs = [].
Proof.
  destruct (trial_tidy env cname system_prompt mdl temp use_llm
                       user_prompt run) as (evs & r & He & Hin & Herr).
  exists evs. split; [|auto].
  unfold outcome. simpl. now rewrite (He initial).
Qed.

Lemma print_status_tidy (r : DetectionResult) :
  exists evs res, emits (print_status r) evs res /\ inner_events evs 0.
Proof.
  unfold print_status. destruct (truthy (has_quality_comment r)).
  - destruct (slice30 (py_or (matched_text r) (JStr "?"))) as [shown|e] eqn:E.
    + eexists _, _. split.
      * eapply emits_bind_ok; [apply emits_lift|apply emits_tell].
      * split; reflexivity.
    + eexists _, _. split.
      * apply emits_bind_raise. apply emits_lift.
      * split; reflexivity.
  - eexists _, _. split; [apply emits_tell|split; reflexivity].
Qed.

(** The body of the loop never raises: it announces the cell, sends one
    request, and extends the result list with the record of the trial when
    the trial completed and with nothing when it raised. *)
Lemma run_cell_spec env cname system_prompt mdl temp use_llm total_calls
      user_prompt run call_count st :
  exists evs,
    run_cell env cname system_prompt mdl temp use_llm total_calls
             user_prompt run call_count st
    = ({| trace := trace st
                   ++ EvProgress (call_count + 1) total_calls :: evs;
          store := store st
                   ++ match outcome env cname system_prompt mdl temp use_llm
                                    (user_prompt, run) with
                      | Ok r => [r]
                      | Raise _ => []
                      end |},
       Ok (call_count + 1)%Z)
    /\ inner_events evs 1
    /\ (forall e,
          outcome env cname system_prompt mdl temp use_llm (user_prompt, run)
          = Raise e ->
          error_lines evs = [e]).
Proof.
  destruct (trial_shape env cname system_prompt mdl temp use_llm
                        user_prompt run) as (evs & He & Hin & Herr).
  unfold run_cell, bind, try_except.
  unfold tell at 1. cbn [trace store].
  rewrite He. cbn [trace store].
  destruct (outcome env cname system_prompt mdl temp use_llm
                    (user_prompt, run)) as [r|e].
  - unfold append_result. cbn [trace store].
    destruct (print_status_tidy r) as (evs' & res & Hp & Hin').
    rewrite Hp. cbn [trace store].
    destruct res as [[]|e].
    + exists (evs ++ evs'). unfold ret. split; [|split].
      * rewrite <- !app_assoc. reflexivity.
      * replace 1 with (1 + 0) by lia. now apply inner_events_app.
      * discriminate.
    + exists (evs ++ evs' ++ [EvError e]). unfold tell, ret.
      cbn [trace store]. split; [|split].
      * rewrite <- !app_assoc. reflexivity.
      * replace 1 with (1 + (0 + 0)) by lia.
        repeat apply inner_events_app; auto. split; reflexivity.
      * discriminate.
  - exists (evs ++ [EvError e]). unfold tell, ret. cbn [trace store].
    split; [|split].
    + rewrite <- !app_assoc, app_nil_r. reflexivity.
    + replace 1 with (1 + 0) by lia. apply inner_events_app; auto.
      split; reflexivity.
    + intros e' [= <-]. rewrite error_lines_app, Herr. reflexivity.
Qed.

(** ** The loops *)

Lemma for_each_app {A : Type} (xs ys : list A) (body : A -> Z -> M Z)
      (call_count : Z) (st : St) :
  for_each (xs ++ ys) body call_count st
  = bind (for_each xs body call_count) (for_each ys body) st.
Proof.
  revert call_count st; induction xs as [|x xs IH]; intros cc st.
  - reflexivity.
  - cbn [app for_each]. unfold bind.
    destruct (body x cc st) as [st1 [c|e]].
    + rewrite IH. reflexivity.
    + reflexivity.
Qed.

Lemma for_each_map {A B : Type} (g : A -> B) (xs : list A)
      (body : B -> Z -> M Z) (call_count : Z) (st : St) :
  for_each (map g xs) body call_count st
  = for_each xs (fun x => body (g x)) call_count st.
Proof.
  revert call_count st; induction xs as [|x xs IH]; intros cc st.
  - reflexivity.
  - cbn [map for_each]. unfold bind.
    destruct (body (g x) cc st) as [st1 [c|e]]; [apply IH|reflexivity].
Qed.

(** The two nested loops visit the cells of the matrix in order. *)
Lemma for_each_nested (corpus : list string) (inner : list nat)
      (body : string -> nat -> Z -> M Z) (call_count : Z) (st : St) :
  for_each corpus (fun p => for_each inner (body p)) call_count st
  = for_each (flat_map (fun p => map (pair p) inner) corpus)
             (fun cell => body (fst cell) (snd cell)) call_count st.
Proof.
  revert call_count st; induction corpus as [|p corpus IH]; intros cc st.
  - reflexivity.
  - cbn [flat_map for_each]. rewrite for_each_app. unfold bind.
    rewrite for_each_map. cbn [fst snd].
    change (fun x : nat => body p x) with (body p).
    destruct (for_each inner (body p) cc st) as [st1 [c|e]];
      [apply IH|reflexivity].
Qed.

Lemma marks_cons (call_count total : Z) (n : nat) :
  marks call_count total (S n)
  = ((call_count + 1)%Z, total) :: marks (call_count + 1) total n.
Proof.
  unfold marks. cbn [seq map]. f_equal.
  rewrite <- seq_shift, map_map. apply map_ext. intros i. f_equal. lia.
Qed.

Lemma progress_marks_app evs1 evs2 :
  progress_marks (evs1 ++ evs2) = progress_marks evs1 ++ progress_marks evs2.
Proof. unfold progress_marks. apply flat_map_app. Qed.

Lemma api_calls_app evs1 evs2 :
  api_calls (evs1 ++ evs2) = api_calls evs1 ++ api_calls evs2.
Proof. unfold api_calls. apply flat_map_app. Qed.

(** Running the loop body over a list of cells: it never raises, every
    cell is announced and gets its request, and the result list grows by
    the records of the cells whose trial completed. *)
Lemma run_cells_spec env cname system_prompt mdl temp use_llm total_calls
      (cells : list (string * nat)) (call_count : Z) (st : St) :
  exists evs,
    for_each cells
      (fun cell => run_cell env cname system_prompt mdl temp use_llm
                            total_calls (fst cell) (snd cell))
      call_count st
    = ({| trace := trace st ++ evs;
          store := store st
                   ++ completed env cname system_prompt mdl temp use_llm
                                cells |},
       Ok (call_count + Z.of_nat (List.length cells))%Z)
    /\ progress_marks evs = marks call_count total_calls (List.length cells)
    /\ List.length (api_calls evs) = List.length cells.
Proof.
  revert call_count st; induction cells as [|[p run] cells IH]; intros cc st.
  - exists []. cbn [for_each completed flat_map List.length]. unfold ret.
    rewrite !app_nil_r, Z.add_0_r. destruct st; auto.
  - cbn [for_each fst snd]. unfold bind.
    destruct (run_cell_spec env cname system_prompt mdl temp use_llm
                total_calls p run cc st) as (evs1 & E1 & [P1 A1] & _).
    rewrite E1.
    match goal with
    | |- context [for_each cells ?b ?c ?s] =>
        destruct (IH c s) as (evs2 & E2 & P2 & A2)
    end.
    rewrite E2. cbn [trace store].
    exists (EvProgress (cc + 1) total_calls :: evs1 ++ evs2).
    split; [|split].
    + cbn [completed flat_map List.length]. f_equal.
      * f_equal.
        -- rewrite <- app_assoc. reflexivity.
        -- rewrite <- app_assoc. reflexivity.
      * f_equal. lia.
    + cbn [List.length]. rewrite marks_cons.
      change (progress_marks (EvProgress (cc + 1) total_calls :: evs1 ++ evs2))
        with (((cc + 1)%Z, total_calls) :: progress_marks (evs1 ++ evs2)).
      rewrite progress_marks_app, P1, P2. reflexivity.
    + change (api_calls (EvProgress (cc + 1) total_calls :: evs1 ++ evs2))
        with (api_calls (evs1 ++ evs2)).
      rewrite api_calls_app, length_app, A1, A2. reflexivity.
Qed.

(** ** One condition *)

Lemma quality_comment_rate_ok (c : ConditionResults) :
  exists rate, quality_comment_rate c = Ok rate.
Proof.
  unfold quality_comment_rate.
  destruct (total_runs c); simpl; eauto.
Qed.

(** A failing service makes the trial raise. *)
Lemma service_failure_raises env cname system_prompt mdl temp use_llm cell e :
  service_failure env cname system_prompt mdl temp use_llm cell e ->
  outcome env cname system_prompt mdl temp use_llm cell = Raise e.
Proof.
  unfold service_failure, outcome, trial, call_api.
  intros [Hapi|(response & Hapi & -> & Hj)].
  - unfold bind, tell, lift. cbn [trace store initial app].
    rewrite Hapi. reflexivity.
  - unfold bind at 1 2. unfold tell at 1, lift at 1.
    cbn [trace store initial app]. rewrite Hapi.
    destruct (detect_pattern response) as [p_match p_text].
    unfold detect_llm, bind, tell, lift. cbn [trace store app].
    rewrite Hj. reflexivity.
Qed.

Lemma completed_app env cname system_prompt mdl temp use_llm cells1 cells2 :
  completed env cname system_prompt mdl temp use_llm (cells1 ++ cells2)
  = completed env cname system_prompt mdl temp use_llm cells1
    ++ completed env cname system_prompt mdl temp use_llm cells2.
Proof. unfold completed. apply flat_map_app. Qed.

(** A cell whose trial raised leaves no record. *)
Lemma completed_skips env cname system_prompt mdl temp use_llm
      before cell after e :
  outcome env cname system_prompt mdl temp use_llm cell = Raise e ->
  completed env cname system_prompt mdl temp use_llm (before ++ cell :: after)
  = completed env cname system_prompt mdl temp use_llm before
    ++ completed env cname system_prompt mdl temp use_llm after.
Proof.
  intros H. rewrite completed_app. f_equal.
  unfold completed at 1. cbn [flat_map]. rewrite H. reflexivity.
Qed.

(** What [run_condition] does once the instruction text is loaded: the
    banner, the cells, the result line. *)
Lemma run_condition_console env cname sp_name mdl temp runs use_llm
      system_prompt st :
  load_system_prompt env sp_name = Ok system_prompt ->
  let res := {| condition_name := cname;
                system_prompt_name := sp_name;
                results := completed env cname system_prompt mdl temp
                                     use_llm (matrix TEST_PROMPTS runs) |} in
  exists st' evs rate,
    run_condition env cname sp_name mdl temp runs use_llm st = (st', Ok res)
    /\ quality_comment_rate res = Ok rate
    /\ trace st'
       = trace st
         ++ EvBanner cname sp_name
            :: evs ++ [EvResult cname (rate * 100)%Q
                                (quality_comment_count res) (total_runs res)]
    /\ progress_marks evs
       = marks 0 (Z.of_nat (List.length TEST_PROMPTS) * runs)
               (List.length (matrix TEST_PROMPTS runs))
    /\ List.length (api_calls evs) = List.length (matrix TEST_PROMPTS runs).
Proof.
  intros Hload res. unfold run_condition. rewrite Hload.
  unfold bind at 1. unfold lift at 1.
  unfold bind at 1. unfold new_results at 1.
  unfold bind at 1. unfold tell at 1. cbn [trace store].
  unfold bind at 1. unfold run_matrix.
  rewrite for_each_nested.
  match goal with
  | |- context [for_each ?cells ?b ?c ?s] =>
      destruct (run_cells_spec env cname system_prompt mdl temp use_llm
                  (Z.of_nat (List.length TEST_PROMPTS) * runs)%Z
                  cells c s) as (evs & E & P & A)
  end.
  fold (matrix TEST_PROMPTS runs) in *.
  rewrite E. cbn [trace store app].
  unfold bind at 1. unfold get_results at 1. cbn [trace store].
  fold res.
  destruct (quality_comment_rate_ok res) as [rate Hrate].
  rewrite Hrate. unfold bind, lift, tell, ret. cbn [trace store].
  eexists _, evs, rate.
  split; [reflexivity|]. split; [reflexivity|]. split; [|split].
  - cbn [trace app]. rewrite <- !app_assoc. reflexivity.
  - exact P.
  - exact A.
Qed.

Lemma run_condition_spec env cname sp_name mdl temp runs use_llm
      system_prompt st :
  load_system_prompt env sp_name = Ok system_prompt ->
  exists st' evs,
    run_condition env cname sp_name mdl temp runs use_llm st
    = (st', Ok {| condition_name := cname;
                  system_prompt_name := sp_name;
                  results := completed env cname system_prompt mdl temp
                                       use_llm (matrix TEST_PROMPTS runs) |})
    /\ trace st' = trace st ++ evs
    /\ progress_marks evs
       = marks 0 (Z.of_nat (List.length TEST_PROMPTS) * runs)
               (List.length (matrix TEST_PROMPTS runs))
    /\ List.length (api_calls evs) = List.length (matrix TEST_PROMPTS runs).
Proof.
  intros Hload.
  destruct (run_condition_console env cname sp_name mdl temp runs use_llm
              system_prompt st Hload)
    as (st' & evs & rate & E & _ & T & P & A).
  match type of T with
  | _ = _ ++ _ :: _ ++ [?ev] =>
      exists st', ([EvBanner cname sp_name] ++ evs ++ [ev])
  end.
  split; [exact E|]. split; [exact T|]. split.
  - rewrite !progress_marks_app, P. cbn. now rewrite app_nil_r.
  - rewrite !api_calls_app, !length_app, A. cbn. lia.
Qed.

(** C4. Once the instruction text of a condition is loaded, the run of the
    condition returns normally whatever the services do: every cell of the
    prompt x run matrix is announced and gets its request, in matrix order,
    and the results are the records of the cells whose trial completed. A
    cell on which the Response Source or the Semantic Detector's service
    fails leaves no record: the results are those of the cells before it
    followed by those of the cells after it. *)
Theorem failure_isolation
        (env : Env) (cname sp_name mdl : string) (temp : Q) (runs : Z)
        (use_llm : bool) (system_prompt : string) (st : St)
        (Hload : load_system_prompt env sp_name = Ok system_prompt) :
  exists st' evs,
    run_condition env cname sp_name mdl temp runs use_llm st
    = (st', Ok {| condition_name := cname;
                  system_prompt_name := sp_name;
                  results := completed env cname system_prompt mdl temp
                                       use_llm (matrix TEST_PROMPTS runs) |})
    /\ trace st' = trace st ++ evs
    /\ progress_marks evs
       = marks 0 (Z.of_nat (List.length TEST_PROMPTS) * runs)
               (List.length (matrix TEST_PROMPTS runs))
    /\ List.length (api_calls evs) = List.length (matrix TEST_PROMPTS runs)
    /\ forall before cell after e,
        matrix TEST_PROMPTS runs = before ++ cell :: after ->
        service_failure env cname system_prompt mdl temp use_llm cell e ->
        completed env cname system_prompt mdl temp use_llm
                  (matrix TEST_PROMPTS runs)
        = completed env cname system_prompt mdl temp use_llm before
          ++ completed env cname system_prompt mdl temp use_llm after.
Proof.
  destruct (run_condition_spec env cname sp_name mdl temp runs use_llm
              system_prompt st Hload) as (st' & evs & E & T & P & A).
  exists st', evs. repeat (split; [assumption|]).
  intros before cell after e Hsplit Hfail. rewrite Hsplit.
  eapply completed_skips. apply service_failure_raises. exact Hfail.
Qed.

(** An instance: the baseline of the sample, where the Response Source
    fails on one cell and the judge on another; ten cells are requested,
    eight are recorded. *)
Lemma failure_isolation_witness :
  load_system_prompt Sample.env "claude_system_prompt" = Ok "You are Claude."
  /\ service_failure Sample.env "baseline" "You are Claude." "m" 0.7 true
       (nth 3 TEST_PROMPTS "", 0) (ServiceError "overloaded")
  /\ exists st' evs,
      run_condition Sample.env "baseline" "claude_system_prompt" "m" 0.7 1
                    true initial
      = (st', Ok {| condition_name := "baseline";
                    system_prompt_name := "claude_system_prompt";
                    results := completed Sample.env "baseline"
                                 "You are Claude." "m" 0.7 true
                                 (matrix TEST_PROMPTS 1) |})
      /\ List.length (api_calls evs) = 10
      /\ List.length (completed Sample.env "baseline" "You are Claude." "m"
                                0.7 true (matrix TEST_PROMPTS 1)) = 8.
Proof.
  split; [reflexivity|]. split; [left; reflexivity|].
  destruct (failure_isolation Sample.env "baseline" "claude_system_prompt"
              "m" 0.7 1 true "You are Claude." initial eq_refl)
    as (st' & evs & E & _ & _ & A & _).
  exists st', evs. split; [exact E|]. split; [exact A|].
  vm_compute. reflexivity.
Defined.

(** ** The experiment *)

Lemma matrix_length (corpus : list string) (runs : Z) :
  List.length (matrix corpus runs) = List.length corpus * Z.to_nat runs.
Proof.
  unfold matrix, range. induction corpus as [|p corpus IH]; [reflexivity|].
  cbn [flat_map List.length]. rewrite length_app, length_map, length_seq, IH.
  reflexivity.
Qed.

Lemma completed_failed_length env cname system_prompt mdl temp use_llm cells :
  List.length (completed env cname system_prompt mdl temp use_llm cells)
  + failed env cname system_prompt mdl temp use_llm cells
  = List.length cells.
Proof.
  unfold completed, failed. induction cells as [|cell cells IH]; [reflexivity|].
  cbn [flat_map filter List.length]. rewrite length_app.
  destruct (outcome env cname system_prompt mdl temp use_llm cell);
    cbn [List.length]; lia.
Qed.

(** The failure to load the instruction text is raised before anything is
    printed, sent or stored. *)
Lemma run_condition_unresolved env cname sp_name mdl temp runs use_llm st :
  unresolvable env sp_name ->
  run_condition env cname sp_name mdl temp runs use_llm st
  = (st, Raise (FileNotFoundError sp_name)).
Proof.
  intros [H1 H2]. unfold run_condition, load_system_prompt.
  rewrite H1, H2. reflexivity.
Qed.

Lemma load_cases env sp_name :
  (exists system_prompt, load_system_prompt env sp_name = Ok system_prompt)
  \/ unresolvable env sp_name.
Proof.
  unfold load_system_prompt, unresolvable.
  destruct (prompts_dir env sp_name); [eauto|].
  destruct (prompts_dir env (sp_name ++ ".txt")); eauto.
Qed.

(** The loop over the conditions when every reference resolves. *)
Lemma run_conditions_spec env mdl temp runs use_llm
      (conds : list (string * string)) (x : ExperimentResults) (st : St) :
  (forall name sp_name, In (name, sp_name) conds ->
     exists system_prompt, load_system_prompt env sp_name = Ok system_prompt) ->
  exists st' evs,
    run_conditions env conds mdl temp runs use_llm x st
    = (st', Ok {| timestamp := timestamp x; model := model x;
                  temperature := temperature x;
                  runs_per_prompt := runs_per_prompt x;
                  conditions := record_all env mdl temp runs use_llm
                                           (conditions x) conds |})
    /\ trace st' = trace st ++ evs
    /\ List.length (api_calls evs)
       = List.length conds * List.length (matrix TEST_PROMPTS runs).
Proof.
  revert x st; induction conds as [|[name sp] conds IH]; intros x st Hall.
  - exists st, []. cbn [run_conditions record_all fold_left].
    unfold ret. destruct x. rewrite app_nil_r. auto.
  - destruct (Hall name sp (or_introl eq_refl)) as [sys Hload].
    destruct (run_condition_spec env name sp mdl temp runs use_llm sys st
                Hload) as (st1 & evs1 & E1 & T1 & _ & A1).
    cbn [run_conditions]. unfold bind. rewrite E1.
    match goal with
    | |- context [run_conditions env conds mdl temp runs use_llm ?x1 st1] =>
        destruct (IH x1 st1) as (st2 & evs2 & E2 & T2 & A2)
    end.
    { intros n s Hin. apply (Hall n s). now right. }
    rewrite E2. exists st2, (evs1 ++ evs2).
    split; [|split].
    + cbn [timestamp model temperature runs_per_prompt conditions].
      unfold record_all at 2. cbn [fold_left fst snd].
      unfold condition_record at 2. rewrite Hload. reflexivity.
    + rewrite T2, T1, app_assoc. reflexivity.
    + rewrite api_calls_app, length_app, A1, A2. cbn [List.length]. lia.
Qed.

(** The loop over the conditions when a reference does not resolve: the
    conditions before it run in full, then the failure is raised. *)
Lemma run_conditions_abort env mdl temp runs use_llm
      (pre : list (string * string)) (name sp_name : string)
      (post : list (string * string)) (x : ExperimentResults) (st : St) :
  (forall n s, In (n, s) pre ->
     exists system_prompt, load_system_prompt env s = Ok system_prompt) ->
  unresolvable env sp_name ->
  exists st' evs x',
    run_conditions env (pre ++ (name, sp_name) :: post) mdl temp runs use_llm
                   x st
    = (st', Raise (FileNotFoundError sp_name))
    /\ run_conditions env pre mdl temp runs use_llm x st = (st', Ok x')
    /\ trace st' = trace st ++ evs
    /\ List.length (api_calls evs)
       = List.length pre * List.length (matrix TEST_PROMPTS runs).
Proof.
  revert x st; induction pre as [|[n s] pre IH]; intros x st Hall Hbad.
  - exists st, [], x. cbn [app run_conditions]. unfold bind.
    rewrite run_condition_unresolved by assumption.
    unfold ret. rewrite app_nil_r. auto.
  - destruct (Hall n s (or_introl eq_refl)) as [sys Hload].
    destruct (run_condition_spec env n s mdl temp runs use_llm sys st
                Hload) as (st1 & evs1 & E1 & T1 & _ & A1).
    cbn [app run_conditions]. unfold bind. rewrite E1.
    match goal with
    | |- context [run_conditions env (pre ++ _) mdl temp runs use_llm ?x1 st1] =>
        destruct (IH x1 st1) as (st2 & evs2 & x2 & E2 & E2' & T2 & A2)
    end.
    { intros n' s' Hin. apply (Hall n' s'). now right. }
    { assumption. }
    rewrite E2, E2'. exists st2, (evs1 ++ evs2), x2.
    repeat split.
    + rewrite T2, T1, app_assoc. reflexivity.
    + rewrite api_calls_app, length_app, A1, A2. cbn [List.length]. lia.
Qed.

(** C6 as stated fails: the conditions of [main], of which the last has no
    file, send the requests of the first two conditions before the run
    aborts. *)
Lemma abort_comes_after_trials :
  ~ (forall env now conds mdl temp runs use_llm,
        (exists name sp_name,
            In (name, sp_name) conds /\ unresolvable env sp_name) ->
        api_calls
          (trace (fst (run_experiment env now conds mdl temp runs use_llm
                                      initial))) = []).
Proof.
  intros H.
  specialize (H Sample.env "2026-01-01T00:00:00" Sample.conditions_main
                "claude-sonnet-4-5-20250929" 0.7%Q 1%Z true).
  assert (E : List.length
                (api_calls
                   (trace (fst (run_experiment Sample.env
                                  "2026-01-01T00:00:00" Sample.conditions_main
                                  "claude-sonnet-4-5-20250929" 0.7%Q 1%Z true
                                  initial)))) = 0).
  { rewrite H; [reflexivity|].
    exists "v2b_with_reminders", "intervention_v2b.txt".
    split; [simpl; auto|split; reflexivity]. }
  vm_compute in E. discriminate E.
Qed.

(** C6, amended. An instruction reference that does not resolve is fatal:
    the experiment raises [FileNotFoundError] and returns no results, the
    failure is not turned into a skipped trial. It stops the run before any
    trial of that condition and of the conditions after it; the conditions
    registered before it have run in full, so the state at the abort is the
    state they left and the requests sent are theirs. *)
Theorem unresolved_reference_is_fatal
        (env : Env) (now : string) (pre : list (string * string))
        (name sp_name : string) (post : list (string * string))
        (mdl : string) (temp : Q) (runs : Z) (use_llm : bool)
        (Hpre : forall n s, In (n, s) pre ->
                  exists system_prompt,
                    load_system_prompt env s = Ok system_prompt)
        (Hbad : unresolvable env sp_name) :
  let conds := pre ++ (name, sp_name) :: post in
  let start :=
    {| trace := [EvStart (List.length TEST_PROMPTS) runs (List.length conds)
                   (Z.of_nat (List.length TEST_PROMPTS) * runs
                    * Z.of_nat (List.length conds))];
       store := [] |} in
  let empty := {| timestamp := now; model := mdl; temperature := temp;
                  runs_per_prompt := runs; conditions := [] |} in
  exists st' x_pre,
    run_experiment env now conds mdl temp runs use_llm initial
    = (st', Raise (FileNotFoundError sp_name))
    /\ run_conditions env pre mdl temp runs use_llm empty start
       = (st', Ok x_pre)
    /\ List.length (api_calls (trace st'))
       = List.length pre * List.length (matrix TEST_PROMPTS runs).
Proof.
  intros conds start empty.
  destruct (run_conditions_abort env mdl temp runs use_llm pre name sp_name
              post empty start Hpre Hbad)
    as (st' & evs & x' & E & E' & T & A).
  exists st', x'. split; [|split].
  - unfold run_experiment, bind. unfold tell at 1.
    cbn [trace store initial app]. exact E.
  - exact E'.
  - rewrite T. rewrite api_calls_app, length_app, A. reflexivity.
Qed.

(** An instance: the conditions of [main] in the sample, where the third
    reference has no file; the twenty requests of the first two conditions
    are sent before the abort. *)
Lemma unresolved_reference_is_fatal_witness :
  exists st' x_pre,
    run_experiment Sample.env "2026-01-01T00:00:00" Sample.conditions_main
                   "claude-sonnet-4-5-20250929" 0.7%Q 1%Z true initial
    = (st', Raise (FileNotFoundError "intervention_v2b.txt"))
    /\ run_conditions Sample.env
         [("baseline", "claude_system_prompt.txt");
          ("v2a_tone_only", "intervention_v2a.txt")]
         "claude-sonnet-4-5-20250929" 0.7%Q 1%Z true
         {| timestamp := "2026-01-01T00:00:00";
            model := "claude-sonnet-4-5-20250929";
            temperature := 0.7%Q; runs_per_prompt := 1%Z; conditions := [] |}
         {| trace := [EvStart 10 1 3 30]; store := [] |}
       = (st', Ok x_pre)
    /\ List.length (api_calls (trace st')) = 20.
Proof.
  refine (unresolved_reference_is_fatal Sample.env "2026-01-01T00:00:00"
            [("baseline", "claude_system_prompt.txt");
             ("v2a_tone_only", "intervention_v2a.txt")]
            "v2b_with_reminders" "intervention_v2b.txt" []
            "claude-sonnet-4-5-20250929" 0.7%Q 1%Z true _ _).
  - intros n s [[= <- <-]|[[= <- <-]|[]]]; eexists; reflexivity.
  - split; reflexivity.
Defined.

(** ** Serialised summary *)

Lemma lookup_dict_set_same {V : Type} (d : list (string * V)) k v :
  lookup (dict_set d k v) k = Some v.
Proof.
  induction d as [|[k' v'] d IH]; cbn [dict_set lookup].
  - now rewrite String.eqb_refl.
  - destruct (String.eqb k' k) eqn:E; cbn [lookup]; rewrite E; auto.
Qed.

Lemma lookup_dict_set_other {V : Type} (d : list (string * V)) k k' v :
  k' <> k -> lookup (dict_set d k v) k' = lookup d k'.
Proof.
  intros Hne. induction d as [|[k0 v0] d IH]; cbn [dict_set lookup].
  - apply String.eqb_neq in Hne. rewrite String.eqb_sym in Hne.
    now rewrite Hne.
  - destruct (String.eqb k0 k) eqn:E; cbn [lookup].
    + apply String.eqb_eq in E. subst k0.
      apply String.eqb_neq in Hne. rewrite String.eqb_sym in Hne.
      now rewrite Hne.
    + destruct (String.eqb k0 k'); auto.
Qed.

Lemma record_all_cons env mdl temp runs use_llm d n s conds :
  record_all env mdl temp runs use_llm d ((n, s) :: conds)
  = record_all env mdl temp runs use_llm
      (dict_set d n (condition_record env mdl temp runs use_llm n s)) conds.
Proof. reflexivity. Qed.

Lemma lookup_record_all_other env mdl temp runs use_llm d conds name :
  ~ In name (map fst conds) ->
  lookup (record_all env mdl temp runs use_llm d conds) name = lookup d name.
Proof.
  revert d; induction conds as [|[n s] conds IH]; intros d Hnot;
    [reflexivity|].
  rewrite record_all_cons. cbn [map fst In] in Hnot.
  rewrite IH by tauto. apply lookup_dict_set_other. intros ->. tauto.
Qed.

(** With distinct condition names, each condition is found under its name
    with its own record. *)
Lemma lookup_record_all env mdl temp runs use_llm d conds name sp_name :
  NoDup (map fst conds) -> In (name, sp_name) conds ->
  lookup (record_all env mdl temp runs use_llm d conds) name
  = Some (condition_record env mdl temp runs use_llm name sp_name).
Proof.
  revert d; induction conds as [|[n s] conds IH]; intros d Hnd Hin;
    [destruct Hin|].
  cbn [map fst] in Hnd. inversion Hnd as [|? ? Hnot Hnd']; subst.
  rewrite record_all_cons.
  destruct Hin as [[= -> ->]|Hin].
  - rewrite lookup_record_all_other by assumption.
    apply lookup_dict_set_same.
  - now apply IH.
Qed.

Lemma summary_of_lookup conds summary name cond :
  summary_of conds = Ok summary ->
  lookup conds name = Some cond ->
  exists entry,
    summary_entry cond = Ok entry /\ lookup summary name = Some entry.
Proof.
  revert summary; induction conds as [|[n c] conds IH]; intros summary Hs Hl;
    [discriminate|].
  cbn [summary_of] in Hs.
  destruct (summary_entry c) as [entry|e] eqn:Ee; [|discriminate].
  destruct (summary_of conds) as [entries|e] eqn:Es; [|discriminate].
  injection Hs as <-. cbn [lookup] in *.
  destruct (String.eqb n name).
  - injection Hl as <-. eauto.
  - now apply IH.
Qed.

(** The rate written in an entry is computed over the completed trials. *)
Lemma rate_value (c : ConditionResults) (rate : Q) :
  quality_comment_rate c = Ok rate ->
  (rate == match total_runs c with
           | O => 0
           | S _ => Q_of_nat (quality_comment_count c)
                    / Q_of_nat (total_runs c)
           end)%Q.
Proof.
  unfold quality_comment_rate.
  destruct (total_runs c); simpl; intros [= <-]; reflexivity.
Qed.

(** Either every reference resolves, or there is a first one that does
    not. *)
Lemma first_unresolvable env (conds : list (string * string)) :
  (forall n s, In (n, s) conds ->
     exists system_prompt, load_system_prompt env s = Ok system_prompt)
  \/ exists pre name sp_name post,
      conds = pre ++ (name, sp_name) :: post
      /\ (forall n s, In (n, s) pre ->
            exists system_prompt, load_system_prompt env s = Ok system_prompt)
      /\ unresolvable env sp_name.
Proof.
  induction conds as [|[n s] conds IH].
  - left. intros ? ? [].
  - destruct (load_cases env s) as [Hok|Hbad].
    + destruct IH as [Hall|(pre & name & sp & post & -> & Hpre & Hbad)].
      * left. intros n' s' [[= <- <-]|Hin]; eauto.
      * right. exists ((n, s) :: pre), name, sp, post.
        split; [reflexivity|]. split; [|assumption].
        intros n' s' [[= <- <-]|Hin]; eauto.
    + right. exists [], n, s, conds. split; [reflexivity|].
      split; [intros ? ? []|assumption].
Qed.

(** An experiment that returns has recorded every condition. *)
Lemma run_experiment_returns env now conds mdl temp runs use_llm st' x :
  run_experiment env now conds mdl temp runs use_llm initial = (st', Ok x) ->
  (forall n s, In (n, s) conds ->
     exists system_prompt, load_system_prompt env s = Ok system_prompt)
  /\ runs_per_prompt x = runs
  /\ conditions x = record_all env mdl temp runs use_llm [] conds.
Proof.
  unfold run_experiment, bind. unfold tell at 1. cbn [trace store initial app].
  intros Hrun.
  destruct (first_unresolvable env conds)
    as [Hall|(pre & name & sp & post & -> & Hpre & Hbad)].
  - split; [assumption|].
    match type of Hrun with
    | run_conditions _ _ _ _ _ _ ?x0 ?st0 = _ =>
        destruct (run_conditions_spec env mdl temp runs use_llm conds x0 st0
                    Hall) as (st1 & evs & E & _)
    end.
    rewrite E in Hrun. injection Hrun as _ <-. split; reflexivity.
  - match type of Hrun with
    | run_conditions _ _ _ _ _ _ ?x0 ?st0 = _ =>
        destruct (run_conditions_abort env mdl temp runs use_llm pre name sp
                    post x0 st0 Hpre Hbad) as (st1 & evs & x1 & E & _)
    end.
    rewrite E in Hrun. discriminate Hrun.
Qed.

Lemma attempted_cells (corpus : list string) (runs : Z) :
  Z.to_nat (Z.of_nat (List.length corpus) * runs)
  = List.length (matrix corpus runs).
Proof.
  rewrite matrix_length.
  destruct (Z.le_gt_cases 0 runs) as [H|H].
  - rewrite Z2Nat.inj_mul by lia. now rewrite Nat2Z.id.
  - replace (Z.to_nat runs) with 0 by lia.
    rewrite Nat.mul_0_r.
    assert (Z.of_nat (List.length corpus) * runs <= 0)%Z by nia. lia.
Qed.

(** C5. For an experiment that returned, the output of each condition
    tells the completed cells from the attempted ones. In the document, the
    number of attempted cells is [len(prompts) * runs_per_prompt] (none
    when that is negative), [total_runs] of the condition's entry is the
    number of cells whose trial completed, the difference is the number of
    cells whose trial raised, and the rate of the entry is computed over
    the completed cells only. On the console, the run of the condition
    marks every cell as [[k/attempted]] and ends with a result line that
    gives the flagged count over the completed count. *)
Theorem attempted_vs_completed
        (env : Env) (now : string) (conds : list (string * string))
        (mdl : string) (temp : Q) (runs : Z) (use_llm : bool)
        (st' : St) (x : ExperimentResults) (doc : OutputDoc)
        (name sp_name : string)
        (Hnodup : NoDup (map fst conds))
        (Hrun : run_experiment env now conds mdl temp runs use_llm initial
                = (st', Ok x))
        (Hdoc : to_dict x = Ok doc)
        (Hin : In (name, sp_name) conds) :
  let total_calls :=
    (Z.of_nat (List.length (o_prompts doc)) * o_runs_per_prompt doc)%Z in
  let attempted := Z.to_nat total_calls in
  exists system_prompt entry,
    load_system_prompt env sp_name = Ok system_prompt
    /\ lookup (o_summary doc) name = Some entry
    /\ attempted = List.length (matrix TEST_PROMPTS runs)
    /\ s_total_runs entry
       = List.length (completed env name system_prompt mdl temp use_llm
                                (matrix TEST_PROMPTS runs))
    /\ s_total_runs entry
       + failed env name system_prompt mdl temp use_llm
                (matrix TEST_PROMPTS runs)
       = attempted
    /\ (s_quality_comment_rate entry
        == match s_total_runs entry with
           | O => 0
           | S _ => Q_of_nat (s_quality_comment_count entry)
                    / Q_of_nat (s_total_runs entry)
           end)%Q
    /\ forall st,
        exists st1 res evs pct,
          run_condition env name sp_name mdl temp runs use_llm st
          = (st1, Ok res)
          /\ trace st1
             = trace st
               ++ EvBanner name sp_name
                  :: evs ++ [EvResult name pct
                                      (s_quality_comment_count entry)
                                      (s_total_runs entry)]
          /\ progress_marks evs = marks 0 total_calls attempted.
Proof.
  intros total_calls attempted.
  destruct (run_experiment_returns env now conds mdl temp runs use_llm st' x
              Hrun) as (Hall & Hr & Hc).
  destruct (Hall name sp_name Hin) as [sys Hload].
  unfold to_dict in Hdoc.
  destruct (summary_of (conditions x)) as [summary|e] eqn:Es; [|discriminate].
  injection Hdoc as <-. subst attempted total_calls.
  cbn [o_summary o_prompts o_runs_per_prompt]. rewrite Hr.
  assert (Hl : lookup (conditions x) name
               = Some (condition_record env mdl temp runs use_llm
                                        name sp_name)).
  { rewrite Hc. now apply lookup_record_all. }
  destruct (summary_of_lookup _ _ _ _ Es Hl) as (entry & He & Hle).
  exists sys, entry. split; [exact Hload|]. split; [exact Hle|].
  unfold summary_entry in He.
  destruct (quality_comment_rate
              (condition_record env mdl temp runs use_llm name sp_name))
    as [rate|e] eqn:Er; [|discriminate].
  injection He as <-.
  cbn [s_total_runs s_quality_comment_rate s_quality_comment_count].
  assert (Hrec : condition_record env mdl temp runs use_llm name sp_name
                 = {| condition_name := name; system_prompt_name := sp_name;
                      results := completed env name sys mdl temp use_llm
                                           (matrix TEST_PROMPTS runs) |}).
  { unfold condition_record. now rewrite Hload. }
  rewrite attempted_cells.
  split; [reflexivity|]. split; [|split; [|split]].
  - rewrite Hrec. reflexivity.
  - rewrite Hrec. apply completed_failed_length.
  - apply rate_value. exact Er.
  - intros st.
    destruct (run_condition_console env name sp_name mdl temp runs use_llm
                sys st Hload) as (st1 & evs & rate1 & E & _ & T & P & _).
    eexists st1, _, evs, (rate1 * 100)%Q.
    split; [exact E|]. rewrite Hrec. split; [exact T|exact P].
Qed.

(** An instance: the sample run of two conditions and the baseline's
    entry. *)
Lemma attempted_vs_completed_witness :
  run_experiment Sample.env "2026-01-01T00:00:00" Sample.conditions_ok
                 "claude-sonnet-4-5-20250929" 0.7%Q 1%Z true initial
  = (Sample.final, Ok Sample.experiment)
  /\ to_dict Sample.experiment = Ok Sample.document
  /\ exists system_prompt entry,
      load_system_prompt Sample.env "claude_system_prompt.txt"
      = Ok system_prompt
      /\ lookup (o_summary Sample.document) "baseline" = Some entry
      /\ Z.to_nat (Z.of_nat (List.length (o_prompts Sample.document))
                   * o_runs_per_prompt Sample.document)
         = List.length (matrix TEST_PROMPTS 1)
      /\ s_total_runs entry
         + failed Sample.env "baseline" system_prompt
                  "claude-sonnet-4-5-20250929" 0.7%Q true
                  (matrix TEST_PROMPTS 1)
         = Z.to_nat (Z.of_nat (List.length (o_prompts Sample.document))
                     * o_runs_per_prompt Sample.document).
Proof.
  split; [vm_compute; reflexivity|].
  split; [vm_compute; reflexivity|].
  destruct (attempted_vs_completed Sample.env "2026-01-01T00:00:00"
              Sample.conditions_ok "claude-sonnet-4-5-20250929" 0.7%Q 1%Z
              true Sample.final Sample.experiment Sample.document
              "baseline" "claude_system_prompt.txt")
    as (sys & entry & H1 & H2 & H3 & _ & H5 & _).
  - repeat constructor; simpl; intuition discriminate.
  - vm_compute; reflexivity.
  - vm_compute; reflexivity.
  - simpl; auto.
  - exists sys, entry. auto.
Defined.

(** In the sample run the baseline attempted 10 cells and completed 8. *)
Example sample_baseline_entry :
  option_map (fun e => (s_total_runs e, s_quality_comment_count e))
             (lookup (o_summary Sample.document) "baseline")
  = Some (8, 8)
  /\ (Z.of_nat (List.length (o_prompts Sample.document))
      * o_runs_per_prompt Sample.document)%Z = 10%Z.
Proof. split; vm_compute; reflexivity. Qed.

(** ** Binary64 rounding *)

Section RoundFacts.

Import B64.

Local Open Scope Q_scope.












End RoundFacts.

(** ** Verdict of the report *)

Section VerdictFacts.

Import Report.

Lemma Qltb_lt (a b : Q) : Qltb a b = true <-> (a < b)%Q.
Proof.
  unfold Qltb. rewrite negb_true_iff. split.
  - intros H. apply Qnot_le_lt. intros Hle.
    apply Qle_bool_iff in Hle. congruence.
  - intros H. destruct (Qle_bool b a) eqn:E; [|reflexivity].
    apply Qle_bool_iff in E. apply Qlt_not_le in H. contradiction.
Qed.

Lemma Qltb_ge (a b : Q) : Qltb a b = false <-> (b <= a)%Q.
Proof.
  unfold Qltb. rewrite negb_false_iff. apply Qle_bool_iff.
Qed.



(** The sort rearranges, it neither drops nor adds a condition. *)
Lemma insert_by_rate_perm x l : Permutation (insert_by_rate x l) (x :: l).
Proof.
  induction l as [|y l IH]; cbn [insert_by_rate]; [reflexivity|].
  destruct (Qle_bool (rate_of x) (rate_of y)); [reflexivity|].
  rewrite IH. apply perm_swap.
Qed.

Lemma sort_by_rate_perm l : Permutation (sort_by_rate l) l.
Proof.
  induction l as [|x l IH]; [reflexivity|].
  unfold sort_by_rate in *. cbn [fold_right].
  rewrite insert_by_rate_perm. now constructor.
Qed.

Lemma in_lookup {V : Type} (d : list (string * V)) k v :
  NoDup (map fst d) -> In (k, v) d -> lookup d k = Some v.
Proof.
  induction d as [|[k' v'] d IH]; intros Hnd Hin; [destruct Hin|].
  cbn [map fst] in Hnd. inversion Hnd as [|? ? Hnot Hnd']; subst.
  cbn [lookup]. destruct Hin as [[= -> ->]|Hin].
  - now rewrite String.eqb_refl.
  - destruct (String.eqb k' k) eqn:E.
    + apply String.eqb_eq in E. subst k'. exfalso. apply Hnot.
      change k with (fst (k, v)). now apply in_map.
    + auto.
Qed.

Lemma is_baseline_false k : is_baseline k = false <-> k <> "baseline".
Proof. unfold is_baseline. apply String.eqb_neq. Qed.







End VerdictFacts.


(** ** Scenarios *)

(** Every trial opens with "Great question!": each is flagged by the
    pattern channel, the rate is 1, and with the baseline alone the verdict
    is "No improvement detected". *)
Example scenario_all_flagged :
  let cr := snd (run_condition Sample.praising "baseline"
                   "claude_system_prompt" "claude-sonnet-4-5-20250929"
                   0.7%Q 2%Z false initial) in
  match cr with
  | Ok c =>
      total_runs c = 20 /\ quality_comment_count c = 20
      /\ pattern_match_count c = 20 /\ llm_match_count c = 0
      /\ quality_comment_rate c = Ok (20 # 20)%Q
      /\ match summary_entry c with
         | Ok e =>
             option_map Report.verdict
               (match Report.generate_verdict [("baseline", e)] with
                | Ok v => Some v
                | Raise _ => None
                end)
             = Some "No improvement detected"
         | Raise _ => False
         end
  | Raise _ => False
  end.
Proof. vm_compute. repeat split; reflexivity. Qed.

(** The tiers at their boundaries, on rates of the document. *)
Example scenario_tiers :
  let tier b i :=
    match Report.generate_verdict (Sample.two b i) with
    | Ok v => Report.verdict v
    | Raise _ => ""
    end in
  tier 0.80%Q 0.45%Q = "Strong improvement"
  /\ tier 0.5%Q 0.2%Q = "Strong improvement"
  /\ tier 0.9%Q 0.6%Q = "Strong improvement"
  /\ tier 0.7%Q 0.4%Q = "Moderate improvement"
  /\ tier 0.5%Q 0.201%Q = "Moderate improvement"
  /\ tier 0.5%Q 0.35%Q = "Moderate improvement"
  /\ tier 0.35%Q 0.2%Q = "Modest improvement"
  /\ tier 0.5%Q 0.351%Q = "Modest improvement"
  /\ tier 0.5%Q 0.5%Q = "No improvement detected"
  /\ tier 0.5%Q 0.6%Q = "No improvement detected".
Proof. vm_compute. repeat split; reflexivity. Qed.

(** The improvement as the program computes it, on rates of the
    document: 29.999999999999993, 14.999999999999996,
    15.000000000000002, 30.0 and 30.000000000000004. *)
Example scenario_improvement :
  (Report.improvement_of 0.7 0.4 == 4222124650659839 # 140737488355328)%Q
  /\ (Report.improvement_of 0.35 0.2
      == 4222124650659839 # 281474976710656)%Q
  /\ (Report.improvement_of 0.5 0.35
      == 8444249301319681 # 562949953421312)%Q
  /\ (Report.improvement_of 0.5 0.2 == 30)%Q
  /\ (Report.improvement_of 0.9 0.6
      == 8444249301319681 # 281474976710656)%Q.
Proof. vm_compute. repeat split; reflexivity. Qed.

(** A judgment in a [json] fence is read through the fence. *)
Example scenario_json_fence :
  read_judge_reply Sample.env
    ("```json" ++ Py.NL ++ Sample.payload_none ++ Py.NL ++ "```")%string
  = Ok (JBool false, JNull, JStr "none", JStr "Answers directly.").
Proof. vm_compute. reflexivity. Qed.

(* ===================================================================== *)
(** * Further properties *)
(* ===================================================================== *)

(** ** Pattern detector: shape of the result *)

Lemma take_drop (n : nat) (s : string) : (Py.take n s ++ Py.drop n s)%string = s.
Proof.
  revert s; induction n as [|n IH]; intros [|c s]; simpl; try reflexivity.
  now rewrite IH.
Qed.

Lemma append_assoc_s (a b c : string) :
  ((a ++ b) ++ c)%string = (a ++ b ++ c)%string.
Proof. induction a as [|x a IH]; simpl; [reflexivity|now rewrite IH]. Qed.

Lemma append_length_s (a b : string) :
  String.length (a ++ b)%string = String.length a + String.length b.
Proof. induction a as [|x a IH]; simpl; [reflexivity|now rewrite IH]. Qed.

(** After the start of the text, a pattern that begins with [^] matches
    nowhere. *)
Lemma anchored_later ci r pos s :
  anchored r = true -> 0 < pos -> match_at ci r pos s = None.
Proof.
  intros Ha Hpos. unfold match_at.
  destruct r as [| | | |r1 r2| |]; try discriminate Ha.
  - cbn [rmatch]. destruct pos; [lia|reflexivity].
  - destruct r1; try discriminate Ha.
    cbn [rmatch]. destruct pos; [lia|reflexivity].
Qed.

Lemma search_from_anchored ci r s :
  forall pos, anchored r = true -> 0 < pos -> search_from ci r pos s = None.
Proof.
  induction s as [|c s IH]; intros pos Ha Hpos; cbn [search_from];
    rewrite (anchored_later ci r pos _ Ha Hpos); [reflexivity|].
  apply IH; [assumption|lia].
Qed.

(** What an anchored pattern finds is a prefix of the text. *)
Lemma search_anchored_prefix ci r s g :
  anchored r = true -> Re.search ci r s = Some g ->
  exists rest, s = (g ++ rest)%string.
Proof.
  intros Ha. unfold Re.search.
  destruct (search_from ci r 0 s) as [[b e]|] eqn:E; [|discriminate].
  intros [= <-].
  assert (b = 0).
  { destruct s as [|c s]; cbn [search_from] in E.
    - destruct (match_at ci r 0 ""); [now injection E|discriminate].
    - destruct (match_at ci r 0 (String c s)); [now injection E|].
      rewrite search_from_anchored in E by (auto; lia). discriminate. }
  subst b. rewrite Nat.sub_0_r.
  exists (Py.drop e s). change (Py.drop 0 s) with s.
  symmetry. apply take_drop.
Qed.

Lemma patterns_anchored :
  forallb anchored QUESTION_QUALITY_PATTERNS = true.
Proof. vm_compute. reflexivity. Qed.

Lemma first_match_shape (patterns : list regex) (opening : string) :
  forallb anchored patterns = true ->
  forallb (fun r => 1 <=? min_len r) patterns = true ->
  match first_match patterns opening with
  | (false, None) => True
  | (true, Some m) => m <> "" /\ exists rest, opening = (m ++ rest)%string
  | _ => False
  end.
Proof.
  induction patterns as [|r rs IH]; intros Ha Hm; cbn [first_match];
    [exact I|].
  cbn [forallb] in Ha, Hm.
  apply andb_true_iff in Ha. apply andb_true_iff in Hm.
  destruct Ha as [Ha Has], Hm as [Hm Hms].
  destruct (Re.search true r opening) as [g|] eqn:E; [|now apply IH].
  split.
  - apply search_length in E. apply Nat.leb_le in Hm.
    intros ->. simpl in E. lia.
  - eapply search_anchored_prefix; eauto.
Qed.

(** The pattern channel either reports no match and no text, or a match
    with a text that is not empty, is at most 300 characters long and is
    the very beginning of the response: the flag and the text always
    agree, and a phrase that does not open the response is never
    reported. *)
Theorem detect_pattern_shape (response : string) :
  match detect_pattern response with
  | (false, None) => True
  | (true, Some m) =>
      m <> "" /\ String.length m <= 300
      /\ exists rest, response = (m ++ rest)%string
  | _ => False
  end.
Proof.
  unfold detect_pattern.
  pose proof (first_match_shape QUESTION_QUALITY_PATTERNS
                (Py.take 300 response) patterns_anchored patterns_consume)
    as H.
  destruct (first_match QUESTION_QUALITY_PATTERNS (Py.take 300 response))
    as [[|] [m|]]; try exact H; try contradiction.
  destruct H as [Hne [rest Hrest]].
  split; [exact Hne|]. split.
  - assert (L : String.length (Py.take 300 response) <= 300)
      by (rewrite take_length; lia).
    rewrite Hrest in L. rewrite append_length_s in L. lia.
  - exists (rest ++ Py.drop 300 response)%string.
    rewrite <- append_assoc_s, <- Hrest. symmetry. apply take_drop.
Qed.

(** ** Pattern detector: letter case *)

Lemma lower_idem (c : ascii) : Py.lower (Py.lower c) = Py.lower c.
Proof. destruct c as [[] [] [] [] [] [] [] []]; reflexivity. Qed.

Lemma lower_newline (c : ascii) :
  Ascii.eqb (Py.lower c) "010" = Ascii.eqb c "010".
Proof. destruct c as [[] [] [] [] [] [] [] []]; reflexivity. Qed.

Lemma at_eol_lower (s : string) : at_eol (lower_text s) = at_eol s.
Proof.
  destruct s as [|c [|d s]]; cbn [lower_text at_eol]; try reflexivity.
  apply lower_newline.
Qed.

Lemma chr_eqb_lower (p c : ascii) :
  chr_eqb true p (Py.lower c) = chr_eqb true p c.
Proof. unfold chr_eqb. now rewrite lower_idem. Qed.

(** With [(?i)], the matcher does on a text what it does on the text in
    small letters. *)
Lemma rmatch_lower (r : regex) :
  forall pos s k k',
    (forall p t, k' p (lower_text t) = k p t) ->
    rmatch true r pos (lower_text s) k' = rmatch true r pos s k.
Proof.
  induction r as [|p| | |r1 IH1 r2 IH2|r1 IH1 r2 IH2|r1 IH1];
    intros pos s k k' Hk; cbn [rmatch].
  - apply Hk.
  - destruct s as [|c s]; cbn [lower_text]; [reflexivity|].
    rewrite chr_eqb_lower. destruct (chr_eqb true p c); [apply Hk|reflexivity].
  - destruct (pos =? 0); [apply Hk|reflexivity].
  - rewrite at_eol_lower. destruct (at_eol s); [apply Hk|reflexivity].
  - apply IH1. intros p t. apply IH2. exact Hk.
  - rewrite (IH1 pos s k k' Hk), (IH2 pos s k k' Hk). reflexivity.
  - rewrite (IH1 pos s k k' Hk), Hk. reflexivity.
Qed.

Lemma match_at_lower r pos s :
  match_at true r pos (lower_text s) = match_at true r pos s.
Proof. unfold match_at. now apply rmatch_lower. Qed.

Lemma search_from_lower r s :
  forall pos, search_from true r pos (lower_text s) = search_from true r pos s.
Proof.
  induction s as [|c s IH]; intros pos.
  - reflexivity.
  - change (lower_text (String c s))
      with (String (Py.lower c) (lower_text s)).
    cbn [search_from].
    change (String (Py.lower c) (lower_text s))
      with (lower_text (String c s)).
    rewrite match_at_lower.
    destruct (match_at true r pos (String c s)); [reflexivity|apply IH].
Qed.

Lemma take_lower n s : Py.take n (lower_text s) = lower_text (Py.take n s).
Proof.
  revert s; induction n as [|n IH]; intros [|c s]; simpl; try reflexivity.
  now rewrite IH.
Qed.

Lemma drop_lower n s : Py.drop n (lower_text s) = lower_text (Py.drop n s).
Proof.
  revert s; induction n as [|n IH]; intros [|c s]; simpl; try reflexivity.
  apply IH.
Qed.

Lemma search_lower r s :
  Re.search true r (lower_text s) = option_map lower_text (Re.search true r s).
Proof.
  unfold Re.search. rewrite search_from_lower.
  destruct (search_from true r 0 s) as [[b e]|]; [|reflexivity].
  cbn [option_map]. now rewrite drop_lower, take_lower.
Qed.

Lemma first_match_lower patterns opening :
  first_match patterns (lower_text opening)
  = (fst (first_match patterns opening),
     option_map lower_text (snd (first_match patterns opening))).
Proof.
  induction patterns as [|r rs IH]; cbn [first_match]; [reflexivity|].
  rewrite search_lower.
  destruct (Re.search true r opening); [reflexivity|exact IH].
Qed.

(** Letter case does not matter to the pattern channel: on the response in
    small letters it raises the same flag and reports the same text in
    small letters; hence two responses that differ in letter case only get
    the same flag. *)
Theorem detect_pattern_ignores_case (response other : string)
        (Hsame : lower_text response = lower_text other) :
  detect_pattern (lower_text response)
  = (fst (detect_pattern response),
     option_map lower_text (snd (detect_pattern response)))
  /\ fst (detect_pattern response) = fst (detect_pattern other).
Proof.
  assert (H : forall s,
             detect_pattern (lower_text s)
             = (fst (detect_pattern s),
                option_map lower_text (snd (detect_pattern s)))).
  { intros s. unfold detect_pattern. rewrite take_lower.
    apply first_match_lower. }
  split; [apply H|].
  pose proof (H response) as H1. pose proof (H other) as H2.
  rewrite Hsame in H1. rewrite H1 in H2. now injection H2.
Qed.

(** An instance: capitals and small letters. *)
Lemma detect_pattern_ignores_case_witness :
  detect_pattern "THAT'S A REALLY GOOD QUESTION. here is why"
  = (true, Some "THAT'S A REALLY GOOD QUESTION")
  /\ fst (detect_pattern "THAT'S A REALLY GOOD QUESTION. here is why")
     = fst (detect_pattern "That's a really good question. Here is why").
Proof.
  split; [vm_compute; reflexivity|].
  apply (detect_pattern_ignores_case
           "THAT'S A REALLY GOOD QUESTION. here is why"
           "That's a really good question. Here is why").
  vm_compute. reflexivity.
Defined.

(** ** Orchestrator: what is sent, and to whom *)

Lemma judge_calls_app evs1 evs2 :
  judge_calls (evs1 ++ evs2) = judge_calls evs1 ++ judge_calls evs2.
Proof. unfold judge_calls. apply flat_map_app. Qed.

Lemma call_api_emits env t user_prompt system_prompt mdl temp :
  let req := {| req_prompt := user_prompt; req_system := system_prompt;
                req_model := mdl; req_temperature := temp |} in
  emits (call_api env t user_prompt system_prompt mdl temp)
        [EvApiCall req] (response_source env t req).
Proof. intros req st. reflexivity. Qed.

Lemma detect_llm_emits env t user_prompt response :
  emits (detect_llm env t user_prompt response)
        [EvJudgeCall user_prompt (get_opening response 200)]
        match judge_service env t user_prompt (get_opening response 200) with
        | Ok reply => read_judge_reply env reply
        | Raise e => Raise e
        end.
Proof.
  intros st. unfold detect_llm, bind, tell, lift. cbn [trace store].
  destruct (judge_service env t user_prompt (get_opening response 200));
    reflexivity.
Qed.

(** A trial sends exactly its request, asks the judge at most once, with
    the first 200 characters of the response, and ends in the cell's
    outcome. *)
Lemma trial_calls env cname system_prompt mdl temp use_llm cell :
  exists evs,
    emits (trial env cname system_prompt mdl temp use_llm (fst cell) (snd cell))
          evs (outcome env cname system_prompt mdl temp use_llm cell)
    /\ api_calls evs = [request_of system_prompt mdl temp cell]
    /\ judge_calls evs
       = judge_question env cname system_prompt mdl temp use_llm cell.
Proof.
  assert (H : exists evs r,
             emits (trial env cname system_prompt mdl temp use_llm
                          (fst cell) (snd cell)) evs r
             /\ api_calls evs = [request_of system_prompt mdl temp cell]
             /\ judge_calls evs
                = judge_question env cname system_prompt mdl temp use_llm
                                 cell).
  { unfold trial, judge_question.
    pose proof (call_api_emits env (trial_id cname cell) (fst cell)
                  system_prompt mdl temp) as Hc.
    cbv zeta in Hc. fold (request_of system_prompt mdl temp cell) in Hc.
    change {| t_condition := cname; t_prompt := fst cell;
              t_run := snd cell |} with (trial_id cname cell).
    destruct (response_source env (trial_id cname cell)
                (request_of system_prompt mdl temp cell))
      as [response|e].
    - destruct (detect_pattern response) as [p_match p_text] eqn:Ep.
      destruct use_llm.
      + pose proof (detect_llm_emits env (trial_id cname cell) (fst cell)
                      response) as Hd.
        destruct (judge_service env (trial_id cname cell) (fst cell)
                    (get_opening response 200)) as [reply|e].
        * destruct (read_judge_reply env reply)
            as [[[[l_match l_text] l_cat] l_expl]|e].
          -- eexists _, _. split.
             ++ eapply emits_bind_ok; [exact Hc|]. cbv beta. rewrite Ep.
                eapply emits_bind_ok; [exact Hd|]. apply emits_ret.
             ++ split; reflexivity.
          -- eexists _, _. split.
             ++ eapply emits_bind_ok; [exact Hc|]. cbv beta. rewrite Ep.
                apply emits_bind_raise. exact Hd.
             ++ split; reflexivity.
        * eexists _, _. split.
          -- eapply emits_bind_ok; [exact Hc|]. cbv beta. rewrite Ep.
             apply emits_bind_raise. exact Hd.
          -- split; reflexivity.
      + eexists _, _. split.
        * eapply emits_bind_ok; [exact Hc|]. cbv beta. rewrite Ep.
          eapply emits_bind_ok; [apply emits_ret|]. apply emits_ret.
        * split; reflexivity.
    - eexists _, _. split.
      + apply emits_bind_raise. exact Hc.
      + split; [reflexivity|]. destruct use_llm; reflexivity. }
  destruct H as (evs & r & He & Ha & Hj).
  exists evs. split; [|auto].
  unfold outcome. now rewrite (He initial).
Qed.

(** The status line sends nothing. *)
Lemma print_status_quiet (r : DetectionResult) :
  exists evs res,
    emits (print_status r) evs res
    /\ api_calls evs = [] /\ judge_calls evs = []
    /\ (forall e, res = Raise e -> e = TypeError).
Proof.
  unfold print_status. destruct (truthy (has_quality_comment r)).
  - destruct (slice30 (py_or (matched_text r) (JStr "?"))) as [shown|e] eqn:E.
    + eexists _, _. split.
      * eapply emits_bind_ok; [apply emits_lift|apply emits_tell].
      * repeat split. discriminate.
    + eexists _, _. split.
      * apply emits_bind_raise. apply emits_lift.
      * repeat split. intros e' [= <-].
        unfold slice30 in E.
        destruct (py_or (matched_text r) (JStr "?")); congruence.
  - eexists _, _. split; [apply emits_tell|]. repeat split. discriminate.
Qed.

Lemma run_cell_calls env cname system_prompt mdl temp use_llm total_calls
      cell call_count st :
  exists evs,
    run_cell env cname system_prompt mdl temp use_llm total_calls
             (fst cell) (snd cell) call_count st
    = ({| trace := trace st ++ evs;
          store := store st
                   ++ match outcome env cname system_prompt mdl temp use_llm
                                    cell with
                      | Ok r => [r]
                      | Raise _ => []
                      end |},
       Ok (call_count + 1)%Z)
    /\ api_calls evs = [request_of system_prompt mdl temp cell]
    /\ judge_calls evs
       = judge_question env cname system_prompt mdl temp use_llm cell.
Proof.
  destruct (trial_calls env cname system_prompt mdl temp use_llm cell)
    as (evs & He & Ha & Hj).
  unfold run_cell, bind, try_except.
  unfold tell at 1. cbn [trace store].
  rewrite He. cbn [trace store].
  destruct (outcome env cname system_prompt mdl temp use_llm cell) as [r|e].
  - unfold append_result. cbn [trace store].
    destruct (print_status_quiet r) as (evs' & res & Hp & Ha' & Hj' & _).
    rewrite Hp. cbn [trace store].
    destruct res as [[]|e].
    + exists ([EvProgress (call_count + 1) total_calls] ++ evs ++ evs').
      unfold ret. split; [|split].
      * rewrite <- !app_assoc. reflexivity.
      * rewrite !api_calls_app, Ha, Ha'. reflexivity.
      * rewrite !judge_calls_app, Hj, Hj'. cbn. now rewrite app_nil_r.
    + exists ([EvProgress (call_count + 1) total_calls]
              ++ evs ++ evs' ++ [EvError e]).
      unfold tell, ret. cbn [trace store]. split; [|split].
      * rewrite <- !app_assoc. reflexivity.
      * rewrite !api_calls_app, Ha, Ha'. reflexivity.
      * rewrite !judge_calls_app, Hj, Hj'. cbn. now rewrite app_nil_r.
  - exists ([EvProgress (call_count + 1) total_calls] ++ evs ++ [EvError e]).
    unfold tell, ret. cbn [trace store]. split; [|split].
    + rewrite <- !app_assoc, app_nil_r. reflexivity.
    + rewrite !api_calls_app, Ha. reflexivity.
    + rewrite !judge_calls_app, Hj. cbn. now rewrite app_nil_r.
Qed.

Lemma run_cells_calls env cname system_prompt mdl temp use_llm total_calls
      (cells : list (string * nat)) (call_count : Z) (st : St) :
  exists evs,
    for_each cells
      (fun cell => run_cell env cname system_prompt mdl temp use_llm
                            total_calls (fst cell) (snd cell))
      call_count st
    = ({| trace := trace st ++ evs;
          store := store st
                   ++ completed env cname system_prompt mdl temp use_llm
                                cells |},
       Ok (call_count + Z.of_nat (List.length cells))%Z)
    /\ api_calls evs = map (request_of system_prompt mdl temp) cells
    /\ judge_calls evs
       = flat_map (judge_question env cname system_prompt mdl temp use_llm)
                  cells.
Proof.
  revert call_count st; induction cells as [|cell cells IH]; intros cc st.
  - exists []. cbn [for_each completed List.length map flat_map]. unfold ret.
    rewrite !app_nil_r, Z.add_0_r. destruct st; auto.
  - cbn [for_each]. unfold bind.
    destruct (run_cell_calls env cname system_prompt mdl temp use_llm
                total_calls cell cc st) as (evs1 & E1 & A1 & J1).
    rewrite E1.
    match goal with
    | |- context [for_each cells ?b ?c ?s] =>
        destruct (IH c s) as (evs2 & E2 & A2 & J2)
    end.
    rewrite E2. cbn [trace store]. exists (evs1 ++ evs2).
    split; [|split].
    + cbn [completed flat_map List.length]. f_equal.
      * f_equal; rewrite <- app_assoc; reflexivity.
      * f_equal. lia.
    + rewrite api_calls_app, A1, A2. reflexivity.
    + rewrite judge_calls_app, J1, J2. reflexivity.
Qed.

(** Where every field of a record comes from. *)
Lemma outcome_fields env cname system_prompt mdl temp use_llm cell r :
  outcome env cname system_prompt mdl temp use_llm cell = Ok r ->
  response_source env (trial_id cname cell)
                  (request_of system_prompt mdl temp cell)
  = Ok (response_text r)
  /\ prompt r = fst cell
  /\ response_opening r = get_opening (response_text r) 200
  /\ (pattern_match r, pattern_matched_text r)
     = detect_pattern (response_text r)
  /\ if use_llm
     then exists reply,
         judge_service env (trial_id cname cell) (fst cell)
                       (get_opening (response_text r) 200) = Ok reply
         /\ read_judge_reply env reply
            = Ok (llm_match r, llm_matched_text r, llm_category r,
                  llm_explanation r)
     else (llm_match r, llm_matched_text r, llm_category r,
           llm_explanation r) = non_match.
Proof.
  unfold outcome, trial, call_api.
  change {| t_condition := cname; t_prompt := fst cell; t_run := snd cell |}
    with (trial_id cname cell).
  fold (request_of system_prompt mdl temp cell).
  unfold bind at 1 2. unfold tell at 1, lift at 1.
  cbn [trace store initial app].
  destruct (response_source env (trial_id cname cell)
              (request_of system_prompt mdl temp cell))
    as [response|e]; [|discriminate].
  destruct (detect_pattern response) as [p_match p_text] eqn:Ep.
  destruct use_llm.
  - unfold detect_llm, bind, tell, lift, ret. cbn [trace store].
    destruct (judge_service env (trial_id cname cell) (fst cell)
                (get_opening response 200)) as [reply|e] eqn:Ej;
      [|discriminate].
    destruct (read_judge_reply env reply)
      as [[[[l_match l_text] l_cat] l_expl]|e] eqn:Er; [|discriminate].
    intros [= <-].
    cbn [prompt response_text response_opening pattern_match
         pattern_matched_text llm_match llm_matched_text llm_category
         llm_explanation].
    rewrite Ep. repeat split. eauto.
  - unfold bind, ret, non_match. cbn [trace store].
    intros [= <-].
    cbn [prompt response_text response_opening pattern_match
         pattern_matched_text llm_match llm_matched_text llm_category
         llm_explanation].
    rewrite Ep. repeat split.
Qed.

Lemma completed_forall env cname system_prompt mdl temp use_llm
      (P : DetectionResult -> Prop) cells :
  (forall cell r, In cell cells ->
     outcome env cname system_prompt mdl temp use_llm cell = Ok r -> P r) ->
  Forall P (completed env cname system_prompt mdl temp use_llm cells).
Proof.
  intros H. unfold completed. apply Forall_flat_map.
  apply Forall_forall. intros cell Hin.
  destruct (outcome env cname system_prompt mdl temp use_llm cell) as [r|e]
    eqn:E; [|constructor].
  constructor; [|constructor]. eapply H; eauto.
Qed.

Lemma matrix_prompt corpus runs cell :
  In cell (matrix corpus runs) -> In (fst cell) corpus.
Proof.
  unfold matrix. intros H. apply in_flat_map in H.
  destruct H as (p & Hp & H). apply in_map_iff in H.
  destruct H as (run & <- & _). exact Hp.
Qed.

(** What [run_condition] sends once the instruction text is loaded. *)
Lemma run_condition_calls env cname sp_name mdl temp runs use_llm
      system_prompt st :
  load_system_prompt env sp_name = Ok system_prompt ->
  exists st' evs,
    run_condition env cname sp_name mdl temp runs use_llm st
    = (st', Ok {| condition_name := cname;
                  system_prompt_name := sp_name;
                  results := completed env cname system_prompt mdl temp
                                       use_llm (matrix TEST_PROMPTS runs) |})
    /\ trace st' = trace st ++ evs
    /\ api_calls evs
       = map (request_of system_prompt mdl temp) (matrix TEST_PROMPTS runs)
    /\ judge_calls evs
       = flat_map (judge_question env cname system_prompt mdl temp use_llm)
                  (matrix TEST_PROMPTS runs).
Proof.
  intros Hload. unfold run_condition. rewrite Hload.
  unfold bind at 1. unfold lift at 1.
  unfold bind at 1. unfold new_results at 1.
  unfold bind at 1. unfold tell at 1. cbn [trace store].
  unfold bind at 1. unfold run_matrix.
  rewrite for_each_nested.
  match goal with
  | |- context [for_each ?cells ?b ?c ?s] =>
      destruct (run_cells_calls env cname system_prompt mdl temp use_llm
                  (Z.of_nat (List.length TEST_PROMPTS) * runs)%Z
                  cells c s) as (evs & E & A & J)
  end.
  fold (matrix TEST_PROMPTS runs) in *.
  rewrite E. cbn [trace store app].
  unfold bind at 1. unfold get_results at 1. cbn [trace store].
  match goal with
  | |- context [quality_comment_rate ?res] =>
      destruct (quality_comment_rate_ok res) as [rate Hrate];
      rewrite Hrate
  end.
  unfold bind, lift, tell, ret. cbn [trace store].
  match goal with
  | |- context [(trace st ++ [?b]) ++ evs] =>
      match goal with
      | |- context [_ ++ [?ev]] =>
          eexists _, ([b] ++ evs ++ [ev])
      end
  end.
  split; [reflexivity|]. split; [|split].
  - cbn [trace app]. rewrite <- !app_assoc. reflexivity.
  - rewrite !api_calls_app, A. cbn. now rewrite app_nil_r.
  - rewrite !judge_calls_app, J. cbn. now rewrite app_nil_r.
Qed.

Lemma map_pair_fst (p : string) (l : list nat) :
  map fst (map (pair p) l) = repeat p (List.length l).
Proof. induction l as [|x l IH]; cbn; [reflexivity|now rewrite IH]. Qed.

Lemma matrix_prompts (corpus : list string) (runs : Z) :
  map fst (matrix corpus runs)
  = flat_map (fun p => repeat p (Z.to_nat runs)) corpus.
Proof.
  unfold matrix, range. induction corpus as [|p ps IH]; [reflexivity|].
  cbn [flat_map]. rewrite map_app, IH, map_pair_fst, length_seq.
  reflexivity.
Qed.

(** The requests of a condition go out in matrix order: prompts in corpus
    order, each [runs_per_prompt] times in a row, every request with the
    instruction text of the condition, the model and the temperature of
    the experiment; a failed cell does not change what is asked next. *)
Theorem requests_in_matrix_order
        (env : Env) (cname sp_name mdl : string) (temp : Q) (runs : Z)
        (use_llm : bool) (system_prompt : string) (st : St)
        (Hload : load_system_prompt env sp_name = Ok system_prompt) :
  exists st' res evs,
    run_condition env cname sp_name mdl temp runs use_llm st = (st', Ok res)
    /\ trace st' = trace st ++ evs
    /\ api_calls evs
       = map (request_of system_prompt mdl temp) (matrix TEST_PROMPTS runs)
    /\ map req_prompt (api_calls evs)
       = flat_map (fun p => repeat p (Z.to_nat runs)) TEST_PROMPTS.
Proof.
  destruct (run_condition_calls env cname sp_name mdl temp runs use_llm
              system_prompt st Hload) as (st' & evs & E & T & A & _).
  eexists st', _, evs. split; [exact E|]. split; [exact T|].
  split; [exact A|].
  rewrite A, map_map. cbn [request_of req_prompt]. apply matrix_prompts.
Qed.

(** An instance: the baseline of the sample with two runs per prompt. *)
Lemma requests_in_matrix_order_witness :
  exists st' res evs,
    run_condition Sample.env "baseline" "claude_system_prompt"
                  "claude-sonnet-4-5-20250929" 0.7%Q 2%Z true initial
    = (st', Ok res)
    /\ List.length (api_calls evs) = 20
    /\ map req_system (api_calls evs) = repeat "You are Claude." 20.
Proof.
  destruct (requests_in_matrix_order Sample.env "baseline"
              "claude_system_prompt" "claude-sonnet-4-5-20250929" 0.7%Q 2%Z
              true "You are Claude." initial eq_refl)
    as (st' & res & evs & E & _ & A & _).
  exists st', res, evs. split; [exact E|]. rewrite A. split; reflexivity.
Defined.

Lemma judge_question_short env cname system_prompt mdl temp use_llm cell :
  Forall (fun q => fst q = fst cell /\ String.length (snd q) <= 200)
         (judge_question env cname system_prompt mdl temp use_llm cell).
Proof.
  unfold judge_question. destruct use_llm; [|constructor].
  destruct (response_source env (trial_id cname cell)
              (request_of system_prompt mdl temp cell)); constructor.
  - cbn [fst snd]. split; [reflexivity|].
    unfold get_opening. rewrite take_length. lia.
  - constructor.
Qed.

(** The judge is asked once for every cell that the Response Source
    answered, in matrix order, and never for a cell on which it failed;
    what the judge is shown of a response is its first 200 characters at
    most, together with a prompt of the corpus. *)
Theorem judge_sees_openings
        (env : Env) (cname sp_name mdl : string) (temp : Q) (runs : Z)
        (system_prompt : string) (st : St)
        (Hload : load_system_prompt env sp_name = Ok system_prompt) :
  exists st' res evs,
    run_condition env cname sp_name mdl temp runs true st = (st', Ok res)
    /\ trace st' = trace st ++ evs
    /\ judge_calls evs
       = flat_map
           (fun cell =>
              match response_source env (trial_id cname cell)
                      (request_of system_prompt mdl temp cell) with
              | Ok response => [(fst cell, Py.take 200 response)]
              | Raise _ => []
              end) (matrix TEST_PROMPTS runs)
    /\ Forall (fun q => In (fst q) TEST_PROMPTS
                        /\ String.length (snd q) <= 200)
              (judge_calls evs).
Proof.
  destruct (run_condition_calls env cname sp_name mdl temp runs true
              system_prompt st Hload) as (st' & evs & E & T & _ & J).
  eexists st', _, evs. split; [exact E|]. split; [exact T|].
  split; [exact J|].
  rewrite J. apply Forall_flat_map. apply Forall_forall. intros cell Hin.
  eapply Forall_impl;
    [|apply (judge_question_short env cname system_prompt mdl temp true cell)].
  intros q [Hp Hl]. split; [|exact Hl].
  rewrite Hp. eapply matrix_prompt; eauto.
Qed.

(** An instance: in the baseline of the sample the Response Source fails on
    one of ten cells, so the judge is asked nine times. *)
Lemma judge_sees_openings_witness :
  exists st' res evs,
    run_condition Sample.env "baseline" "claude_system_prompt"
                  "claude-sonnet-4-5-20250929" 0.7%Q 1%Z true initial
    = (st', Ok res)
    /\ List.length (judge_calls evs) = 9.
Proof.
  destruct (judge_sees_openings Sample.env "baseline"
              "claude_system_prompt" "claude-sonnet-4-5-20250929" 0.7%Q 1%Z
              "You are Claude." initial eq_refl)
    as (st' & res & evs & E & _ & J & _).
  exists st', res, evs. split; [exact E|]. rewrite J.
  vm_compute. reflexivity.
Defined.

(** ** Orchestrator: the records it builds *)

Lemma count_if_ext (f g : DetectionResult -> bool) rs :
  Forall (fun r => f r = g r) rs -> count_if f rs = count_if g rs.
Proof.
  induction 1 as [|r rs Hr _ IH]; cbn [count_if]; [reflexivity|].
  now rewrite Hr, IH.
Qed.

Lemma count_if_none (f : DetectionResult -> bool) rs :
  Forall (fun r => f r = false) rs -> count_if f rs = 0.
Proof.
  induction 1 as [|r rs Hr _ IH]; cbn [count_if]; [reflexivity|].
  now rewrite Hr, IH.
Qed.

(** With LLM detection switched off ([--no-llm]) the judge is never asked,
    every record carries the defaults in its [llm_*] fields, and the
    figures of the condition are those of the pattern channel alone: no LLM
    match, and as many flagged trials as pattern matches. *)
Theorem pattern_only_mode
        (env : Env) (cname sp_name mdl : string) (temp : Q) (runs : Z)
        (system_prompt : string) (st : St)
        (Hload : load_system_prompt env sp_name = Ok system_prompt) :
  exists st' res evs,
    run_condition env cname sp_name mdl temp runs false st = (st', Ok res)
    /\ trace st' = trace st ++ evs
    /\ judge_calls evs = []
    /\ Forall (fun r => llm_match r = JBool false
                        /\ llm_matched_text r = JNull
                        /\ llm_category r = JNull
                        /\ llm_explanation r = JNull
                        /\ has_quality_comment r = JBool (pattern_match r))
              (results res)
    /\ llm_match_count res = 0
    /\ quality_comment_count res = pattern_match_count res.
Proof.
  destruct (run_condition_calls env cname sp_name mdl temp runs false
              system_prompt st Hload) as (st' & evs & E & T & _ & J).
  eexists st', _, evs. split; [exact E|]. split; [exact T|].
  assert (F : Forall (fun r => llm_match r = JBool false
                               /\ llm_matched_text r = JNull
                               /\ llm_category r = JNull
                               /\ llm_explanation r = JNull
                               /\ has_quality_comment r
                                  = JBool (pattern_match r))
                (completed env cname system_prompt mdl temp false
                           (matrix TEST_PROMPTS runs))).
  { apply completed_forall. intros cell r _ Hout.
    apply outcome_fields in Hout.
    destruct Hout as (_ & _ & _ & _ & Hllm).
    unfold non_match in Hllm. injection Hllm as H1 H2 H3 H4.
    repeat (split; [assumption|]). unfold has_quality_comment, py_or.
    rewrite H1. cbn [truthy]. now destruct (pattern_match r). }
  split; [|split; [exact F|split]].
  - rewrite J. clear. generalize (matrix TEST_PROMPTS runs) as cells.
    intros cells. induction cells as [|c l IH]; [reflexivity|exact IH].
  - unfold llm_match_count. cbn [results]. apply count_if_none.
    eapply Forall_impl; [|exact F]. intros r (-> & _). reflexivity.
  - unfold quality_comment_count, pattern_match_count. cbn [results].
    apply count_if_ext. eapply Forall_impl; [|exact F].
    intros r (_ & _ & _ & _ & ->). reflexivity.
Qed.

(** An instance: the baseline of the sample without the judge. *)
Lemma pattern_only_mode_witness :
  exists st' res evs,
    run_condition Sample.env "baseline" "claude_system_prompt"
                  "claude-sonnet-4-5-20250929" 0.7%Q 1%Z false initial
    = (st', Ok res)
    /\ judge_calls evs = []
    /\ quality_comment_count res = pattern_match_count res.
Proof.
  destruct (pattern_only_mode Sample.env "baseline" "claude_system_prompt"
              "claude-sonnet-4-5-20250929" 0.7%Q 1%Z "You are Claude."
              initial eq_refl)
    as (st' & res & evs & E & _ & J & _ & _ & Q).
  exists st', res, evs. auto.
Defined.

Lemma detect_pattern_agree (response : string) :
  fst (detect_pattern response) = true
  <-> snd (detect_pattern response) <> None.
Proof.
  unfold detect_pattern.
  pose proof (first_match_shape QUESTION_QUALITY_PATTERNS
                (Py.take 300 response) patterns_anchored patterns_consume)
    as H.
  destruct (first_match QUESTION_QUALITY_PATTERNS (Py.take 300 response))
    as [[|] [m|]]; cbn [fst snd]; try contradiction;
    split; congruence.
Qed.

(** Every record of a condition holds a prompt of the corpus, the first
    200 characters of its response as the opening, and the pattern fields
    that [detect_pattern] gives on the stored response; the pattern flag
    is set exactly when a pattern text is stored, and a record with the
    pattern flag set counts as flagged. *)
Theorem record_invariants
        (env : Env) (cname sp_name mdl : string) (temp : Q) (runs : Z)
        (use_llm : bool) (system_prompt : string) (st : St)
        (Hload : load_system_prompt env sp_name = Ok system_prompt) :
  exists st' res,
    run_condition env cname sp_name mdl temp runs use_llm st = (st', Ok res)
    /\ Forall (fun r =>
                 In (prompt r) TEST_PROMPTS
                 /\ response_opening r = Py.take 200 (response_text r)
                 /\ (pattern_match r, pattern_matched_text r)
                    = detect_pattern (response_text r)
                 /\ (pattern_match r = true <-> pattern_matched_text r <> None)
                 /\ (pattern_match r = true ->
                     truthy (has_quality_comment r) = true))
              (results res).
Proof.
  destruct (run_condition_calls env cname sp_name mdl temp runs use_llm
              system_prompt st Hload) as (st' & evs & E & _).
  eexists st', _. split; [exact E|]. cbn [results].
  apply completed_forall. intros cell r Hin Hout.
  apply outcome_fields in Hout.
  destruct Hout as (_ & Hp & Ho & Hpat & _).
  split; [rewrite Hp; eapply matrix_prompt; eauto|].
  split; [exact Ho|]. split; [exact Hpat|]. split.
  - pose proof (detect_pattern_agree (response_text r)) as H.
    rewrite <- Hpat in H. exact H.
  - intros Hm. unfold has_quality_comment, py_or.
    rewrite Hm. reflexivity.
Qed.

(** An instance: the baseline of the sample. *)
Lemma record_invariants_witness :
  exists st' res,
    run_condition Sample.env "baseline" "claude_system_prompt"
                  "claude-sonnet-4-5-20250929" 0.7%Q 1%Z true initial
    = (st', Ok res)
    /\ Forall (fun r => response_opening r = Py.take 200 (response_text r))
              (results res).
Proof.
  destruct (record_invariants Sample.env "baseline" "claude_system_prompt"
              "claude-sonnet-4-5-20250929" 0.7%Q 1%Z true "You are Claude."
              initial eq_refl) as (st' & res & E & F).
  exists st', res. split; [exact E|].
  eapply Forall_impl; [|exact F]. intros r (_ & H & _). exact H.
Defined.

(** ** Orchestrator: judgments that are not objects, texts that cannot be
    shown *)

(** When the judge's reply is JSON but not an object (a list, a number, a
    string, [null], ...), the trial raises [AttributeError] and the cell is
    skipped: the response and its pattern result are not recorded, unlike
    a reply that is not JSON at all, which is recorded as a non-match. *)
Theorem non_object_judgment_skips_cell
        (env : Env) (cname system_prompt mdl : string) (temp : Q)
        (cell : string * nat) (response reply : string) (v : json)
        (before after : list (string * nat))
        (Hapi : response_source env (trial_id cname cell)
                  (request_of system_prompt mdl temp cell) = Ok response)
        (Hjudge : judge_service env (trial_id cname cell) (fst cell)
                    (get_opening response 200) = Ok reply)
        (Hparse : json_loads env (strip_code_fences (Py.strip reply))
                  = Some v)
        (Hv : forall fields, v <> JObj fields) :
  outcome env cname system_prompt mdl temp true cell = Raise AttributeError
  /\ completed env cname system_prompt mdl temp true
               (before ++ cell :: after)
     = completed env cname system_prompt mdl temp true before
       ++ completed env cname system_prompt mdl temp true after.
Proof.
  assert (Hout : outcome env cname system_prompt mdl temp true cell
                 = Raise AttributeError).
  { unfold outcome, trial, call_api.
    change {| t_condition := cname; t_prompt := fst cell;
              t_run := snd cell |} with (trial_id cname cell).
    fold (request_of system_prompt mdl temp cell).
    unfold bind at 1 2. unfold tell at 1, lift at 1.
    cbn [trace store initial app]. rewrite Hapi.
    destruct (detect_pattern response) as [p_match p_text].
    unfold detect_llm, bind, tell, lift. cbn [trace store].
    rewrite Hjudge. unfold read_judge_reply, parse_judgment. rewrite Hparse.
    destruct v; try reflexivity. now destruct (Hv fields). }
  split; [exact Hout|]. eapply completed_skips. exact Hout.
Qed.

(** An instance: the judge answers the first prompt with an empty list. *)
Lemma non_object_judgment_skips_cell_witness :
  outcome Odd.env "baseline" "You are Claude." "claude-sonnet-4-5-20250929"
          0.7%Q true (nth 0 TEST_PROMPTS "", 0)
  = Raise AttributeError
  /\ completed Odd.env "baseline" "You are Claude."
               "claude-sonnet-4-5-20250929" 0.7%Q true
               ([] ++ (nth 0 TEST_PROMPTS "", 0) :: [])
     = [].
Proof.
  apply (non_object_judgment_skips_cell Odd.env "baseline" "You are Claude."
           "claude-sonnet-4-5-20250929" 0.7%Q (nth 0 TEST_PROMPTS "", 0)
           "Here is how it works." "[]" (JArr []) [] []).
  - reflexivity.
  - reflexivity.
  - reflexivity.
  - discriminate.
Defined.

(** When the matched text of a flagged record is a number other than 0
    (the judge gave a number as the detected phrase and no pattern
    matched), the status line cannot be built: slicing the number raises
    [TypeError]. The record has already been appended by then, so the cell
    prints an [ERROR] line and is recorded all the same. An [ERROR] line
    therefore does not always mean a skipped cell. *)
Theorem status_error_keeps_record
        (env : Env) (cname system_prompt mdl : string) (temp : Q)
        (use_llm : bool) (total_calls : Z) (cell : string * nat)
        (r : DetectionResult) (call_count : Z) (st : St) (q : Q)
        (Hout : outcome env cname system_prompt mdl temp use_llm cell = Ok r)
        (Hflag : truthy (has_quality_comment r) = true)
        (Htext : matched_text r = JNum q)
        (Hq : ~ (q == 0)%Q) :
  exists evs,
    run_cell env cname system_prompt mdl temp use_llm total_calls
             (fst cell) (snd cell) call_count st
    = ({| trace := trace st ++ evs; store := store st ++ [r] |},
       Ok (call_count + 1)%Z)
    /\ error_lines evs = [TypeError].
Proof.
  destruct (trial_shape env cname system_prompt mdl temp use_llm
                        (fst cell) (snd cell)) as (evs & He & _ & Herr).
  replace (fst cell, snd cell) with cell in He by now destruct cell.
  unfold run_cell, bind, try_except.
  unfold tell at 1. cbn [trace store].
  rewrite He, Hout. cbn [trace store].
  unfold append_result. cbn [trace store].
  assert (Hbad : slice30 (py_or (matched_text r) (JStr "?"))
                 = Raise TypeError).
  { rewrite Htext. unfold py_or. cbn [truthy].
    destruct (Qeq_bool q 0) eqn:E; [|reflexivity].
    apply Qeq_bool_iff in E. contradiction. }
  unfold print_status. rewrite Hflag.
  unfold bind, lift, tell, ret. rewrite Hbad. cbn [trace store].
  exists ([EvProgress (call_count + 1) total_calls] ++ evs ++ [EvError TypeError]).
  split.
  - rewrite <- !app_assoc. reflexivity.
  - rewrite !error_lines_app, Herr. reflexivity.
Qed.

(** An instance: the judge gives the number 42 as the detected phrase. *)
Lemma status_error_keeps_record_witness :
  exists evs,
    run_cell Odd.env "baseline" "You are Claude."
             "claude-sonnet-4-5-20250929" 0.7%Q true 10%Z
             (nth 1 TEST_PROMPTS "") 0 1%Z initial
    = ({| trace := [] ++ evs; store := [] ++ [Odd.number_record] |}, Ok 2%Z)
    /\ error_lines evs = [TypeError].
Proof.
  apply (status_error_keeps_record Odd.env "baseline" "You are Claude."
           "claude-sonnet-4-5-20250929" 0.7%Q true 10%Z
           (nth 1 TEST_PROMPTS "", 0) Odd.number_record 1%Z initial 42%Q).
  - vm_compute. reflexivity.
  - reflexivity.
  - reflexivity.
  - intros H. vm_compute in H. discriminate H.
Defined.

(** ** Orchestrator: the records of one prompt *)

Lemma corpus_distinct : NoDup TEST_PROMPTS.
Proof.
  unfold TEST_PROMPTS.
  repeat (constructor; [cbn [In]; intuition discriminate|]).
  constructor.
Qed.

Lemma completed_matrix env cname system_prompt mdl temp use_llm corpus runs :
  completed env cname system_prompt mdl temp use_llm (matrix corpus runs)
  = flat_map (fun p => completed env cname system_prompt mdl temp use_llm
                                 (prompt_cells p runs)) corpus.
Proof.
  unfold matrix. induction corpus as [|p corpus IH]; [reflexivity|].
  cbn [flat_map]. rewrite completed_app, IH. reflexivity.
Qed.

Lemma completed_same_prompt env cname system_prompt mdl temp use_llm p runs :
  Forall (fun r => prompt r = p)
         (completed env cname system_prompt mdl temp use_llm
                    (prompt_cells p runs)).
Proof.
  apply completed_forall. intros cell r Hin Hout.
  apply outcome_fields in Hout. destruct Hout as (_ & -> & _).
  unfold prompt_cells in Hin. apply in_map_iff in Hin.
  destruct Hin as (run & <- & _). reflexivity.
Qed.

Lemma records_of_same rs p :
  Forall (fun r => prompt r = p) rs -> records_of rs p = rs.
Proof.
  unfold records_of. induction 1 as [|r rs Hr _ IH]; [reflexivity|].
  cbn [filter]. rewrite Hr, String.eqb_refl, IH. reflexivity.
Qed.

Lemma records_of_other rs p q :
  p <> q -> Forall (fun r => prompt r = q) rs -> records_of rs p = [].
Proof.
  unfold records_of. intros Hpq. induction 1 as [|r rs Hr _ IH]; [reflexivity|].
  cbn [filter]. rewrite Hr.
  destruct (String.eqb_spec q p) as [->|_]; [contradiction|exact IH].
Qed.

Lemma records_of_app rs1 rs2 p :
  records_of (rs1 ++ rs2) p = records_of rs1 p ++ records_of rs2 p.
Proof. unfold records_of. apply filter_app. Qed.

Lemma records_of_absent env cname system_prompt mdl temp use_llm
      corpus runs p :
  ~ In p corpus ->
  records_of (completed env cname system_prompt mdl temp use_llm
                        (matrix corpus runs)) p = [].
Proof.
  rewrite completed_matrix.
  induction corpus as [|q corpus IH]; intros Hp; [reflexivity|].
  cbn [flat_map]. rewrite records_of_app, IH.
  - rewrite (records_of_other _ p q); [reflexivity| |].
    + intros ->. apply Hp. now left.
    + apply completed_same_prompt.
  - intros H. apply Hp. now right.
Qed.

Lemma records_of_completed env cname system_prompt mdl temp use_llm
      corpus runs p :
  NoDup corpus -> In p corpus ->
  records_of (completed env cname system_prompt mdl temp use_llm
                        (matrix corpus runs)) p
  = completed env cname system_prompt mdl temp use_llm (prompt_cells p runs).
Proof.
  induction 1 as [|q corpus Hq Hnd IH]; intros Hin; [destruct Hin|].
  change (matrix (q :: corpus) runs)
    with (prompt_cells q runs ++ matrix corpus runs).
  rewrite completed_app, records_of_app.
  destruct (String.eqb_spec q p) as [->|Hqp].
  - rewrite records_of_absent by exact Hq.
    rewrite records_of_same by apply completed_same_prompt.
    apply app_nil_r.
  - destruct Hin as [->|Hin]; [contradiction|].
    rewrite (records_of_other _ p q);
      [exact (IH Hin)|congruence|apply completed_same_prompt].
Qed.

Lemma prompt_cells_length p runs :
  List.length (prompt_cells p runs) = Z.to_nat runs.
Proof. unfold prompt_cells, range. now rewrite length_map, length_seq. Qed.

(** The records of a condition that carry a prompt of the corpus are the
    completed runs of that prompt, in run order: their number and the
    number of failed runs of the prompt add up to [runs_per_prompt], so a
    prompt never has more records than runs. A text that is not a prompt
    of the corpus has no record. *)
Theorem records_grouped_by_prompt
        (env : Env) (cname sp_name mdl : string) (temp : Q) (runs : Z)
        (use_llm : bool) (system_prompt : string) (st : St)
        (Hload : load_system_prompt env sp_name = Ok system_prompt) :
  exists st' res,
    run_condition env cname sp_name mdl temp runs use_llm st = (st', Ok res)
    /\ forall p,
        (In p TEST_PROMPTS ->
         records_of (results res) p
         = completed env cname system_prompt mdl temp use_llm
                     (prompt_cells p runs)
         /\ List.length (records_of (results res) p)
            + failed env cname system_prompt mdl temp use_llm
                     (prompt_cells p runs)
            = Z.to_nat runs)
        /\ (~ In p TEST_PROMPTS -> records_of (results res) p = []).
Proof.
  destruct (run_condition_calls env cname sp_name mdl temp runs use_llm
              system_prompt st Hload) as (st' & evs & E & _).
  eexists st', _. split; [exact E|]. cbn [results]. intros p. split.
  - intros Hin.
    rewrite (records_of_completed _ _ _ _ _ _ _ _ _ corpus_distinct Hin).
    split; [reflexivity|].
    rewrite completed_failed_length. apply prompt_cells_length.
  - apply records_of_absent.
Qed.

(** An instance: the baseline of the sample, one run per prompt. *)
Lemma records_grouped_by_prompt_witness :
  exists st' res,
    run_condition Sample.env "baseline" "claude_system_prompt"
                  "claude-sonnet-4-5-20250929" 0.7%Q 1%Z true initial
    = (st', Ok res)
    /\ List.length (records_of (results res) (nth 3 TEST_PROMPTS "")) = 0
    /\ List.length (records_of (results res) (nth 2 TEST_PROMPTS "")) = 1.
Proof.
  destruct (records_grouped_by_prompt Sample.env "baseline"
              "claude_system_prompt" "claude-sonnet-4-5-20250929" 0.7%Q 1%Z
              true "You are Claude." initial eq_refl) as (st' & res & E & H).
  exists st', res. split; [exact E|]. split.
  - destruct (H (nth 3 TEST_PROMPTS "")) as [H3 _].
    destruct H3 as [-> _]; [cbn; tauto|]. reflexivity.
  - destruct (H (nth 2 TEST_PROMPTS "")) as [H2 _].
    destruct H2 as [-> _]; [cbn; tauto|]. reflexivity.
Defined.

(** ** The experiment: one entry per condition *)

Lemma keys_dict_set_new {V : Type} (d : list (string * V)) k v :
  ~ In k (keys d) -> keys (dict_set d k v) = keys d ++ [k].
Proof.
  unfold keys. induction d as [|[k' v'] d IH]; intros Hk; [reflexivity|].
  cbn [dict_set map fst app] in *.
  destruct (String.eqb_spec k' k) as [->|_].
  - exfalso. apply Hk. now left.
  - cbn [map fst]. rewrite IH; [reflexivity|]. intros H. apply Hk. now right.
Qed.

Lemma keys_record_all env mdl temp runs use_llm conds :
  forall d,
    NoDup (keys d ++ map fst conds) ->
    keys (record_all env mdl temp runs use_llm d conds)
    = keys d ++ map fst conds.
Proof.
  induction conds as [|[n s] conds IH]; intros d Hnd.
  - cbn. now rewrite app_nil_r.
  - rewrite record_all_cons. cbn [map fst] in *.
    assert (Hn : ~ In n (keys d)).
    { intros H. apply NoDup_remove_2 in Hnd. apply Hnd.
      apply in_or_app. now left. }
    rewrite IH; rewrite keys_dict_set_new by exact Hn;
      rewrite <- app_assoc; [reflexivity|exact Hnd].
Qed.

(** When the conditions have distinct names and every instruction text
    loads, [run_experiment] returns an experiment that carries the
    settings it was given and one entry per condition, in the order the
    conditions were given; the entry of a condition holds its name, its
    reference, and the records of its completed trials. *)
Theorem experiment_has_every_condition
        (env : Env) (now : string) (conds : list (string * string))
        (mdl : string) (temp : Q) (runs : Z) (use_llm : bool)
        (Hnd : NoDup (map fst conds))
        (Hload : forall name sp_name, In (name, sp_name) conds ->
                   exists system_prompt,
                     load_system_prompt env sp_name = Ok system_prompt) :
  exists st' x,
    run_experiment env now conds mdl temp runs use_llm initial = (st', Ok x)
    /\ timestamp x = now /\ model x = mdl /\ temperature x = temp
    /\ runs_per_prompt x = runs
    /\ keys (conditions x) = map fst conds
    /\ forall name sp_name, In (name, sp_name) conds ->
         exists system_prompt,
           load_system_prompt env sp_name = Ok system_prompt
           /\ lookup (conditions x) name
              = Some {| condition_name := name;
                        system_prompt_name := sp_name;
                        results :=
                          completed env name system_prompt mdl temp use_llm
                                    (matrix TEST_PROMPTS runs) |}.
Proof.
  unfold run_experiment. unfold bind at 1. unfold tell at 1.
  cbn [trace store initial app].
  match goal with
  | |- context [run_conditions _ _ _ _ _ _ ?x0 ?st0] =>
      destruct (run_conditions_spec env mdl temp runs use_llm conds x0 st0
                  Hload) as (st' & evs & E & _)
  end.
  cbn [timestamp model temperature runs_per_prompt conditions] in E.
  eexists st', _. split; [exact E|].
  cbn [timestamp model temperature runs_per_prompt conditions].
  repeat (split; [reflexivity|]). split.
  - apply (keys_record_all env mdl temp runs use_llm conds []). exact Hnd.
  - intros name sp_name Hin.
    destruct (Hload name sp_name Hin) as (system_prompt & Hsp).
    exists system_prompt. split; [exact Hsp|].
    rewrite (lookup_record_all env mdl temp runs use_llm [] conds name sp_name
               Hnd Hin).
    unfold condition_record. rewrite Hsp. reflexivity.
Qed.

(** An instance: the two conditions of the sample. *)
Lemma experiment_has_every_condition_witness :
  exists st' x,
    run_experiment Sample.env "2026-01-01T00:00:00" Sample.conditions_ok
                   "claude-sonnet-4-5-20250929" 0.7%Q 1%Z true initial
    = (st', Ok x)
    /\ keys (conditions x) = ["baseline"; "v2a_tone_only"].
Proof.
  destruct (experiment_has_every_condition Sample.env "2026-01-01T00:00:00"
              Sample.conditions_ok "claude-sonnet-4-5-20250929" 0.7%Q 1%Z
              true) as (st' & x & E & _ & _ & _ & _ & K & _).
  - repeat (constructor; [cbn [In map fst]; intuition discriminate|]).
    constructor.
  - intros name sp_name [[= <- <-]|[[= <- <-]|[]]]; eexists; reflexivity.
  - exists st', x. split; [exact E|exact K].
Defined.

(** ** The document: summary and rows agree *)

Lemma count_rows_map (f : DetailRow -> bool) rs :
  count_rows f (map detail_row rs) = count_if (fun r => f (detail_row r)) rs.
Proof.
  unfold count_rows. induction rs as [|r rs IH]; [reflexivity|].
  cbn [map filter count_if]. destruct (f (detail_row r)); cbn [List.length];
    rewrite IH; reflexivity.
Qed.

Lemma summary_of_rows conds :
  exists summary,
    summary_of conds = Ok summary
    /\ Forall2
         (fun entry rows =>
            fst entry = fst rows
            /\ s_total_runs (snd entry) = List.length (snd rows)
            /\ s_quality_comment_count (snd entry)
               = count_rows (fun r => truthy (d_has_quality_comment r))
                            (snd rows)
            /\ s_pattern_matches (snd entry)
               = count_rows d_pattern_match (snd rows)
            /\ s_llm_matches (snd entry)
               = count_rows (fun r => truthy (d_llm_match r)) (snd rows)
            /\ (s_quality_comment_rate (snd entry)
                == match List.length (snd rows) with
                   | O => 0
                   | S _ =>
                       Q_of_nat (s_quality_comment_count (snd entry))
                       / Q_of_nat (List.length (snd rows))
                   end)%Q)
         summary
         (map (fun nc => (fst nc, map detail_row (results (snd nc)))) conds).
Proof.
  induction conds as [|[name cond] conds (summary & E & F)].
  - exists []. split; [reflexivity|constructor].
  - cbn [summary_of map fst snd]. unfold summary_entry.
    destruct (quality_comment_rate_ok cond) as (rate & Hr).
    rewrite Hr, E. eexists. split; [reflexivity|].
    constructor; [|exact F].
    cbn [fst snd s_total_runs s_quality_comment_count s_pattern_matches
         s_llm_matches s_quality_comment_rate].
    rewrite length_map, !count_rows_map.
    repeat (split; [reflexivity|]).
    apply rate_value in Hr. exact Hr.
Qed.

(** [to_dict] never raises, whatever the experiment holds (also a
    condition without records). In the document the summary and the
    detailed results list the conditions of the experiment in the same
    order, and every summary entry can be recomputed from the rows of its
    condition: the total is the number of rows, the three counts are the
    numbers of rows with the flag set, and the rate is their quotient (0
    for no rows). *)
Theorem to_dict_summary_agrees_with_rows (x : ExperimentResults) :
  exists doc,
    to_dict x = Ok doc
    /\ o_runs_per_prompt doc = runs_per_prompt x
    /\ o_prompts doc = TEST_PROMPTS
    /\ keys (o_summary doc) = keys (conditions x)
    /\ keys (o_detailed_results doc) = keys (conditions x)
    /\ Forall2
         (fun entry rows =>
            fst entry = fst rows
            /\ s_total_runs (snd entry) = List.length (snd rows)
            /\ s_quality_comment_count (snd entry)
               = count_rows (fun r => truthy (d_has_quality_comment r))
                            (snd rows)
            /\ s_pattern_matches (snd entry)
               = count_rows d_pattern_match (snd rows)
            /\ s_llm_matches (snd entry)
               = count_rows (fun r => truthy (d_llm_match r)) (snd rows)
            /\ (s_quality_comment_rate (snd entry)
                == match List.length (snd rows) with
                   | O => 0
                   | S _ =>
                       Q_of_nat (s_quality_comment_count (snd entry))
                       / Q_of_nat (List.length (snd rows))
                   end)%Q)
         (o_summary doc) (o_detailed_results doc).
Proof.
  destruct (summary_of_rows (conditions x)) as (summary & E & F).
  unfold to_dict. rewrite E. eexists. split; [reflexivity|].
  cbn [o_runs_per_prompt o_prompts o_summary o_detailed_results].
  repeat (split; [reflexivity|]).
  assert (K : keys summary
              = keys (map (fun nc => (fst nc, map detail_row (results (snd nc))))
                          (conditions x))).
  { clear E. unfold keys. induction F as [|e r s d (H & _) _ IH];
      [reflexivity|]. cbn [map]. now rewrite H, IH. }
  assert (K' : keys (map (fun nc => (fst nc, map detail_row (results (snd nc))))
                         (conditions x)) = keys (conditions x)).
  { unfold keys. rewrite map_map. reflexivity. }
  split; [now rewrite K|]. split; [exact K'|exact F].
Qed.

(** ** Report: the order of the conditions *)

Section OrderFacts.

Import Report.

Lemma insert_by_rate_ascending x l :
  ascending l -> ascending (insert_by_rate x l).
Proof.
  induction l as [|y l IH]; intros Hl.
  - cbn. split; [constructor|exact I].
  - cbn [insert_by_rate]. destruct Hl as [Hy Hl].
    destruct (Qle_bool (rate_of x) (rate_of y)) eqn:E.
    + apply Qle_bool_iff in E. cbn [ascending]. split; [|split; assumption].
      constructor; [exact E|].
      eapply Forall_impl; [|exact Hy]. intros z Hz. cbn beta in Hz.
      eapply Qle_trans; eassumption.
    + assert (Hlt : (rate_of y <= rate_of x)%Q).
      { apply Qlt_le_weak, Qnot_le_lt. intros H.
        apply Qle_bool_iff in H. congruence. }
      cbn [ascending]. split; [|apply IH; exact Hl].
      eapply Permutation_Forall;
        [symmetry; apply insert_by_rate_perm|].
      constructor; assumption.
Qed.

Lemma sort_by_rate_ascending l : ascending (sort_by_rate l).
Proof.
  unfold sort_by_rate. induction l as [|x l IH]; [exact I|].
  cbn [fold_right]. apply insert_by_rate_ascending. exact IH.
Qed.

(** The head of the sorted list is the first entry of lowest rate. *)
Lemma sort_by_rate_head l x rest :
  sort_by_rate l = x :: rest ->
  exists pre post,
    l = pre ++ x :: post
    /\ Forall (fun y => (rate_of x < rate_of y)%Q) pre
    /\ Forall (fun y => (rate_of x <= rate_of y)%Q) post.
Proof.
  revert x rest. induction l as [|a l IH]; intros x rest E; [discriminate|].
  change (sort_by_rate (a :: l)) with (insert_by_rate a (sort_by_rate l)) in E.
  destruct (sort_by_rate l) as [|y sorted] eqn:Es.
  - assert (l = []) as ->.
    { pose proof (sort_by_rate_perm l) as P. rewrite Es in P.
      now apply Permutation_nil in P. }
    cbn in E. injection E as <- <-. exists [], []. repeat split; constructor.
  - destruct (IH y sorted eq_refl) as (pre & post & -> & Hpre & Hpost).
    cbn [insert_by_rate] in E.
    destruct (Qle_bool (rate_of a) (rate_of y)) eqn:Ele.
    + injection E as <- <-. apply Qle_bool_iff in Ele.
      exists [], (pre ++ y :: post). split; [reflexivity|].
      split; [constructor|]. apply Forall_app. split.
      * eapply Forall_impl; [|exact Hpre]. intros z Hz. cbn beta in Hz.
        apply Qlt_le_weak. eapply Qle_lt_trans; eassumption.
      * constructor; [exact Ele|].
        eapply Forall_impl; [|exact Hpost]. intros z Hz. cbn beta in Hz.
        eapply Qle_trans; eassumption.
    + injection E as <- <-.
      assert (Hlt : (rate_of y < rate_of a)%Q).
      { apply Qnot_le_lt. intros H. apply Qle_bool_iff in H. congruence. }
      exists (a :: pre), post. split; [reflexivity|].
      split; [constructor; assumption|exact Hpost].
Qed.

Lemma unsorted_all summary :
  ~ In "baseline" (keys summary) -> unsorted_interventions summary = summary.
Proof.
  unfold unsorted_interventions, keys.
  induction summary as [|[k v] summary IH]; intros H; [reflexivity|].
  cbn [filter fst map In] in *. unfold is_baseline at 1.
  destruct (String.eqb_spec k "baseline") as [->|_].
  - exfalso. apply H. now left.
  - cbn [negb]. rewrite IH; [reflexivity|]. intros H'. apply H. now right.
Qed.

Lemma lookup_none {V : Type} (d : list (string * V)) k :
  lookup d k = None <-> ~ In k (keys d).
Proof.
  unfold keys. induction d as [|[k' v] d IH]; cbn [lookup map fst In].
  - tauto.
  - destruct (String.eqb_spec k' k) as [->|Hne].
    + split; [discriminate|]. intros H. exfalso. apply H. now left.
    + rewrite IH. tauto.
Qed.

Lemma baseline_split summary e :
  NoDup (keys summary) -> lookup summary "baseline" = Some e ->
  Permutation (("baseline", e) :: unsorted_interventions summary) summary.
Proof.
  unfold keys.
  induction summary as [|[k v] summary IH]; intros Hnd Hl; [discriminate|].
  cbn [map fst] in Hnd. apply NoDup_cons_iff in Hnd. destruct Hnd as [Hk Hnd].
  cbn [lookup] in Hl. unfold unsorted_interventions. cbn [filter fst].
  fold (unsorted_interventions summary). unfold is_baseline at 1.
  destruct (String.eqb_spec k "baseline") as [->|Hne].
  - injection Hl as ->. cbn [negb].
    rewrite unsorted_all by exact Hk. reflexivity.
  - cbn [negb]. etransitivity; [apply perm_swap|].
    apply perm_skip. apply IH; assumption.
Qed.

Lemma unsorted_not_baseline summary k :
  In k (keys (unsorted_interventions summary)) -> k <> "baseline".
Proof.
  unfold keys, unsorted_interventions. intros H. apply in_map_iff in H.
  destruct H as ([k' v] & <- & H). apply filter_In in H.
  destruct H as [_ H]. cbn [fst] in *. apply negb_true_iff in H.
  now apply is_baseline_false.
Qed.

(** The condition order of the report lists every condition of the
    summary exactly once (the names of a summary are distinct): the
    baseline first when there is one and nowhere else, then the other
    conditions in ascending order of rate. *)
Theorem condition_order_is_sorted_listing
        (summary : list (string * SummaryEntry))
        (Hnd : NoDup (keys summary)) :
  Permutation (condition_order summary) (keys summary)
  /\ condition_order summary
     = (if existsb is_baseline (keys summary) then ["baseline"] else [])
       ++ keys (interventions summary)
  /\ ~ In "baseline" (keys (interventions summary))
  /\ ascending (interventions summary).
Proof.
  assert (Hint : Permutation (interventions summary)
                             (unsorted_interventions summary))
    by apply sort_by_rate_perm.
  assert (Hnb : ~ In "baseline" (keys (interventions summary))).
  { intros H.
    apply (Permutation_in _ (Permutation_map fst Hint)) in H.
    now apply unsorted_not_baseline in H. }
  unfold condition_order. fold (keys (interventions summary)).
  destruct (lookup summary "baseline") as [e|] eqn:El.
  - assert (Hex : existsb is_baseline (keys summary) = true).
    { apply existsb_exists. exists "baseline". split; [|reflexivity].
      destruct (in_dec string_dec "baseline" (keys summary)) as [H|H];
        [exact H|]. apply lookup_none in H. congruence. }
    rewrite Hex. repeat split; try assumption; [|apply sort_by_rate_ascending].
    cbn [app]. unfold keys.
    change ("baseline" :: map fst (interventions summary))
      with (map fst (("baseline", e) :: interventions summary)).
    apply Permutation_map.
    etransitivity; [apply perm_skip; exact Hint|].
    apply baseline_split; assumption.
  - assert (Hno : ~ In "baseline" (keys summary)) by now apply lookup_none.
    assert (Hex : existsb is_baseline (keys summary) = false).
    { destruct (existsb is_baseline (keys summary)) eqn:E; [|reflexivity].
      apply existsb_exists in E. destruct E as (k & Hk & E).
      apply String.eqb_eq in E. subst k. contradiction. }
    rewrite Hex. repeat split; try assumption; [|apply sort_by_rate_ascending].
    cbn [app]. unfold keys. apply Permutation_map.
    etransitivity; [exact Hint|]. now rewrite unsorted_all.
Qed.

(** An instance: the summary of the sample. *)
Lemma condition_order_is_sorted_listing_witness :
  Permutation (condition_order Sample.summary) (keys Sample.summary)
  /\ condition_order Sample.summary
     = ["baseline"; "v2b_with_reminders"; "v2a_tone_only"].
Proof.
  destruct (condition_order_is_sorted_listing Sample.summary) as (P & E & _).
  - repeat (constructor; [cbn [In keys map fst Sample.summary];
                          intuition discriminate|]).
    constructor.
  - split; [exact P|]. rewrite E. reflexivity.
Defined.

Lemma best_loop_stays summary order best best_rate :
  Forall (fun k => is_baseline k = true
                   \/ exists e, lookup summary k = Some e
                                /\ (best_rate <= s_quality_comment_rate e)%Q)
         order ->
  best_loop summary order best best_rate = Ok (best, best_rate).
Proof.
  induction 1 as [|k order Hk _ IH]; [reflexivity|].
  cbn [best_loop]. destruct Hk as [->|(e & -> & Hle)]; [exact IH|].
  destruct (is_baseline k); cbn [negb]; [exact IH|].
  apply Qltb_ge in Hle. rewrite Hle. exact IH.
Qed.

Lemma interventions_lookup summary k e :
  NoDup (keys summary) -> In (k, e) (interventions summary) ->
  lookup summary k = Some e /\ is_baseline k = false.
Proof.
  intros Hnd Hin.
  apply (Permutation_in _ (sort_by_rate_perm _)) in Hin.
  apply filter_In in Hin. destruct Hin as [Hin Hb]. cbn [fst] in Hb.
  split; [now apply in_lookup|now apply negb_true_iff].
Qed.

(** The verdict never fails on a summary with distinct names, and the
    best intervention it names is the first condition after the baseline
    in the condition order. Among the conditions other than the baseline
    it is the first of lowest rate in the summary: those before it have a
    strictly higher rate, so of two conditions with the same lowest rate
    the one that was registered first is named. *)
Theorem verdict_names_first_intervention
        (summary : list (string * SummaryEntry))
        (Hnd : NoDup (keys summary)) :
  exists v,
    generate_verdict summary = Ok v
    /\ forall best,
        best_intervention v = Some best ->
        exists e rest pre post,
          interventions summary = (best, e) :: rest
          /\ (s_quality_comment_rate e < baseline_rate summary)%Q
          /\ unsorted_interventions summary = pre ++ (best, e) :: post
          /\ Forall (fun kv => (s_quality_comment_rate e
                                < s_quality_comment_rate (snd kv))%Q) pre
          /\ Forall (fun kv => (s_quality_comment_rate e
                                <= s_quality_comment_rate (snd kv))%Q) post.
Proof.
  assert (Hasc : ascending (interventions summary))
    by apply sort_by_rate_ascending.
  pose proof (interventions_lookup summary) as Hlk.
  assert (Hhead : forall x rest,
            interventions summary = x :: rest ->
            exists pre post,
              unsorted_interventions summary = pre ++ x :: post
              /\ Forall (fun y => (rate_of x < rate_of y)%Q) pre
              /\ Forall (fun y => (rate_of x <= rate_of y)%Q) post)
    by (intros x rest; apply sort_by_rate_head).
  unfold generate_verdict, condition_order.
  set (br := baseline_rate summary).
  assert (Hskip : forall order best rate,
            best_loop summary
              ((match lookup summary "baseline" with
                | Some _ => ["baseline"] | None => [] end) ++ order) best rate
            = best_loop summary order best rate).
  { intros. destruct (lookup summary "baseline"); reflexivity. }
  rewrite Hskip.
  destruct (interventions summary) as [|[b e] rest].
  - cbn [map best_loop]. eexists. split; [reflexivity|]. discriminate.
  - destruct (Hlk b e Hnd (or_introl eq_refl)) as [Hb Hnb].
    cbn [ascending] in Hasc. destruct Hasc as [Hmin _].
    assert (Hrest : forall r, (r <= s_quality_comment_rate e)%Q ->
              Forall (fun k => is_baseline k = true
                       \/ exists e', lookup summary k = Some e'
                            /\ (r <= s_quality_comment_rate e')%Q)
                     (map fst rest)).
    { intros r Hr. apply Forall_forall. intros k Hk.
      apply in_map_iff in Hk. destruct Hk as ([k' e'] & <- & Hin).
      right. exists e'. cbn [fst].
      split; [apply (Hlk k' e' Hnd); now right|].
      rewrite Forall_forall in Hmin. specialize (Hmin _ Hin).
      unfold rate_of in Hmin. cbn [snd] in Hmin.
      eapply Qle_trans; eassumption. }
    cbn [map fst best_loop]. rewrite Hnb, Hb. cbn [negb].
    destruct (Qltb (s_quality_comment_rate e) br) eqn:Elt.
    + rewrite (best_loop_stays summary (map fst rest) (Some b)
                 (s_quality_comment_rate e))
        by (apply Hrest; apply Qle_refl).
      apply Qltb_lt in Elt.
      destruct (Hhead (b, e) rest eq_refl) as (pre & post & Hsplit & Hpre & Hpost).
      assert (Hfin : forall best,
                Some b = Some best ->
                exists e0 rest0 pre0 post0,
                  (b, e) :: rest = (best, e0) :: rest0
                  /\ (s_quality_comment_rate e0 < br)%Q
                  /\ unsorted_interventions summary
                     = pre0 ++ (best, e0) :: post0
                  /\ Forall (fun kv => (s_quality_comment_rate e0
                                < s_quality_comment_rate (snd kv))%Q) pre0
                  /\ Forall (fun kv => (s_quality_comment_rate e0
                                <= s_quality_comment_rate (snd kv))%Q) post0).
      { intros best [= <-]. exists e, rest, pre, post. repeat split; assumption. }
      cbv zeta.
      destruct (Qgeb (improvement_of br (s_quality_comment_rate e)) 30);
        [|destruct (Qgeb (improvement_of br (s_quality_comment_rate e)) 15)];
        (eexists; split; [reflexivity|exact Hfin]).
    + apply Qltb_ge in Elt.
      rewrite (best_loop_stays summary (map fst rest) None br)
        by (apply Hrest; exact Elt).
      eexists. split; [reflexivity|]. discriminate.
Qed.

(** An instance: the summary of the sample. *)
Lemma verdict_names_first_intervention_witness :
  exists v,
    generate_verdict Sample.summary = Ok v
    /\ best_intervention v = Some "v2b_with_reminders".
Proof.
  destruct (verdict_names_first_intervention Sample.summary) as (v & E & _).
  - repeat (constructor; [cbn [In keys map fst Sample.summary];
                          intuition discriminate|]).
    constructor.
  - exists v. split; [exact E|].
    vm_compute in E. injection E as <-. reflexivity.
Defined.

End OrderFacts.

(** ** Report: badges and run tabs *)

Section BoardFacts.

Import Board.

Lemma count_flagged_le rs : count_flagged rs <= List.length rs.
Proof.
  induction rs as [|r rs IH]; [apply le_n|].
  cbn [count_flagged List.length]. destruct (truthy (flagged r)); lia.
Qed.

(** The badge of a condition on a prompt card: the flagged count never
    exceeds the total; the badge is the clean tick exactly when no run is
    flagged, which includes a prompt without any recorded run; it is
    [flagged] exactly when there is a run and all runs are flagged, and
    [mixed] exactly when some but not all are; the two latter show the
    flagged count over the total. *)
Theorem badge_classes
        (detailed : list (string * list DetailRow))
        (condition prompt : string) :
  let c := cond_data detailed condition prompt in
  flagged_count c <= total c
  /\ (badge c = ("clean", Tick) <-> flagged_count c = 0)
  /\ (total c = 0 -> badge c = ("clean", Tick))
  /\ (badge c = ("flagged", Ratio (flagged_count c) (total c))
      <-> 0 < flagged_count c /\ flagged_count c = total c)
  /\ (badge c = ("mixed", Ratio (flagged_count c) (total c))
      <-> 0 < flagged_count c /\ flagged_count c < total c).
Proof.
  intros c.
  assert (Hle : flagged_count c <= total c) by apply count_flagged_le.
  assert (Hc : all_clean c = (flagged_count c =? 0)) by reflexivity.
  assert (Hf : all_flagged c = (flagged_count c =? total c)) by reflexivity.
  unfold badge. rewrite Hc, Hf.
  split; [exact Hle|].
  destruct (Nat.eqb_spec (flagged_count c) 0) as [E0|E0];
    destruct (Nat.eqb_spec (flagged_count c) (total c)) as [Et|Et];
    repeat split; intros; try reflexivity; try discriminate; try lia.
Qed.

Lemma number_runs_length j rows :
  List.length (number_runs j rows) = List.length rows.
Proof.
  revert j. induction rows as [|r rows IH]; intros j; [reflexivity|].
  cbn [number_runs List.length]. now rewrite IH.
Qed.

Lemma number_runs_nums j rows :
  map run_num (number_runs j rows) = seq (j + 1) (List.length rows).
Proof.
  revert j. induction rows as [|r rows IH]; intros j; [reflexivity|].
  cbn [number_runs map run_num run_entry List.length seq]. rewrite IH.
  now replace (S j + 1) with (S (j + 1)) by lia.
Qed.

Lemma number_runs_texts j rows :
  map r_response_text (number_runs j rows) = map d_response_text rows.
Proof.
  revert j. induction rows as [|r rows IH]; intros j; [reflexivity|].
  cbn [number_runs map r_response_text run_entry]. now rewrite IH.
Qed.

Lemma number_runs_flagged j rows :
  count_flagged (number_runs j rows)
  = count_rows (fun r => truthy (d_has_quality_comment r)) rows.
Proof.
  unfold count_rows. revert j.
  induction rows as [|r rows IH]; intros j; [reflexivity|].
  cbn [number_runs count_flagged flagged run_entry filter]. rewrite IH.
  destruct (truthy (d_has_quality_comment r)); reflexivity.
Qed.

Lemma prompt_results_map rs p :
  prompt_results (map detail_row rs) p = map detail_row (records_of rs p).
Proof.
  unfold prompt_results, records_of.
  induction rs as [|r rs IH]; [reflexivity|].
  cbn [map filter d_prompt detail_row].
  destruct (String.eqb (prompt r) p); cbn [map]; now rewrite IH.
Qed.

Lemma lookup_rows (conds : list (string * ConditionResults)) name :
  lookup (map (fun nc => (fst nc, map detail_row (results (snd nc)))) conds)
         name
  = match lookup conds name with
    | Some cond => Some (map detail_row (results cond))
    | None => None
    end.
Proof.
  induction conds as [|[k v] conds IH]; [reflexivity|].
  cbn [map lookup fst snd]. destruct (String.eqb k name); [reflexivity|exact IH].
Qed.

Lemma run_at_spec (c : CondData) k :
  1 <= k ->
  run_at c k = nth_error (runs c) (k - 1)
  /\ (run_at c k = None <-> List.length (runs c) < k).
Proof.
  intros Hk. unfold run_at.
  destruct (Nat.leb_spec k (List.length (runs c))) as [H|H].
  - split; [reflexivity|]. split; [|lia]. intros E.
    apply nth_error_None in E. lia.
  - split; [|tauto]. symmetry. apply nth_error_None. lia.
Qed.

Lemma column_no_data (c : CondData) k :
  column_of c k = Ok NoData <-> run_at c k = None.
Proof.
  unfold column_of. destruct (run_at c k) as [rd|].
  - split; [|discriminate].
    destruct (render_response rd); [|discriminate].
    destruct (detection_text rd); discriminate.
  - tauto.
Qed.

(** From a run of the experiment to the report: on the card of a prompt,
    the runs of a condition are the completed trials of that prompt, in
    run order and numbered from 1 without gaps. A failed trial leaves no
    gap: the later trials move one tab to the left, and the last tabs of
    the prompt show no data, one for each failed trial. *)
Theorem report_tabs_show_completed_trials
        (env : Env) (now : string) (conds : list (string * string))
        (mdl : string) (temp : Q) (runs : Z) (use_llm : bool)
        (name sp_name p : string)
        (Hnd : NoDup (map fst conds))
        (Hload : forall n s, In (n, s) conds ->
                   exists system_prompt,
                     load_system_prompt env s = Ok system_prompt)
        (Hin : In (name, sp_name) conds)
        (Hp : In p TEST_PROMPTS) :
  exists st' x doc system_prompt,
    run_experiment env now conds mdl temp runs use_llm initial
    = (st', Ok x)
    /\ to_dict x = Ok doc
    /\ load_system_prompt env sp_name = Ok system_prompt
    /\ let c := cond_data (o_detailed_results doc) name p in
       let done := completed env name system_prompt mdl temp use_llm
                             (prompt_cells p runs) in
       map r_response_text (Board.runs c) = map response_text done
       /\ map run_num (Board.runs c) = seq 1 (List.length done)
       /\ total c + failed env name system_prompt mdl temp use_llm
                           (prompt_cells p runs)
          = Z.to_nat runs
       /\ forall k, In k (run_tabs runs) ->
            (run_at c k = None <-> total c < k)
            /\ (column_of c k = Ok NoData <-> total c < k).
Proof.
  destruct (Hload name sp_name Hin) as (system_prompt & Hsp).
  unfold run_experiment. unfold bind at 1. unfold tell at 1.
  cbn [trace store initial app].
  match goal with
  | |- context [run_conditions _ _ _ _ _ _ ?x0 ?st0] =>
      destruct (run_conditions_spec env mdl temp runs use_llm
                  conds x0 st0 Hload) as (st' & evs & E & _)
  end.
  cbn [timestamp model temperature runs_per_prompt conditions] in E.
  match type of E with _ = (_, Ok ?x0) => set (x := x0) in * end.
  destruct (summary_of_rows (conditions x)) as (summary & Es & _).
  eexists st', x, _, system_prompt. split; [exact E|].
  split; [unfold to_dict; rewrite Es; reflexivity|].
  split; [exact Hsp|].
  cbn [o_detailed_results].
  assert (Hrows :
            Board.runs (cond_data
                          (map (fun nc => (fst nc,
                                           map detail_row (results (snd nc))))
                               (conditions x)) name p)
            = number_runs 0
                (map detail_row
                     (completed env name system_prompt mdl temp use_llm
                                (prompt_cells p runs)))).
  { unfold cond_data. cbn [Board.runs]. rewrite lookup_rows.
    subst x. cbn [conditions].
    rewrite (lookup_record_all env mdl temp runs use_llm []
               conds name sp_name Hnd Hin).
    unfold condition_record. rewrite Hsp. cbn [results].
    rewrite prompt_results_map.
    rewrite (records_of_completed _ _ _ _ _ _ _ _ _ corpus_distinct Hp).
    reflexivity. }
  assert (Htotal :
            total (cond_data
                     (map (fun nc => (fst nc,
                                      map detail_row (results (snd nc))))
                          (conditions x)) name p)
            = List.length (completed env name system_prompt mdl temp use_llm
                                     (prompt_cells p runs))).
  { change (total (cond_data ?d name p))
      with (List.length (Board.runs (cond_data d name p))).
    rewrite Hrows, number_runs_length, length_map. reflexivity. }
  cbv zeta. rewrite Htotal, Hrows.
  split; [rewrite number_runs_texts, map_map; reflexivity|].
  split; [rewrite number_runs_nums, length_map; reflexivity|].
  split; [rewrite completed_failed_length; apply prompt_cells_length|].
  intros k Hk. unfold run_tabs in Hk. apply in_seq in Hk.
  rewrite <- Htotal. rewrite column_no_data.
  change (total (cond_data ?d name p))
    with (List.length (Board.runs (cond_data d name p))).
  split; apply run_at_spec; lia.
Qed.

(** An instance: in the sample the Response Source fails on the fourth
    prompt under the baseline, so its only tab shows no data. *)
Lemma report_tabs_show_completed_trials_witness :
  exists st' x doc,
    run_experiment Sample.env "2026-01-01T00:00:00" Sample.conditions_ok
                   "claude-sonnet-4-5-20250929" 0.7%Q 1%Z true initial
    = (st', Ok x)
    /\ to_dict x = Ok doc
    /\ column_of (cond_data (o_detailed_results doc) "baseline"
                            (nth 3 TEST_PROMPTS "")) 1 = Ok NoData.
Proof.
  destruct (report_tabs_show_completed_trials Sample.env
              "2026-01-01T00:00:00" Sample.conditions_ok
              "claude-sonnet-4-5-20250929" 0.7%Q 1%Z true
              "baseline" "claude_system_prompt.txt" (nth 3 TEST_PROMPTS ""))
    as (st' & x & doc & system_prompt & E & D & L & _ & _ & T & N).
  - repeat (constructor; [cbn [In map fst]; intuition discriminate|]).
    constructor.
  - intros n s [[= <- <-]|[[= <- <-]|[]]]; eexists; reflexivity.
  - now left.
  - cbn; tauto.
  - exists st', x, doc. split; [exact E|]. split; [exact D|].
    injection L as <-. apply (proj2 (N 1 (or_introl eq_refl))).
    change (failed Sample.env "baseline" "You are Claude."
                   "claude-sonnet-4-5-20250929" 0.7%Q true
                   (prompt_cells (nth 3 TEST_PROMPTS "") 1)) with 1 in T.
    change (Z.to_nat 1) with 1 in T. lia.
Defined.

Lemma count_if_app f rs1 rs2 :
  count_if f (rs1 ++ rs2) = count_if f rs1 + count_if f rs2.
Proof.
  induction rs1 as [|r rs1 IH]; [reflexivity|].
  cbn [app count_if]. rewrite IH. lia.
Qed.

Lemma count_if_by_prompt env cname system_prompt mdl temp use_llm f
      corpus runs :
  list_sum (map (fun p => count_if f
                            (completed env cname system_prompt mdl temp
                                       use_llm (prompt_cells p runs)))
                corpus)
  = count_if f (completed env cname system_prompt mdl temp use_llm
                          (matrix corpus runs)).
Proof.
  rewrite completed_matrix.
  induction corpus as [|p corpus IH]; [reflexivity|].
  cbn [map flat_map]. rewrite count_if_app, <- IH. reflexivity.
Qed.

Lemma count_if_length rs : count_if (fun _ => true) rs = List.length rs.
Proof. induction rs as [|r rs IH]; [reflexivity|]. cbn. now rewrite IH. Qed.

(** From a run of the experiment to the report: for every condition, the
    flagged counts on its badges, added over the prompt cards, give the
    count on its summary card, and the totals on its badges give the
    total of the card. No record is shown twice or left out. *)
Theorem badges_add_up_to_summary
        (env : Env) (now : string) (conds : list (string * string))
        (mdl : string) (temp : Q) (runs : Z) (use_llm : bool)
        (name sp_name : string)
        (Hnd : NoDup (map fst conds))
        (Hload : forall n s, In (n, s) conds ->
                   exists system_prompt,
                     load_system_prompt env s = Ok system_prompt)
        (Hin : In (name, sp_name) conds) :
  exists st' x doc entry,
    run_experiment env now conds mdl temp runs use_llm initial = (st', Ok x)
    /\ to_dict x = Ok doc
    /\ lookup (o_summary doc) name = Some entry
    /\ list_sum (map (fun p => flagged_count
                                 (cond_data (o_detailed_results doc) name p))
                     (o_prompts doc))
       = s_quality_comment_count entry
    /\ list_sum (map (fun p => total
                                 (cond_data (o_detailed_results doc) name p))
                     (o_prompts doc))
       = s_total_runs entry.
Proof.
  destruct (Hload name sp_name Hin) as (system_prompt & Hsp).
  unfold run_experiment. unfold bind at 1. unfold tell at 1.
  cbn [trace store initial app].
  match goal with
  | |- context [run_conditions _ _ _ _ _ _ ?x0 ?st0] =>
      destruct (run_conditions_spec env mdl temp runs use_llm
                  conds x0 st0 Hload) as (st' & evs & E & _)
  end.
  cbn [timestamp model temperature runs_per_prompt conditions] in E.
  match type of E with _ = (_, Ok ?x0) => set (x := x0) in * end.
  set (done := completed env name system_prompt mdl temp use_llm
                         (matrix TEST_PROMPTS runs)).
  assert (Hcond : lookup (conditions x) name
                  = Some {| condition_name := name;
                            system_prompt_name := sp_name;
                            results := done |}).
  { subst x. cbn [conditions].
    rewrite (lookup_record_all env mdl temp runs use_llm []
               conds name sp_name Hnd Hin).
    unfold condition_record. rewrite Hsp. reflexivity. }
  destruct (summary_of_rows (conditions x)) as (summary & Es & _).
  destruct (summary_of_lookup _ _ _ _ Es Hcond) as (entry & Hentry & Hlk).
  eexists st', x, _, entry. split; [exact E|].
  split; [unfold to_dict; rewrite Es; reflexivity|].
  cbn [o_summary o_detailed_results o_prompts].
  split; [exact Hlk|].
  assert (Hruns : forall p, In p TEST_PROMPTS ->
            Board.runs (cond_data
                          (map (fun nc => (fst nc,
                                           map detail_row (results (snd nc))))
                               (conditions x)) name p)
            = number_runs 0
                (map detail_row
                     (completed env name system_prompt mdl temp use_llm
                                (prompt_cells p runs)))).
  { intros p Hp. unfold cond_data. cbn [Board.runs].
    rewrite lookup_rows, Hcond. cbn [results].
    rewrite prompt_results_map. unfold done.
    rewrite (records_of_completed _ _ _ _ _ _ _ _ _ corpus_distinct Hp).
    reflexivity. }
  unfold summary_entry in Hentry.
  destruct (quality_comment_rate_ok
              {| condition_name := name; system_prompt_name := sp_name;
                 results := done |}) as (rate & Hr).
  rewrite Hr in Hentry. injection Hentry as <-.
  cbn [s_quality_comment_count s_total_runs].
  unfold quality_comment_count, total_runs. cbn [results].
  split.
  - rewrite (map_ext_in _
               (fun p => count_if (fun r => truthy (has_quality_comment r))
                           (completed env name system_prompt mdl temp use_llm
                                      (prompt_cells p runs)))).
    + apply count_if_by_prompt.
    + intros p Hp.
      change (flagged_count (cond_data ?d name p))
        with (count_flagged (Board.runs (cond_data d name p))).
      rewrite (Hruns p Hp), number_runs_flagged, count_rows_map.
      reflexivity.
  - rewrite <- count_if_length.
    rewrite (map_ext_in _
               (fun p => count_if (fun _ => true)
                           (completed env name system_prompt mdl temp use_llm
                                      (prompt_cells p runs)))).
    + apply count_if_by_prompt.
    + intros p Hp.
      change (total (cond_data ?d name p))
        with (List.length (Board.runs (cond_data d name p))).
      rewrite (Hruns p Hp), number_runs_length, length_map, count_if_length.
      reflexivity.
Qed.

(** An instance: the baseline of the sample. *)
Lemma badges_add_up_to_summary_witness :
  exists st' x doc entry,
    run_experiment Sample.env "2026-01-01T00:00:00" Sample.conditions_ok
                   "claude-sonnet-4-5-20250929" 0.7%Q 1%Z true initial
    = (st', Ok x)
    /\ to_dict x = Ok doc
    /\ lookup (o_summary doc) "baseline" = Some entry
    /\ list_sum (map (fun p => flagged_count
                                 (cond_data (o_detailed_results doc)
                                            "baseline" p))
                     (o_prompts doc))
       = s_quality_comment_count entry.
Proof.
  destruct (badges_add_up_to_summary Sample.env
              "2026-01-01T00:00:00" Sample.conditions_ok
              "claude-sonnet-4-5-20250929" 0.7%Q 1%Z true
              "baseline" "claude_system_prompt.txt")
    as (st' & x & doc & entry & E & D & L & F & _).
  - repeat (constructor; [cbn [In map fst]; intuition discriminate|]).
    constructor.
  - intros n s [[= <- <-]|[[= <- <-]|[]]]; eexists; reflexivity.
  - now left.
  - exists st', x, doc, entry. repeat split; assumption.
Defined.

End BoardFacts.

(** ** Pattern detection: how much of the response matters *)

Lemma take_take_le (e n : nat) (s : string) :
  e <= n -> Py.take e (Py.take n s) = Py.take e s.
Proof.
  revert n s. induction e as [|e IH]; intros n s Hle.
  - now destruct n, s.
  - destruct n as [|n]; [lia|]. destruct s as [|c s]; [reflexivity|].
    cbn [Py.take]. rewrite IH by lia. reflexivity.
Qed.

Lemma rmatch_local ci r :
  eol_free r = true ->
  forall m (k1 k2 : nat -> string -> option nat),
    (forall p t m', m <= m' -> k1 p t = k2 p (Py.take m' t)) ->
    forall pos s m',
      m + max_len r <= m' ->
      rmatch ci r pos s k1 = rmatch ci r pos (Py.take m' s) k2.
Proof.
  induction r as [| p | | | r1 IH1 r2 IH2 | r1 IH1 r2 IH2 | r1 IH1];
    intros Hfree m k1 k2 Hk pos s m' Hm; cbn [rmatch max_len eol_free] in *.
  - apply Hk. lia.
  - destruct s as [|c s].
    + now destruct m'.
    + destruct m' as [|m']; [lia|]. cbn [Py.take].
      destruct (chr_eqb ci p c); [|reflexivity]. apply Hk. lia.
  - destruct (pos =? 0); [apply Hk; lia|reflexivity].
  - discriminate.
  - apply andb_true_iff in Hfree. destruct Hfree as [H1 H2].
    apply (IH1 H1 (m + max_len r2)); [|lia].
    intros p t n Hn. apply (IH2 H2 m); [exact Hk|lia].
  - apply andb_true_iff in Hfree. destruct Hfree as [H1 H2].
    rewrite <- (IH1 H1 m k1 k2 Hk pos s m') by lia.
    rewrite <- (IH2 H2 m k1 k2 Hk pos s m') by lia.
    reflexivity.
  - rewrite <- (IH1 Hfree m k1 k2 Hk pos s m') by lia.
    rewrite <- (Hk pos s m') by lia. reflexivity.
Qed.

Lemma match_at_local ci r pos s n :
  eol_free r = true -> max_len r <= n ->
  match_at ci r pos (Py.take n s) = match_at ci r pos s.
Proof.
  intros Hfree Hn. unfold match_at. symmetry.
  apply (rmatch_local ci r Hfree 0); [reflexivity|lia].
Qed.

Lemma search_anchored_eq ci r s :
  anchored r = true ->
  Re.search ci r s
  = match match_at ci r 0 s with
    | Some e => Some (Py.take e s)
    | None => None
    end.
Proof.
  intros Ha. unfold Re.search. destruct s as [|c s]; cbn [search_from].
  - destruct (match_at ci r 0 ""); [|reflexivity].
    now rewrite Nat.sub_0_r.
  - destruct (match_at ci r 0 (String c s)).
    + now rewrite Nat.sub_0_r.
    + rewrite search_from_anchored by (auto; lia). reflexivity.
Qed.

Lemma search_local ci r s n :
  anchored r = true -> eol_free r = true -> max_len r <= n ->
  Re.search ci r (Py.take n s) = Re.search ci r s.
Proof.
  intros Ha Hfree Hn. rewrite !search_anchored_eq by exact Ha.
  rewrite match_at_local by assumption.
  destruct (match_at ci r 0 s) as [e|] eqn:E; [|reflexivity].
  rewrite <- (match_at_local ci r 0 s n Hfree Hn) in E.
  apply match_at_bounds in E. rewrite take_length in E.
  rewrite take_take_le by lia. reflexivity.
Qed.

Lemma first_match_local patterns s n :
  forallb (fun r => anchored r && eol_free r && (max_len r <=? n)) patterns
  = true ->
  first_match patterns (Py.take n s) = first_match patterns s.
Proof.
  induction patterns as [|r rs IH]; intros H; [reflexivity|].
  cbn [forallb] in H. apply andb_true_iff in H. destruct H as [Hr Hrs].
  apply andb_true_iff in Hr. destruct Hr as [Hr Hlen].
  apply andb_true_iff in Hr. destruct Hr as [Ha Hfree].
  apply Nat.leb_le in Hlen.
  cbn [first_match]. rewrite search_local by assumption.
  destruct (Re.search true r s); [reflexivity|exact (IH Hrs)].
Qed.

Lemma patterns_local n :
  longest_match <= n ->
  forallb (fun r => anchored r && eol_free r && (max_len r <=? n))
          QUESTION_QUALITY_PATTERNS = true.
Proof.
  intros Hn.
  assert (H : forallb (fun r => anchored r && eol_free r
                                && (max_len r <=? longest_match))
                      QUESTION_QUALITY_PATTERNS = true) by reflexivity.
  rewrite forallb_forall in *. intros r Hr. specialize (H r Hr).
  apply andb_true_iff in H. destruct H as [H Hlen].
  rewrite H. apply Nat.leb_le in Hlen. apply Nat.leb_le. lia.
Qed.

(** No pattern can match more than 39 characters, and none looks at the
    end of the text, so only the first 39 characters of a response matter
    to the pattern channel: on the response cut to any length of 39 or
    more it gives the same result as on the whole response, and a matched
    text has at most 39 characters. The cut at 300 characters is never the
    one that decides, and the stored opening of 200 characters gives the
    pattern result of the whole response. *)
Theorem detect_pattern_window (response : string) (n : nat)
        (Hn : longest_match <= n) :
  longest_match = 39
  /\ detect_pattern (Py.take n response) = detect_pattern response
  /\ forall m, snd (detect_pattern response) = Some m ->
               String.length m <= longest_match.
Proof.
  split; [reflexivity|].
  assert (H300 : longest_match <= 300) by (vm_compute; lia).
  assert (Hcut : forall s, detect_pattern s
                           = first_match QUESTION_QUALITY_PATTERNS s).
  { intros s. unfold detect_pattern.
    apply first_match_local, patterns_local, H300. }
  split.
  - rewrite !Hcut. apply first_match_local, patterns_local, Hn.
  - intros m Hm. rewrite Hcut in Hm.
    rewrite <- (first_match_local QUESTION_QUALITY_PATTERNS response
                  longest_match (patterns_local _ (le_n _))) in Hm.
    pose proof (first_match_shape QUESTION_QUALITY_PATTERNS
                  (Py.take longest_match response)
                  patterns_anchored patterns_consume) as S.
    destruct (first_match QUESTION_QUALITY_PATTERNS
                (Py.take longest_match response)) as [[|] [g|]];
      cbn [snd] in Hm; try discriminate; try contradiction.
    injection Hm as ->. destruct S as (_ & rest & E).
    apply (f_equal String.length) in E.
    rewrite take_length, append_length_s in E. lia.
Qed.

(** An instance: the stored opening of a response of the sample. *)
Lemma detect_pattern_window_witness :
  detect_pattern
    (get_opening ("Great question! " ++ Sample.padding)%string 200)
  = detect_pattern ("Great question! " ++ Sample.padding)%string.
Proof.
  apply (detect_pattern_window
           ("Great question! " ++ Sample.padding)%string 200).
  vm_compute. lia.
Defined.

(** ** Pattern detection: the first character *)

Lemma chr_eqb_letter ci p c :
  chr_eqb ci p c = true -> is_letter p = true -> is_letter c = true.
Proof.
  unfold chr_eqb, is_letter. destruct ci; intros E.
  - apply Ascii.eqb_eq in E. now rewrite E.
  - apply Ascii.eqb_eq in E. now subst.
Qed.

Lemma opening_letter_sound ci r :
  forall pos s k e,
    rmatch ci r pos s k = Some e ->
    (fst (opening_letter r) = true ->
     k pos s = Some e \/ begins_with_letter s = true)
    /\ (snd (opening_letter r) = true -> begins_with_letter s = true).
Proof.
  induction r as [| p | | | r1 IH1 r2 IH2 | r1 IH1 r2 IH2 | r1 IH1];
    intros pos s k e H; cbn [rmatch opening_letter fst snd] in *.
  - split; [auto|discriminate].
  - destruct s as [|c s]; [discriminate|].
    destruct (chr_eqb ci p c) eqn:E; [|discriminate].
    cbn [begins_with_letter].
    split; intros Hp; [right|]; eapply chr_eqb_letter; eauto.
  - destruct (pos =? 0); [|discriminate]. split; [auto|discriminate].
  - destruct (at_eol s); [|discriminate]. split; [auto|discriminate].
  - destruct (opening_letter r1) as [w1 s1], (opening_letter r2) as [w2 s2].
    cbn [fst snd] in *.
    destruct (IH1 _ _ _ _ H) as [W1 S1].
    split; intros Hb.
    + apply andb_true_iff in Hb. destruct Hb as [Hw1 Hb].
      destruct (W1 Hw1) as [H2|?]; [|now right].
      destruct (IH2 _ _ _ _ H2) as [W2 S2].
      apply orb_true_iff in Hb. destruct Hb as [Hs1|Hw2]; [right; auto|auto].
    + apply orb_true_iff in Hb. destruct Hb as [Hs1|Hb]; [auto|].
      apply andb_true_iff in Hb. destruct Hb as [Hw1 Hs2].
      destruct (W1 Hw1) as [H2|?]; [|assumption].
      destruct (IH2 _ _ _ _ H2) as [_ S2]. auto.
  - destruct (opening_letter r1) as [w1 s1], (opening_letter r2) as [w2 s2].
    cbn [fst snd] in *.
    destruct (rmatch ci r1 pos s k) as [e1|] eqn:E1.
    + injection H as <-. destruct (IH1 _ _ _ _ E1) as [W1 S1].
      split; intros Hb; apply andb_true_iff in Hb; destruct Hb; auto.
    + destruct (IH2 _ _ _ _ H) as [W2 S2].
      split; intros Hb; apply andb_true_iff in Hb; destruct Hb; auto.
  - destruct (rmatch ci r1 pos s k) as [e1|] eqn:E1.
    + injection H as <-. destruct (IH1 _ _ _ _ E1) as [W1 _].
      split; [auto|discriminate].
    + split; [auto|discriminate].
Qed.

Lemma first_match_letter patterns s :
  forallb (fun r => anchored r && snd (opening_letter r)) patterns = true ->
  begins_with_letter s = false ->
  first_match patterns s = (false, None).
Proof.
  intros Hall Hs. induction patterns as [|r rs IH]; [reflexivity|].
  cbn [forallb] in Hall. apply andb_true_iff in Hall.
  destruct Hall as [Hr Hrs]. apply andb_true_iff in Hr.
  destruct Hr as [Ha Ho].
  cbn [first_match]. rewrite search_anchored_eq by exact Ha.
  destruct (match_at true r 0 s) as [e|] eqn:E; [|exact (IH Hrs)].
  unfold match_at in E. apply opening_letter_sound in E.
  destruct E as [_ E]. rewrite (E Ho) in Hs. discriminate.
Qed.

(** On text of code points 0-255, as every text of this model is: every
    pattern begins with a letter right at the start of the text, so a
    response whose first character is not an ASCII letter (white space, a
    line break, a quotation mark, an asterisk of markdown emphasis, an
    accented Latin-1 letter), or an empty response, is never flagged by
    the pattern channel, whatever follows. The statement does not extend
    beyond code point 255: there [(?i)] takes U+0130 and U+0131 for [i],
    U+017F for [s] and U+212A for [k], and a response that begins with one
    of them can be flagged. *)
Theorem pattern_needs_leading_letter (response : string)
        (Hfirst : begins_with_letter response = false) :
  detect_pattern response = (false, None).
Proof.
  unfold detect_pattern. apply first_match_letter; [reflexivity|].
  destruct response as [|c s]; [reflexivity|exact Hfirst].
Qed.

(** An instance: praise in markdown emphasis. *)
Lemma pattern_needs_leading_letter_witness :
  detect_pattern "**Great question!** Here is how it works." = (false, None).
Proof.
  apply (pattern_needs_leading_letter
           "**Great question!** Here is how it works.").
  reflexivity.
Defined.

(** ** Semantic detector: a judgment in a [json] fence *)

Section FenceFacts.

Local Open Scope string_scope.

Lemma lstrip_space (ws s : string) :
  all_space ws = true -> Py.lstrip (ws ++ s) = Py.lstrip s.
Proof.
  induction ws as [|c ws IH]; intros H; [reflexivity|].
  cbn [all_space] in H. apply andb_true_iff in H. destruct H as [Hc Hws].
  cbn [append Py.lstrip]. rewrite Hc. exact (IH Hws).
Qed.

Lemma rstrip_space (ws : string) : all_space ws = true -> Py.rstrip ws = "".
Proof.
  induction ws as [|c ws IH]; intros H; [reflexivity|].
  cbn [all_space] in H. apply andb_true_iff in H. destruct H as [Hc Hws].
  cbn [Py.rstrip]. rewrite (IH Hws), Hc. reflexivity.
Qed.

Lemma rstrip_trailing (s ws : string) :
  all_space ws = true -> Py.rstrip (s ++ ws) = Py.rstrip s.
Proof.
  intros H. induction s as [|c s IH].
  - cbn [append]. now apply rstrip_space.
  - cbn [append Py.rstrip]. rewrite IH. reflexivity.
Qed.

Lemma strip_json_fenced (ws1 ws2 body : string) :
  all_space ws1 = true -> all_space ws2 = true ->
  Py.strip (ws1 ++ json_fenced body ++ ws2) = json_fenced body.
Proof.
  intros H1 H2. unfold Py.strip. rewrite lstrip_space by exact H1.
  replace (Py.lstrip (json_fenced body ++ ws2)) with (json_fenced body ++ ws2)
    by reflexivity.
  rewrite rstrip_trailing by exact H2.
  unfold json_fenced.
  change ("```json" ++ Py.NL ++ body ++ Py.NL ++ "```")
    with (("```json" ++ Py.NL ++ body) ++ Py.NL ++ "```").
  apply rstrip_app; [discriminate|reflexivity].
Qed.

(** A judgment that the judge wraps in a [json] fence is read exactly as
    if it had been sent bare, whatever the body is and whatever white
    space surrounds the reply: both fences and the line breaks next to
    them are removed, and nothing of the body is. *)
Theorem json_fence_round_trip (env : Env) (ws1 ws2 body : string)
        (Hws1 : all_space ws1 = true) (Hws2 : all_space ws2 = true) :
  strip_code_fences (Py.strip (ws1 ++ json_fenced body ++ ws2)) = body
  /\ read_judge_reply env (ws1 ++ json_fenced body ++ ws2)
     = parse_judgment env body.
Proof.
  assert (H : strip_code_fences (Py.strip (ws1 ++ json_fenced body ++ ws2))
              = body).
  { rewrite strip_json_fenced by assumption.
    unfold strip_code_fences, json_fenced.
    change (Py.startswith "```"
              ("```json" ++ Py.NL ++ body ++ Py.NL ++ "```")) with true.
    cbv iota. rewrite sub_open_json.
    unfold Re.sub_delete. apply sub_close_body. }
  split; [exact H|]. unfold read_judge_reply. now rewrite H.
Qed.

(** An instance: the fenced judgment of the sample between a blank and a
    line break. *)
Lemma json_fence_round_trip_witness :
  read_judge_reply Sample.env
    (" " ++ json_fenced Sample.payload_praise ++ Py.NL)
  = Ok (JBool true, JStr "Great question!", JStr "praise",
        JStr "Praises the question.").
Proof.
  destruct (json_fence_round_trip Sample.env " " Py.NL Sample.payload_praise
              eq_refl eq_refl) as [_ ->].
  reflexivity.
Defined.

End FenceFacts.

(** ** Report: the highlighted text *)

Section RenderFacts.

Import Board.

Local Open Scope string_scope.

Lemma detect_pattern_prefix (response m : string) :
  detect_pattern response = (true, Some m) ->
  m <> "" /\ exists rest, response = m ++ rest.
Proof.
  unfold detect_pattern. intros E.
  pose proof (first_match_shape QUESTION_QUALITY_PATTERNS
                (Py.take 300 response) patterns_anchored patterns_consume)
    as H.
  rewrite E in H. destruct H as [Hne [rest Hrest]].
  split; [exact Hne|].
  exists (rest ++ Py.drop 300 response).
  rewrite <- append_assoc_s, <- Hrest. symmetry. apply take_drop.
Qed.

Lemma escape_app (a b : string) : escape (a ++ b) = escape a ++ escape b.
Proof.
  induction a as [|c a IH]; [reflexivity|].
  cbn [append escape]. rewrite IH. symmetry. apply append_assoc_s.
Qed.

Lemma startswith_app (m t : string) : Py.startswith m (m ++ t) = true.
Proof.
  induction m as [|c m IH]; [reflexivity|].
  cbn [append Py.startswith]. now rewrite Ascii.eqb_refl, IH.
Qed.

Lemma drop_app (m t : string) : Py.drop (String.length m) (m ++ t) = t.
Proof. induction m as [|c m IH]; [now destruct t|exact IH]. Qed.

Lemma replace_first_prefix (m new t : string) :
  replace_first m new (m ++ t) = new ++ t.
Proof.
  destruct (m ++ t) as [|c s] eqn:E; cbn [replace_first];
    rewrite <- E, startswith_app, drop_app; reflexivity.
Qed.

Lemma replace_first_absent (old new s : string) :
  occurs old s = false -> replace_first old new s = s.
Proof.
  induction s as [|c s IH]; cbn [occurs replace_first]; intros H;
    apply orb_false_iff in H; destruct H as [-> H]; [reflexivity|].
  now rewrite IH.
Qed.

(** From the pattern channel to the report: when a pattern matched and
    the judge gave no phrase, the highlight of the response is the first
    thing in the rendered text. The response is the matched text followed
    by a rest, and the rendered text is the marker around the escaped
    matched text followed by the escaped rest. *)
Theorem pattern_highlight_opens_response (r : DetectionResult) (j : nat)
        (Hpat : (pattern_match r, pattern_matched_text r)
                = detect_pattern (response_text r))
        (Hm : pattern_match r = true)
        (Hllm : truthy (llm_matched_text r) = false) :
  exists m rest,
    pattern_matched_text r = Some m
    /\ response_text r = m ++ rest
    /\ render_response (run_entry j (detail_row r))
       = Ok (marker (escape m) ++ escape rest).
Proof.
  rewrite Hm in Hpat.
  destruct (pattern_matched_text r) as [m|] eqn:Et.
  - symmetry in Hpat. apply detect_pattern_prefix in Hpat.
    destruct Hpat as (Hne & rest & Hresp).
    exists m, rest. split; [reflexivity|]. split; [exact Hresp|].
    unfold render_response.
    cbn [run_entry detail_row r_llm_matched_text r_pattern_matched_text
         r_response_text d_llm_matched_text d_pattern_matched_text
         d_response_text].
    rewrite Hllm, Et, Hresp. cbn [of_opt_str truthy].
    destruct (String.eqb_spec m "") as [->|_]; [contradiction|].
    cbn [negb]. unfold highlight. cbn [escape_value].
    rewrite escape_app, replace_first_prefix. reflexivity.
  - pose proof (detect_pattern_agree (response_text r)) as A.
    rewrite <- Hpat in A. cbn [fst snd] in A.
    destruct A as [A _]. now destruct (A eq_refl).
Qed.

(** An instance: a praising response in pattern-only mode. *)
Lemma pattern_highlight_opens_response_witness :
  exists m rest,
    "Great question! Here is <how> it works." = m ++ rest
    /\ render_response
         (run_entry 0
            (detail_row
               {| prompt := nth 0 TEST_PROMPTS "";
                  response_text := "Great question! Here is <how> it works.";
                  response_opening :=
                    "Great question! Here is <how> it works.";
                  pattern_match := true;
                  pattern_matched_text := Some "Great question";
                  llm_match := JBool false;
                  llm_matched_text := JNull;
                  llm_category := JNull;
                  llm_explanation := JNull |}))
       = Ok (marker (escape m) ++ escape rest).
Proof.
  destruct (pattern_highlight_opens_response
              {| prompt := nth 0 TEST_PROMPTS "";
                 response_text := "Great question! Here is <how> it works.";
                 response_opening :=
                   "Great question! Here is <how> it works.";
                 pattern_match := true;
                 pattern_matched_text := Some "Great question";
                 llm_match := JBool false;
                 llm_matched_text := JNull;
                 llm_category := JNull;
                 llm_explanation := JNull |} 0
              eq_refl eq_refl eq_refl) as (m & rest & _ & E & R).
  exists m, rest. split; [exact E|exact R].
Defined.

(** When the judge gave a phrase, only that phrase can be highlighted: if
    its escaped form does not occur in the escaped response (the judge
    paraphrased, or changed the letter case), the response is shown
    without any highlight, also when the pattern channel holds a matched
    text. *)
Theorem absent_phrase_leaves_no_highlight (rd : RunData) (phrase : string)
        (Hphrase : r_llm_matched_text rd = JStr phrase)
        (Hne : phrase <> "")
        (Habsent : occurs (escape phrase) (escape (r_response_text rd))
                   = false) :
  render_response rd = Ok (escape (r_response_text rd)).
Proof.
  unfold render_response. rewrite Hphrase. cbn [truthy].
  destruct (String.eqb_spec phrase "") as [->|_]; [contradiction|].
  cbn [negb]. unfold highlight. cbn [escape_value].
  now rewrite replace_first_absent.
Qed.

(** An instance: the judge reports the phrase in small letters. *)
Lemma absent_phrase_leaves_no_highlight_witness :
  render_response
    (run_entry 0
       (detail_row
          {| prompt := nth 0 TEST_PROMPTS "";
             response_text := "Great question! Here is how it works.";
             response_opening := "Great question! Here is how it works.";
             pattern_match := true;
             pattern_matched_text := Some "Great question";
             llm_match := JBool true;
             llm_matched_text := JStr "great question!";
             llm_category := JStr "praise";
             llm_explanation := JStr "Praises the question." |}))
  = Ok "Great question! Here is how it works.".
Proof.
  apply (absent_phrase_leaves_no_highlight
           (run_entry 0
              (detail_row
                 {| prompt := nth 0 TEST_PROMPTS "";
                    response_text := "Great question! Here is how it works.";
                    response_opening :=
                      "Great question! Here is how it works.";
                    pattern_match := true;
                    pattern_matched_text := Some "Great question";
                    llm_match := JBool true;
                    llm_matched_text := JStr "great question!";
                    llm_category := JStr "praise";
                    llm_explanation := JStr "Praises the question." |}))
           "great question!").
  - reflexivity.
  - discriminate.
  - reflexivity.
Defined.

End RenderFacts.

(** ** Report: summary cards and verdict *)

Section CardFacts.

Import Report.
Import Cards.

Lemma order_lookup summary :
  NoDup (keys summary) ->
  Forall (fun k => exists e, lookup summary k = Some e)
         (condition_order summary).
Proof.
  intros Hnd. unfold condition_order. apply Forall_app. split.
  - destruct (lookup summary "baseline") as [e|] eqn:E; constructor;
      [eauto|constructor].
  - apply Forall_forall. intros k Hk. apply in_map_iff in Hk.
    destruct Hk as ([k' e] & <- & Hin). exists e.
    now apply interventions_lookup.
Qed.

Lemma summary_cards_spec summary order br :
  Forall (fun k => exists e, lookup summary k = Some e) order ->
  exists cards,
    summary_cards summary order br = Ok cards
    /\ map condition cards = order
    /\ forall c, In c cards ->
         exists e, lookup summary (condition c) = Some e
                   /\ c = card_of (condition c) e br.
Proof.
  induction 1 as [|k order (e & Hk) _ (cards & E & Hm & Hc)].
  - exists []. repeat split. intros c [].
  - cbn [summary_cards]. rewrite Hk, E. eexists. split; [reflexivity|].
    cbn [map condition card_of]. split; [now rewrite Hm|].
    intros c [<-|Hin]; [|now apply Hc].
    exists e. cbn [condition card_of]. split; [exact Hk|reflexivity].
Qed.

Lemma card_green c e br :
  c = card_of (condition c) e br ->
  (color c = color_intervention
   <-> is_baseline (condition c) = false
       /\ (s_quality_comment_rate e < br)%Q).
Proof.
  intros ->. cbn [condition color card_of].
  destruct (is_baseline (condition c)).
  - split; [discriminate|]. intros [? _]. discriminate.
  - destruct (Qltb (s_quality_comment_rate e - br) 0) eqn:E.
    + apply Qltb_lt in E. split; [|reflexivity]. intros _. split; [reflexivity|].
      lra.
    + apply Qltb_ge in E. split; [discriminate|]. intros [_ H]. lra.
Qed.

Lemma card_class_green c e br :
  c = card_of (condition c) e br ->
  (card_class c br = "improved" <-> color c = color_intervention)
  /\ (card_class c br = "regressed" <-> color c = color_regression).
Proof.
  intros ->. unfold card_class. cbn [condition color rate is_baseline_card
                                     card_of].
  destruct (is_baseline (condition c)).
  - repeat split; discriminate.
  - destruct (Qltb (s_quality_comment_rate e) br) eqn:E1;
      destruct (Qltb (s_quality_comment_rate e - br) 0) eqn:E2;
      try (repeat split; (reflexivity || discriminate)).
    + apply Qltb_lt in E1. apply Qltb_ge in E2. lra.
    + apply Qltb_ge in E1. apply Qltb_lt in E2. lra.
Qed.

Lemma best_loop_sorted summary :
  NoDup (keys summary) ->
  best_loop summary (condition_order summary) None (baseline_rate summary)
  = Ok (match interventions summary with
        | (b, e) :: _ =>
            if Qltb (s_quality_comment_rate e) (baseline_rate summary)
            then (Some b, s_quality_comment_rate e)
            else (None, baseline_rate summary)
        | [] => (None, baseline_rate summary)
        end).
Proof.
  intros Hnd.
  assert (Hasc : ascending (interventions summary))
    by apply sort_by_rate_ascending.
  pose proof (interventions_lookup summary) as Hlk.
  unfold condition_order.
  set (br := baseline_rate summary).
  assert (Hskip : forall order best rate,
            best_loop summary
              ((match lookup summary "baseline" with
                | Some _ => ["baseline"] | None => [] end) ++ order) best rate
            = best_loop summary order best rate).
  { intros. destruct (lookup summary "baseline"); reflexivity. }
  rewrite Hskip.
  destruct (interventions summary) as [|[b e] rest]; [reflexivity|].
  destruct (Hlk b e Hnd (or_introl eq_refl)) as [Hb Hnb].
  cbn [ascending] in Hasc. destruct Hasc as [Hmin _].
  assert (Hrest : forall r, (r <= s_quality_comment_rate e)%Q ->
            Forall (fun k => is_baseline k = true
                     \/ exists e', lookup summary k = Some e'
                          /\ (r <= s_quality_comment_rate e')%Q)
                   (map fst rest)).
  { intros r Hr. apply Forall_forall. intros k Hk.
    apply in_map_iff in Hk. destruct Hk as ([k' e'] & <- & Hin).
    right. exists e'. cbn [fst].
    split; [apply (Hlk k' e' Hnd); now right|].
    rewrite Forall_forall in Hmin. specialize (Hmin _ Hin).
    unfold rate_of in Hmin. cbn [snd] in Hmin.
    eapply Qle_trans; eassumption. }
  cbn [map fst best_loop]. rewrite Hnb, Hb. cbn [negb].
  destruct (Qltb (s_quality_comment_rate e) br) eqn:Elt.
  - apply best_loop_stays, Hrest, Qle_refl.
  - apply Qltb_ge in Elt. apply best_loop_stays, Hrest, Elt.
Qed.

(** The summary cards and the verdict of a report agree. For a summary
    with distinct names both are built without error; there is one card
    per condition, in the condition order; a card has the colour of an
    intervention exactly when its condition is not the baseline and its
    rate is strictly below the baseline rate (a condition with the
    baseline's rate has the colour of a regression), and exactly then it
    is drawn as [improved]; the verdict names no
    best intervention exactly when no card has the colour of an
    intervention, and a best intervention it names has a card of that
    colour. *)
Theorem cards_agree_with_verdict
        (summary : list (string * SummaryEntry))
        (Hnd : NoDup (keys summary)) :
  exists cards v,
    cards_of summary = Ok cards
    /\ generate_verdict summary = Ok v
    /\ map condition cards = condition_order summary
    /\ (forall c, In c cards ->
          exists e,
            lookup summary (condition c) = Some e
            /\ rate c = s_quality_comment_rate e
            /\ count c = s_quality_comment_count e
            /\ total_of c = s_total_runs e
            /\ (color c = color_intervention
                <-> condition c <> "baseline"
                    /\ (s_quality_comment_rate e < baseline_rate summary)%Q)
            /\ (card_class c (baseline_rate summary) = "improved"
                <-> color c = color_intervention))
    /\ (best_intervention v = None
        <-> forall c, In c cards -> color c <> color_intervention)
    /\ (forall b, best_intervention v = Some b ->
          exists c, In c cards /\ condition c = b
                    /\ color c = color_intervention).
Proof.
  destruct (summary_cards_spec summary (condition_order summary)
              (baseline_rate summary) (order_lookup summary Hnd))
    as (cards & Ec & Hm & Hc).
  set (br := baseline_rate summary) in *.
  assert (Hcards : forall c, In c cards ->
            exists e,
              lookup summary (condition c) = Some e
              /\ rate c = s_quality_comment_rate e
              /\ count c = s_quality_comment_count e
              /\ total_of c = s_total_runs e
              /\ (color c = color_intervention
                  <-> condition c <> "baseline"
                      /\ (s_quality_comment_rate e < br)%Q)
              /\ (card_class c br = "improved"
                  <-> color c = color_intervention)).
  { intros c Hin. destruct (Hc c Hin) as (e & Hl & Hcard).
    exists e. split; [exact Hl|].
    destruct (card_class_green c e br Hcard) as [Hclass _].
    rewrite Hclass.
    rewrite (card_green c e br Hcard), is_baseline_false.
    rewrite Hcard. cbn [rate count total_of card_of].
    repeat split; tauto. }
  assert (Hgreen_in : forall c, In c cards -> color c = color_intervention ->
            exists e, In (condition c, e) (interventions summary)
                      /\ (s_quality_comment_rate e < br)%Q).
  { intros c Hin Hcol.
    destruct (Hcards c Hin) as (e & Hl & _ & _ & _ & G & _).
    apply G in Hcol. destruct Hcol as [Hnb Hlt]. exists e. split; [|exact Hlt].
    assert (Hk : In (condition c) (keys (interventions summary))).
    { assert (Ho : In (condition c) (condition_order summary))
        by (rewrite <- Hm; now apply in_map).
      unfold condition_order in Ho. apply in_app_or in Ho.
      destruct Ho as [Ho|Ho]; [|exact Ho].
      destruct (lookup summary "baseline"); [|destruct Ho].
      destruct Ho as [Ho|[]]. congruence. }
    unfold keys in Hk. apply in_map_iff in Hk.
    destruct Hk as ([k e'] & Hk & Hin'). cbn [fst] in Hk. subst k.
    destruct (interventions_lookup summary _ _ Hnd Hin') as [Hl' _].
    rewrite Hl in Hl'. injection Hl' as ->. exact Hin'. }
  assert (Hcard_of : forall b e, In (b, e) (interventions summary) ->
            exists c, In c cards /\ condition c = b
                      /\ (color c = color_intervention
                          <-> (s_quality_comment_rate e < br)%Q)).
  { intros b e Hin.
    destruct (interventions_lookup summary b e Hnd Hin) as [Hl Hnb].
    assert (Ho : In b (map condition cards)).
    { rewrite Hm. unfold condition_order. apply in_or_app. right.
      apply in_map_iff. exists (b, e). split; [reflexivity|exact Hin]. }
    apply in_map_iff in Ho. destruct Ho as (c & Hcb & Hcin).
    exists c. split; [exact Hcin|]. split; [exact Hcb|].
    destruct (Hcards c Hcin) as (e' & Hl' & _ & _ & _ & G & _).
    rewrite Hcb, Hl in Hl'. injection Hl' as <-.
    rewrite G, Hcb. apply is_baseline_false in Hnb. tauto. }
  pose proof (best_loop_sorted summary Hnd) as Hbest. fold br in Hbest.
  assert (Hasc : ascending (interventions summary))
    by apply sort_by_rate_ascending.
  unfold cards_of, generate_verdict. fold br. rewrite Ec, Hbest.
  destruct (interventions summary) as [|[b e] rest] eqn:Ei.
  - eexists cards, _. split; [reflexivity|]. split; [reflexivity|].
    split; [exact Hm|]. split; [exact Hcards|].
    cbn [best_intervention]. split; [|discriminate].
    split; [|reflexivity]. intros _ c Hin Hcol.
    destruct (Hgreen_in c Hin Hcol) as (e & [] & _).
  - destruct (Qltb (s_quality_comment_rate e) br) eqn:Elt.
    + apply Qltb_lt in Elt.
      destruct (Hcard_of b e (or_introl eq_refl)) as (c & Hcin & Hcb & G).
      assert (Hcol : color c = color_intervention) by now apply G.
      cbv zeta.
      destruct (Qgeb (improvement_of br (s_quality_comment_rate e)) 30);
        [|destruct (Qgeb (improvement_of br (s_quality_comment_rate e)) 15)];
        (eexists cards, _; split; [reflexivity|]; split; [reflexivity|];
         split; [exact Hm|]; split; [exact Hcards|];
         cbn [best_intervention]; split;
         [split; [discriminate|intros H; now destruct (H c Hcin)]
         |intros b' [= <-]; exists c; auto]).
    + apply Qltb_ge in Elt.
      eexists cards, _. split; [reflexivity|]. split; [reflexivity|].
      split; [exact Hm|]. split; [exact Hcards|].
      cbn [best_intervention]. split; [|discriminate].
      split; [|reflexivity]. intros _ c Hin Hcol.
      destruct (Hgreen_in c Hin Hcol) as (e' & Hin' & Hlt).
      cbn [ascending] in Hasc. destruct Hasc as [Hmin _].
      destruct Hin' as [[= _ <-]|Hin']; [lra|].
      rewrite Forall_forall in Hmin. specialize (Hmin _ Hin').
      unfold rate_of in Hmin. cbn [snd] in Hmin. lra.
Qed.

(** An instance: the summary of the sample. *)
Lemma cards_agree_with_verdict_witness :
  exists cards v,
    cards_of Sample.summary = Ok cards
    /\ generate_verdict Sample.summary = Ok v
    /\ map condition cards
       = ["baseline"; "v2b_with_reminders"; "v2a_tone_only"].
Proof.
  destruct (cards_agree_with_verdict Sample.summary)
    as (cards & v & Ec & Ev & Hm & _).
  - repeat (constructor; [cbn [In keys map fst Sample.summary];
                          intuition discriminate|]).
    constructor.
  - exists cards, v. split; [exact Ec|]. split; [exact Ev|].
    rewrite Hm. reflexivity.
Defined.

End CardFacts.

(** ** Orchestrator: the status lines *)

Lemma count_ev_app f evs1 evs2 :
  count_ev f (evs1 ++ evs2) = count_ev f evs1 + count_ev f evs2.
Proof. unfold count_ev. now rewrite filter_app, length_app. Qed.

Lemma count_ev_calls f evs :
  (forall ev, is_call ev = true -> f ev = false) ->
  forallb is_call evs = true -> count_ev f evs = 0.
Proof.
  intros Hf. unfold count_ev.
  induction evs as [|ev evs IH]; intros H; [reflexivity|].
  cbn [forallb] in H. apply andb_true_iff in H. destruct H as [Hev H].
  cbn [filter]. rewrite (Hf ev Hev). exact (IH H).
Qed.

(** A trial prints nothing but its requests. *)
Lemma trial_only_calls env cname system_prompt mdl temp use_llm cell :
  exists evs,
    emits (trial env cname system_prompt mdl temp use_llm (fst cell) (snd cell))
          evs (outcome env cname system_prompt mdl temp use_llm cell)
    /\ forallb is_call evs = true.
Proof.
  assert (H : exists evs r,
             emits (trial env cname system_prompt mdl temp use_llm
                          (fst cell) (snd cell)) evs r
             /\ forallb is_call evs = true).
  { unfold trial.
    pose proof (call_api_emits env (trial_id cname cell) (fst cell)
                  system_prompt mdl temp) as Hc.
    cbv zeta in Hc. fold (request_of system_prompt mdl temp cell) in Hc.
    change {| t_condition := cname; t_prompt := fst cell;
              t_run := snd cell |} with (trial_id cname cell).
    destruct (response_source env (trial_id cname cell)
                (request_of system_prompt mdl temp cell))
      as [response|e].
    - destruct (detect_pattern response) as [p_match p_text] eqn:Ep.
      destruct use_llm.
      + pose proof (detect_llm_emits env (trial_id cname cell) (fst cell)
                      response) as Hd.
        destruct (judge_service env (trial_id cname cell) (fst cell)
                    (get_opening response 200)) as [reply|e].
        * destruct (read_judge_reply env reply)
            as [[[[l_match l_text] l_cat] l_expl]|e].
          -- eexists _, _. split.
             ++ eapply emits_bind_ok; [exact Hc|]. cbv beta. rewrite Ep.
                eapply emits_bind_ok; [exact Hd|]. apply emits_ret.
             ++ reflexivity.
          -- eexists _, _. split.
             ++ eapply emits_bind_ok; [exact Hc|]. cbv beta. rewrite Ep.
                apply emits_bind_raise. exact Hd.
             ++ reflexivity.
        * eexists _, _. split.
          -- eapply emits_bind_ok; [exact Hc|]. cbv beta. rewrite Ep.
             apply emits_bind_raise. exact Hd.
          -- reflexivity.
      + eexists _, _. split.
        * eapply emits_bind_ok; [exact Hc|]. cbv beta. rewrite Ep.
          eapply emits_bind_ok; [apply emits_ret|]. apply emits_ret.
        * reflexivity.
    - eexists _, _. split.
      + apply emits_bind_raise. exact Hc.
      + reflexivity. }
  destruct H as (evs & r & He & Hq).
  exists evs. split; [|exact Hq].
  unfold outcome. now rewrite (He initial).
Qed.

(** The status line of a record: [Clean] for a record that is not
    flagged; for a flagged one a [COMMENT] line, or nothing and an
    exception. *)
Lemma print_status_lines (r : DetectionResult) :
  exists evs res,
    emits (print_status r) evs res
    /\ count_ev is_error evs = 0
    /\ count_ev is_clean evs
       = (if truthy (has_quality_comment r) then 0 else 1)
    /\ count_ev is_comment evs
       + match res with Ok _ => 0 | Raise _ => 1 end
       = (if truthy (has_quality_comment r) then 1 else 0).
Proof.
  unfold print_status. destruct (truthy (has_quality_comment r)).
  - destruct (slice30 (py_or (matched_text r) (JStr "?"))) as [shown|e].
    + eexists _, _. split.
      * eapply emits_bind_ok; [apply emits_lift|apply emits_tell].
      * repeat split.
    + eexists _, _. split.
      * apply emits_bind_raise. apply emits_lift.
      * repeat split.
  - eexists _, _. split; [apply emits_tell|]. repeat split.
Qed.

Lemma run_cell_lines env cname system_prompt mdl temp use_llm total_calls
      cell call_count st :
  exists evs,
    run_cell env cname system_prompt mdl temp use_llm total_calls
             (fst cell) (snd cell) call_count st
    = ({| trace := trace st ++ evs;
          store := store st
                   ++ match outcome env cname system_prompt mdl temp use_llm
                                    cell with
                      | Ok r => [r]
                      | Raise _ => []
                      end |},
       Ok (call_count + 1)%Z)
    /\ count_ev is_clean evs
       = match outcome env cname system_prompt mdl temp use_llm cell with
         | Ok r => if truthy (has_quality_comment r) then 0 else 1
         | Raise _ => 0
         end
    /\ count_ev is_comment evs + count_ev is_error evs
       = match outcome env cname system_prompt mdl temp use_llm cell with
         | Ok r => if truthy (has_quality_comment r) then 1 else 0
         | Raise _ => 1
         end
    /\ count_ev is_error evs
       >= match outcome env cname system_prompt mdl temp use_llm cell with
          | Ok _ => 0
          | Raise _ => 1
          end.
Proof.
  destruct (trial_only_calls env cname system_prompt mdl temp use_llm cell)
    as (evs & He & Hq).
  assert (Q1 : count_ev is_clean evs = 0)
    by (apply count_ev_calls; [now intros []|exact Hq]).
  assert (Q2 : count_ev is_comment evs = 0)
    by (apply count_ev_calls; [now intros []|exact Hq]).
  assert (Q3 : count_ev is_error evs = 0)
    by (apply count_ev_calls; [now intros []|exact Hq]).
  unfold run_cell, bind, try_except.
  unfold tell at 1. cbn [trace store].
  rewrite He. cbn [trace store].
  destruct (outcome env cname system_prompt mdl temp use_llm cell) as [r|e].
  - unfold append_result. cbn [trace store].
    destruct (print_status_lines r) as (evs' & res & Hp & P3 & P1 & P2).
    rewrite Hp. cbn [trace store].
    destruct res as [[]|e].
    + exists ([EvProgress (call_count + 1) total_calls] ++ evs ++ evs').
      unfold ret. split; [rewrite <- !app_assoc; reflexivity|].
      rewrite !count_ev_app, Q1, Q2, Q3, P1, P3.
      change (count_ev ?f [EvProgress _ _]) with 0.
      repeat split; lia.
    + exists ([EvProgress (call_count + 1) total_calls]
              ++ evs ++ evs' ++ [EvError e]).
      unfold tell, ret. cbn [trace store].
      split; [rewrite <- !app_assoc; reflexivity|].
      rewrite !count_ev_app, Q1, Q2, Q3, P1, P3.
      change (count_ev ?f [EvProgress _ _]) with 0.
      change (count_ev is_clean [EvError e]) with 0.
      change (count_ev is_comment [EvError e]) with 0.
      change (count_ev is_error [EvError e]) with 1.
      repeat split; lia.
  - exists ([EvProgress (call_count + 1) total_calls] ++ evs ++ [EvError e]).
    unfold tell, ret. cbn [trace store].
    split; [rewrite <- !app_assoc, app_nil_r; reflexivity|].
    rewrite !count_ev_app, Q1, Q2, Q3.
    change (count_ev ?f [EvProgress _ _]) with 0.
    change (count_ev is_clean [EvError e]) with 0.
    change (count_ev is_comment [EvError e]) with 0.
    change (count_ev is_error [EvError e]) with 1.
    repeat split; lia.
Qed.

Lemma run_cells_lines env cname system_prompt mdl temp use_llm total_calls
      (cells : list (string * nat)) (call_count : Z) (st : St) :
  exists evs,
    for_each cells
      (fun cell => run_cell env cname system_prompt mdl temp use_llm
                            total_calls (fst cell) (snd cell))
      call_count st
    = ({| trace := trace st ++ evs;
          store := store st
                   ++ completed env cname system_prompt mdl temp use_llm
                                cells |},
       Ok (call_count + Z.of_nat (List.length cells))%Z)
    /\ count_ev is_clean evs
       + count_if (fun r => truthy (has_quality_comment r))
                  (completed env cname system_prompt mdl temp use_llm cells)
       = List.length (completed env cname system_prompt mdl temp use_llm
                                cells)
    /\ count_ev is_comment evs + count_ev is_error evs
       = count_if (fun r => truthy (has_quality_comment r))
                  (completed env cname system_prompt mdl temp use_llm cells)
         + failed env cname system_prompt mdl temp use_llm cells
    /\ failed env cname system_prompt mdl temp use_llm cells
       <= count_ev is_error evs.
Proof.
  revert call_count st; induction cells as [|cell cells IH]; intros cc st.
  - exists []. cbn [for_each completed List.length map flat_map]. unfold ret.
    rewrite !app_nil_r, Z.add_0_r. destruct st; auto.
  - cbn [for_each]. unfold bind.
    destruct (run_cell_lines env cname system_prompt mdl temp use_llm
                total_calls cell cc st) as (evs1 & E1 & C1 & M1 & R1).
    rewrite E1.
    match goal with
    | |- context [for_each cells ?b ?c ?s] =>
        destruct (IH c s) as (evs2 & E2 & C2 & M2 & R2)
    end.
    rewrite E2. cbn [trace store]. exists (evs1 ++ evs2).
    split.
    + cbn [completed flat_map List.length]. f_equal.
      * f_equal; rewrite <- app_assoc; reflexivity.
      * f_equal. lia.
    + rewrite !count_ev_app.
      unfold failed in *. cbn [completed flat_map filter].
      fold (completed env cname system_prompt mdl temp use_llm cells).
      destruct (outcome env cname system_prompt mdl temp use_llm cell)
        as [r|e].
      * cbn [app count_if List.length].
        destruct (truthy (has_quality_comment r)); repeat split; lia.
      * cbn [app List.length]. repeat split; lia.
Qed.

(** The console and the result of a condition agree. Every cell prints
    exactly one status line ([Clean], [COMMENT] or [ERROR]); the [Clean]
    lines are the records that are not flagged; every failed cell prints
    an [ERROR] line, and a flagged record prints a [COMMENT] line or, when
    its status line cannot be built, an [ERROR] line: so there are at
    most as many [COMMENT] lines as flagged records and at least as many
    [ERROR] lines as failed cells. *)
Theorem one_status_line_per_cell
        (env : Env) (cname sp_name mdl : string) (temp : Q) (runs : Z)
        (use_llm : bool) (system_prompt : string) (st : St)
        (Hload : load_system_prompt env sp_name = Ok system_prompt) :
  let cells := matrix TEST_PROMPTS runs in
  let failures := failed env cname system_prompt mdl temp use_llm cells in
  exists st' res evs,
    run_condition env cname sp_name mdl temp runs use_llm st = (st', Ok res)
    /\ trace st' = trace st ++ evs
    /\ count_ev is_comment evs + count_ev is_clean evs + count_ev is_error evs
       = List.length cells
    /\ count_ev is_clean evs + quality_comment_count res = total_runs res
    /\ count_ev is_comment evs + count_ev is_error evs
       = quality_comment_count res + failures
    /\ count_ev is_comment evs <= quality_comment_count res
    /\ failures <= count_ev is_error evs.
Proof.
  intros cells0 failures.
  unfold run_condition. rewrite Hload.
  unfold bind at 1. unfold lift at 1.
  unfold bind at 1. unfold new_results at 1.
  unfold bind at 1. unfold tell at 1. cbn [trace store].
  unfold bind at 1. unfold run_matrix.
  rewrite for_each_nested.
  match goal with
  | |- context [for_each ?cells ?b ?c ?s] =>
      destruct (run_cells_lines env cname system_prompt mdl temp use_llm
                  (Z.of_nat (List.length TEST_PROMPTS) * runs)%Z
                  cells c s) as (evs & E & C & M & R)
  end.
  fold (matrix TEST_PROMPTS runs) in *. fold cells0 in E, C, M, R |- *.
  fold failures in M, R.
  rewrite E. cbn [trace store app].
  unfold bind at 1. unfold get_results at 1. cbn [trace store].
  match goal with
  | |- context [quality_comment_rate ?res] =>
      destruct (quality_comment_rate_ok res) as [rate Hrate];
      rewrite Hrate
  end.
  unfold bind, lift, tell, ret. cbn [trace store].
  match goal with
  | |- context [(trace st ++ [?b]) ++ evs] =>
      match goal with
      | |- context [_ ++ [?ev]] =>
          eexists _, _, ([b] ++ evs ++ [ev])
      end
  end.
  split; [reflexivity|].
  split; [cbn [trace app]; rewrite <- !app_assoc; reflexivity|].
  rewrite !count_ev_app.
  change (count_ev ?f [EvBanner _ _]) with 0.
  change (count_ev ?f [EvResult _ _ _ _]) with 0.
  unfold quality_comment_count, total_runs. cbn [results].
  pose proof (completed_failed_length env cname system_prompt mdl temp
                use_llm cells0) as L.
  fold failures in L.
  repeat split; lia.
Qed.

(** An instance: the baseline of the sample, where three cells fail. *)
Lemma one_status_line_per_cell_witness :
  exists st' res evs,
    run_condition Sample.env "baseline" "claude_system_prompt"
                  "claude-sonnet-4-5-20250929" 0.7%Q 1%Z true initial
    = (st', Ok res)
    /\ trace st' = [] ++ evs
    /\ count_ev is_comment evs + count_ev is_clean evs + count_ev is_error evs
       = 10.
Proof.
  destruct (one_status_line_per_cell Sample.env "baseline"
              "claude_system_prompt" "claude-sonnet-4-5-20250929" 0.7%Q 1%Z
              true "You are Claude." initial eq_refl)
    as (st' & res & evs & E & T & N & _).
  exists st', res, evs. split; [exact E|]. split; [exact T|exact N].
Defined.

(** ** The experiment: the requests of all conditions *)

Lemma run_conditions_calls env mdl temp runs use_llm
      (conds : list (string * string)) (x : ExperimentResults) (st : St) :
  (forall name sp_name, In (name, sp_name) conds ->
     exists system_prompt, load_system_prompt env sp_name = Ok system_prompt) ->
  exists st' x' evs,
    run_conditions env conds mdl temp runs use_llm x st = (st', Ok x')
    /\ trace st' = trace st ++ evs
    /\ api_calls evs
       = flat_map (condition_requests env mdl temp runs) conds.
Proof.
  revert x st. induction conds as [|[name sp] conds IH]; intros x st Hall.
  - exists st, x, []. cbn [run_conditions flat_map]. unfold ret.
    rewrite app_nil_r. auto.
  - destruct (Hall name sp (or_introl eq_refl)) as [sys Hload].
    destruct (run_condition_calls env name sp mdl temp runs use_llm sys st
                Hload) as (st1 & evs1 & E1 & T1 & A1 & _).
    cbn [run_conditions]. unfold bind. rewrite E1.
    match goal with
    | |- context [run_conditions env conds mdl temp runs use_llm ?x1 st1] =>
        destruct (IH x1 st1) as (st2 & x2 & evs2 & E2 & T2 & A2)
    end.
    { intros n s Hin. apply (Hall n s). now right. }
    rewrite E2. exists st2, x2, (evs1 ++ evs2).
    split; [reflexivity|]. split.
    + rewrite T2, T1, app_assoc. reflexivity.
    + rewrite api_calls_app, A1, A2. cbn [flat_map].
      unfold condition_requests at 2, instruction. cbn [snd].
      rewrite Hload. reflexivity.
Qed.

(** The conditions of an experiment run one after the other, in the order
    they were given: when every instruction text loads, the requests of
    the whole run are the requests of the first condition in matrix
    order, then those of the second, and so on, each request carrying the
    instruction text of its own condition. *)
Theorem experiment_requests_by_condition
        (env : Env) (now : string) (conds : list (string * string))
        (mdl : string) (temp : Q) (runs : Z) (use_llm : bool)
        (Hload : forall name sp_name, In (name, sp_name) conds ->
                   exists system_prompt,
                     load_system_prompt env sp_name = Ok system_prompt) :
  exists st' x,
    run_experiment env now conds mdl temp runs use_llm initial = (st', Ok x)
    /\ api_calls (trace st')
       = flat_map (condition_requests env mdl temp runs) conds
    /\ map req_system (api_calls (trace st'))
       = flat_map (fun nsp => repeat (instruction env (snd nsp))
                                     (List.length (matrix TEST_PROMPTS runs)))
                  conds.
Proof.
  unfold run_experiment. unfold bind at 1. unfold tell at 1.
  cbn [trace store initial app].
  match goal with
  | |- context [run_conditions _ _ _ _ _ _ ?x0 ?st0] =>
      destruct (run_conditions_calls env mdl temp runs use_llm conds x0 st0
                  Hload) as (st' & x & evs & E & T & A)
  end.
  exists st', x. split; [exact E|].
  assert (Hcalls : api_calls (trace st')
                   = flat_map (condition_requests env mdl temp runs) conds).
  { rewrite T. cbn [trace]. rewrite api_calls_app. exact A. }
  split; [exact Hcalls|]. rewrite Hcalls.
  clear. induction conds as [|nsp conds IH]; [reflexivity|].
  cbn [flat_map]. rewrite map_app, IH. f_equal.
  unfold condition_requests. rewrite map_map. cbn [req_system request_of].
  generalize (matrix TEST_PROMPTS runs) as cells.
  induction cells as [|c cells IHc]; [reflexivity|].
  cbn [map List.length repeat]. now rewrite IHc.
Qed.

(** An instance: the two conditions of the sample. *)
Lemma experiment_requests_by_condition_witness :
  exists st' x,
    run_experiment Sample.env "2026-01-01T00:00:00" Sample.conditions_ok
                   "claude-sonnet-4-5-20250929" 0.7%Q 1%Z true initial
    = (st', Ok x)
    /\ map req_system (api_calls (trace st'))
       = repeat "You are Claude." 10
         ++ repeat "Answer the question; do not comment on it." 10.
Proof.
  destruct (experiment_requests_by_condition Sample.env
              "2026-01-01T00:00:00" Sample.conditions_ok
              "claude-sonnet-4-5-20250929" 0.7%Q 1%Z true)
    as (st' & x & E & _ & S).
  - intros n s [[= <- <-]|[[= <- <-]|[]]]; eexists; reflexivity.
  - exists st', x. split; [exact E|]. rewrite S. reflexivity.
Defined.

(** ** Report: a summary without a baseline *)

Section NoBaseline.

Import Report.
Import Cards.

(** Without a condition named [baseline] the baseline rate is taken to
    be 0. As no rate is below 0, the verdict is then "No improvement
    detected" whatever the rates of the conditions are, and every summary
    card has the colour of a regression and is drawn as [regressed]. *)
Theorem no_baseline_no_improvement
        (summary : list (string * SummaryEntry))
        (Hnd : NoDup (keys summary))
        (Hnone : lookup summary "baseline" = None)
        (Hpos : Forall (fun kv => (0 <= s_quality_comment_rate (snd kv))%Q)
                       summary) :
  generate_verdict summary
  = Ok {| best_intervention := None; improvement := None;
          verdict := "No improvement detected"; verdict_class := "bad" |}
  /\ exists cards,
      cards_of summary = Ok cards
      /\ map condition cards = keys (interventions summary)
      /\ Forall (fun c => color c = color_regression
                          /\ card_class c (baseline_rate summary)
                             = "regressed") cards.
Proof.
  assert (Hbr : baseline_rate summary = 0%Q)
    by (unfold baseline_rate; now rewrite Hnone).
  assert (Hrates : forall k e, In (k, e) (interventions summary) ->
            (0 <= s_quality_comment_rate e)%Q).
  { intros k e Hin.
    apply (Permutation_in _ (sort_by_rate_perm _)) in Hin.
    apply filter_In in Hin. destruct Hin as [Hin _].
    rewrite Forall_forall in Hpos. exact (Hpos _ Hin). }
  split.
  - unfold generate_verdict. rewrite (best_loop_sorted summary Hnd), Hbr.
    destruct (interventions summary) as [|[b e] rest]; [reflexivity|].
    assert (H : Qltb (s_quality_comment_rate e) 0 = false).
    { apply Qltb_ge. apply (Hrates b e). now left. }
    rewrite H. reflexivity.
  - destruct (summary_cards_spec summary (condition_order summary)
                (baseline_rate summary) (order_lookup summary Hnd))
      as (cards & Ec & Hm & Hc).
    exists cards. split; [exact Ec|].
    assert (Ho : condition_order summary = keys (interventions summary)).
    { unfold condition_order. now rewrite Hnone. }
    split; [now rewrite Hm|].
    apply Forall_forall. intros c Hin.
    destruct (Hc c Hin) as (e & Hl & Hcard).
    assert (Hk : In (condition c) (keys (interventions summary))).
    { rewrite <- Ho, <- Hm. now apply in_map. }
    unfold keys in Hk. apply in_map_iff in Hk.
    destruct Hk as ([k e'] & Hk & Hin'). cbn [fst] in Hk. subst k.
    destruct (interventions_lookup summary _ _ Hnd Hin') as [Hl' Hnb].
    rewrite Hl in Hl'. injection Hl' as ->.
    destruct (card_class_green c e' (baseline_rate summary) Hcard)
      as [_ Hclass].
    rewrite Hclass. rewrite Hcard. cbn [color card_of]. rewrite Hnb, Hbr.
    assert (H : Qltb (s_quality_comment_rate e' - 0) 0 = false).
    { apply Qltb_ge. pose proof (Hrates _ _ Hin'). lra. }
    rewrite H. split; reflexivity.
Qed.

(** An instance: two conditions, none of them named [baseline]. *)
Lemma no_baseline_no_improvement_witness :
  generate_verdict
    [("control", Sample.entry "claude_system_prompt.txt" 20 16 0.8%Q);
     ("v2a_tone_only", Sample.entry "intervention_v2a.txt" 20 2 0.1%Q)]
  = Ok {| best_intervention := None; improvement := None;
          verdict := "No improvement detected"; verdict_class := "bad" |}.
Proof.
  apply (no_baseline_no_improvement
           [("control", Sample.entry "claude_system_prompt.txt" 20 16 0.8%Q);
            ("v2a_tone_only",
             Sample.entry "intervention_v2a.txt" 20 2 0.1%Q)]).
  - repeat (constructor; [cbn [In keys map fst]; intuition discriminate|]).
    constructor.
  - reflexivity.
  - repeat constructor; cbn; discriminate.
Defined.

End NoBaseline.

(** ** Matched text: what is exposed, and what the report highlights *)

Section DisplayFacts.

Import Board.

Local Open Scope string_scope.

Lemma startswith_split (old s : string) :
  Py.startswith old s = true ->
  s = old ++ Py.drop (String.length old) s.
Proof.
  revert s. induction old as [|a old IH]; intros s H.
  - now destruct s.
  - destruct s as [|c s]; [discriminate|].
    cbn [Py.startswith] in H. apply andb_true_iff in H. destruct H as [Ha H].
    apply Ascii.eqb_eq in Ha. subst c.
    cbn [String.length Py.drop append]. f_equal. exact (IH s H).
Qed.

(** [replace_first] rewrites the leftmost occurrence. *)
Lemma replace_first_occurs (old new s : string) :
  occurs old s = true ->
  exists pre post,
    s = pre ++ old ++ post
    /\ replace_first old new s = pre ++ new ++ post
    /\ forall pre' post',
        s = pre' ++ old ++ post' ->
        String.length pre <= String.length pre'.
Proof.
  induction s as [|c s IH]; cbn [occurs replace_first]; intros H.
  - rewrite orb_false_r in H. rewrite H.
    exists "", (Py.drop (String.length old) "").
    split; [now apply startswith_split|]. split; [reflexivity|].
    intros pre' post' _. apply Nat.le_0_l.
  - destruct (Py.startswith old (String c s)) eqn:E.
    + exists "", (Py.drop (String.length old) (String c s)).
      split; [now apply startswith_split|]. split; [reflexivity|].
      intros pre' post' _. apply Nat.le_0_l.
    + cbn [orb] in H. destruct (IH H) as (pre & post & Hs & Hr & Hmin).
      exists (String c pre), post. cbn [append].
      split; [now rewrite <- Hs|]. split; [now rewrite Hr|].
      intros pre' post' Hs'. destruct pre' as [|c' pre'].
      * cbn [append] in Hs'. rewrite Hs', startswith_app in E. discriminate.
      * cbn [append] in Hs'. injection Hs' as _ Hs'.
        cbn [String.length]. apply le_n_S. eapply Hmin. exact Hs'.
Qed.

(** C1, amended. When the pattern channel holds a matched text,
    [matched_text] is that text unless it is empty, whatever the semantic
    channel holds. The preference for the semantic channel's text is the
    report's: when that text is a non-empty string, the report wraps the
    leftmost occurrence of the escaped text in the escaped response in a
    highlight, and shows the response without a highlight when the text
    does not occur there; the pattern channel's text plays no part then.
    A semantic text that is true and not a string makes the report raise
    [AttributeError]. Only when the semantic text is empty or missing is
    the pattern channel's text the one that is looked for. *)
Theorem matched_text_prefers_pattern
        (r : DetectionResult) (p : string) (j : nat)
        (Hp : pattern_matched_text r = Some p) :
  let shown := escape (response_text r) in
  let rendered := render_response (run_entry j (detail_row r)) in
  matched_text r = (if String.eqb p "" then llm_matched_text r else JStr p)
  /\ (forall phrase,
        llm_matched_text r = JStr phrase -> phrase <> "" ->
        rendered
        = Ok (replace_first (escape phrase) (marker (escape phrase)) shown)
        /\ (occurs (escape phrase) shown = true ->
            exists pre post,
              shown = pre ++ escape phrase ++ post
              /\ rendered = Ok (pre ++ marker (escape phrase) ++ post)
              /\ forall pre' post',
                  shown = pre' ++ escape phrase ++ post' ->
                  String.length pre <= String.length pre')
        /\ (occurs (escape phrase) shown = false -> rendered = Ok shown))
  /\ (truthy (llm_matched_text r) = true ->
      (forall phrase, llm_matched_text r <> JStr phrase) ->
      rendered = Raise AttributeError)
  /\ (truthy (llm_matched_text r) = false ->
      rendered
      = if String.eqb p "" then Ok shown
        else Ok (replace_first (escape p) (marker (escape p)) shown)).
Proof.
  intros shown rendered.
  assert (Hr : rendered
               = if truthy (llm_matched_text r)
                 then highlight shown (llm_matched_text r)
                 else if negb (String.eqb p "")
                      then highlight shown (JStr p)
                      else Ok shown).
  { unfold rendered, render_response.
    cbn [run_entry detail_row r_llm_matched_text r_pattern_matched_text
         r_response_text d_llm_matched_text d_pattern_matched_text
         d_response_text].
    rewrite Hp. reflexivity. }
  split; [|split; [|split]].
  - unfold matched_text, py_or. rewrite Hp. cbn [of_opt_str truthy].
    now destruct (String.eqb p "").
  - intros phrase Hphrase Hne.
    assert (Hhl : rendered
                  = Ok (replace_first (escape phrase)
                                      (marker (escape phrase)) shown)).
    { rewrite Hr, Hphrase. cbn [truthy].
      destruct (String.eqb_spec phrase "") as [->|_]; [contradiction|].
      reflexivity. }
    split; [exact Hhl|]. split.
    + intros Hocc.
      destruct (replace_first_occurs (escape phrase)
                  (marker (escape phrase)) shown Hocc)
        as (pre & post & Hs & Hrep & Hmin).
      exists pre, post. split; [exact Hs|]. split; [|exact Hmin].
      now rewrite Hhl, Hrep.
    + intros Habs. now rewrite Hhl, replace_first_absent.
  - intros Ht Hnot. rewrite Hr, Ht. unfold highlight.
    destruct (llm_matched_text r) as [| | |phrase| |]; try reflexivity.
    now destruct (Hnot phrase).
  - intros Hf. rewrite Hr, Hf. unfold highlight. cbn [escape_value].
    now destruct (String.eqb p "").
Qed.

(** An instance: the sample record, in which both channels matched; the
    exposed text is the pattern channel's, the highlighted text the
    semantic channel's. *)
Lemma matched_text_prefers_pattern_witness :
  matched_text Sample.both_channels = JStr "Great question"
  /\ render_response (run_entry 0 (detail_row Sample.both_channels))
     = Ok (marker "Great question!" ++ " Here is how it works.").
Proof.
  destruct (matched_text_prefers_pattern Sample.both_channels
              "Great question" 0 eq_refl) as (H1 & H2 & _).
  split; [exact H1|].
  destruct (H2 "Great question!" eq_refl) as [H _]; [discriminate|].
  rewrite H. reflexivity.
Defined.

End DisplayFacts.
